(** * flopy: the unstructured model grid (discretization/unstructuredgrid.py)

    A shallow embedding of [UnstructuredGrid] and of the properties its
    specification states about it.

    Conventions of the embedding.
    - A Python object that may be [None] is an [option].
    - Python and numpy integers are [Z] (ids, counts, indices); the values are
      taken to stay inside the int64 range, so no wrap-around occurs.
    - Coordinates and elevations are Python floats.  The code below only
      multiplies and compares them, so it is written over an arbitrary number
      type [R] with the operations of class [Num]; IEEE binary64
      ([PrimFloat.float]) is the instance used to run the model.
    - Numeric arrays (ndarray or list of numbers) are [list]s.  The cell
      centers may be Python lists or ndarrays, and [*] tells the two apart,
      so the object keeps which of the two each of them is ([container]);
      the elevations are ndarrays, with elementwise arithmetic.
    - A raised exception is [Raise e]; a method that mutates [self] returns
      the new object next to its outcome, also when it raises.
    - Code of other modules that the class calls (coordinate transform,
      polygon orientation, matplotlib's point-in-path test) is a field of
      class [Services]; the few members of the base class [Grid] the methods
      rely on are written out from the specification, each marked as such.
    - The attributes that only keep a constructor argument for its getter
      (nodes, njag, nper, ...) are left out of the object. *)

From Stdlib Require Import ZArith String Ascii List Bool Lia.
From Stdlib Require Import Floats.PrimFloat.
From stdpp Require Import gmap strings list fin_maps.

Local Open Scope string_scope.
Local Open Scope Z_scope.

(** ** Exceptions and outcomes *)

Inductive exn : Type :=
| TypeError
| KeyError
| IndexError
| AssertionError
| ValueError (msg : string)
| PyException (msg : string).

Inductive result (A : Type) : Type :=
| Ok (a : A)
| Raise (e : exn).
Arguments Ok {A} a.
Arguments Raise {A} e.

Definition bind {A B} (m : result A) (f : A -> result B) : result B :=
  match m with
  | Ok a => f a
  | Raise e => Raise e
  end.

Notation "x <- m ;; k" := (bind m (fun x => k))
  (at level 100, m at next level, right associativity).
(** [for x in xs: ...] over a body that may raise, collecting the results
    (a list comprehension). *)
Fixpoint mapR {A B} (f : A -> result B) (xs : list A) : result (list B) :=
  match xs with
  | [] => Ok []
  | x :: xs' => y <- f x;; ys <- mapR f xs';; Ok (y :: ys)
  end.

(** Iterating over, indexing or doing arithmetic on [None] raises TypeError. *)
Definition not_None {A} (o : option A) : result A :=
  match o with
  | Some a => Ok a
  | None => Raise TypeError
  end.

Definition is_not_None {A} (o : option A) : bool :=
  match o with
  | Some _ => true
  | None => false
  end.

(** [l[i]] on a list or a 1-d array: a negative index counts from the end. *)
Definition py_index {A} (l : list A) (i : Z) : result A :=
  let n := Z.of_nat (length l) in
  let j := if i <? 0 then i + n else i in
  if (0 <=? j) && (j <? n)
  then match l !! Z.to_nat j with
       | Some a => Ok a
       | None => Raise IndexError
       end
  else Raise IndexError.

(** [l[start:stop]]: both bounds are clipped, negative ones count from the
    end. *)
Definition py_slice_bound (n i : Z) : Z :=
  let j := if i <? 0 then i + n else i in
  Z.max 0 (Z.min n j).

Definition py_slice {A} (l : list A) (start stop : Z) : list A :=
  let n := Z.of_nat (length l) in
  let a := py_slice_bound n start in
  let b := py_slice_bound n stop in
  take (Z.to_nat (b - a)) (drop (Z.to_nat a) l).

(** [range(n)] *)
Definition py_range (n : Z) : list Z :=
  Z.of_nat <$> seq 0 (Z.to_nat n).

Definition len {A} (l : list A) : Z := Z.of_nat (length l).

(** numpy's sum of an integer array *)
Definition np_sum (l : list Z) : Z := foldr Z.add 0 l.

(** numpy's integer remainder: the sign follows the divisor and a zero
    divisor gives 0 (with a warning), not an exception. *)
Definition np_mod (a b : Z) : Z := if b =? 0 then 0 else a mod b.

(** ** Numbers *)

(** What a sequence of numbers is held in: a Python list or an ndarray. *)
Inductive container : Type :=
| PyList
| NdArray.

Class Num (R : Type) : Type := {
  num_zero : R;                  (* 0.0 *)
  num_mul : R -> R -> R;         (* a * b *)
  num_leb : R -> R -> bool;      (* a <= b *)
  num_eqb : R -> R -> bool;      (* a == b, also the equality of dict keys *)
  tol : R;                       (* 1e-9 *)
  neg_tol : R;                   (* -1e-9 *)
  num_int : R -> option Z        (* the value of a number of type int; None
                                    for a float, also an integral one *)
}.

(** [a >= b] *)
Definition num_geb {R} `{Num R} (a b : R) : bool := num_leb b a.

(** ** External collaborators

    Code the class calls and the file does not contain. *)

Class Services (R : Type) : Type := {
  (* utils.geometry.transform (x, y, xoff, yoff, angrot_radians), called by
     Grid.get_coords with the grid's offsets and rotation; the rotation is
     passed as the grid stores it, its conversion to radians belongs to the
     service *)
  transform : R -> R -> R -> R -> R -> R * R;
  (* utils.geometry.is_clockwise (x, y) *)
  is_clockwise : list R -> list R -> bool;
  (* matplotlib.path.Path(vertices).contains_point(point, radius) *)
  contains_point : list (R * R) -> R * R -> R -> bool;
  (* Grid._zcoords: the elevation of a cell center between top and bottom *)
  zcenter : R -> R -> R
}.

(** ** The grid object *)

Section Grid.
Context {R : Type} `{Num R} `{Services R}.

(** The two bundles [_build_grid_geometry_info] stores in the cache. *)
Inductive cache_data : Type :=
| CellCenters (xcenters ycenters zcenters : option (list R))
| XYZGrid (xvertices yvertices : list (list R))
          (zvertices : option (list R * list R)).

Record CachedData : Type := {
  data : cache_data;
  out_of_date : bool
}.

Record UnstructuredGrid : Type := {
  _vertices : option (list (Z * R * R));        (* [iv, xv, yv] *)
  _iverts : option (list (list (option Z)));
  _xc : option (list R);
  _yc : option (list R);
  _xc_kind : container;          (* type(self._xc): list or ndarray *)
  _yc_kind : container;          (* type(self._yc) *)
  _top : option (list R);
  _botm : option (list R);
  _idomain : option (list Z);
  _lenuni : option Z;
  _ncpl : option (list Z);
  _crs : option string;
  _prjfile : option string;
  _xoff : R;
  _yoff : R;
  _angrot : R;
  _iac : option (list Z);
  _ja : option (list Z);
  _neighbors : option (gmap Z (list Z));
  _cache_dict : gmap string CachedData;
  _copy_cache : bool
}.

Definition set__ncpl (g : UnstructuredGrid) (v : option (list Z)) :=
  {| _vertices := _vertices g; _iverts := _iverts g; _xc := _xc g;
     _yc := _yc g; _xc_kind := _xc_kind g; _yc_kind := _yc_kind g;
     _top := _top g; _botm := _botm g;
     _idomain := _idomain g; _lenuni := _lenuni g; _ncpl := v;
     _crs := _crs g; _prjfile := _prjfile g; _xoff := _xoff g;
     _yoff := _yoff g; _angrot := _angrot g; _iac := _iac g; _ja := _ja g;
     _neighbors := _neighbors g; _cache_dict := _cache_dict g;
     _copy_cache := _copy_cache g |}.

Definition set__cache_dict (g : UnstructuredGrid)
    (c : gmap string CachedData) :=
  {| _vertices := _vertices g; _iverts := _iverts g; _xc := _xc g;
     _yc := _yc g; _xc_kind := _xc_kind g; _yc_kind := _yc_kind g;
     _top := _top g; _botm := _botm g;
     _idomain := _idomain g; _lenuni := _lenuni g; _ncpl := _ncpl g;
     _crs := _crs g; _prjfile := _prjfile g; _xoff := _xoff g;
     _yoff := _yoff g; _angrot := _angrot g; _iac := _iac g; _ja := _ja g;
     _neighbors := _neighbors g; _cache_dict := c;
     _copy_cache := _copy_cache g |}.

Definition set__neighbors (g : UnstructuredGrid)
    (n : option (gmap Z (list Z))) :=
  {| _vertices := _vertices g; _iverts := _iverts g; _xc := _xc g;
     _yc := _yc g; _xc_kind := _xc_kind g; _yc_kind := _yc_kind g;
     _top := _top g; _botm := _botm g;
     _idomain := _idomain g; _lenuni := _lenuni g; _ncpl := _ncpl g;
     _crs := _crs g; _prjfile := _prjfile g; _xoff := _xoff g;
     _yoff := _yoff g; _angrot := _angrot g; _iac := _iac g; _ja := _ja g;
     _neighbors := n; _cache_dict := _cache_dict g;
     _copy_cache := _copy_cache g |}.

Definition set__vertices_iverts (g : UnstructuredGrid)
    (vs : option (list (Z * R * R))) (ivs : option (list (list (option Z)))) :=
  {| _vertices := vs; _iverts := ivs; _xc := _xc g;
     _yc := _yc g; _xc_kind := _xc_kind g; _yc_kind := _yc_kind g;
     _top := _top g; _botm := _botm g;
     _idomain := _idomain g; _lenuni := _lenuni g; _ncpl := _ncpl g;
     _crs := _crs g; _prjfile := _prjfile g; _xoff := _xoff g;
     _yoff := _yoff g; _angrot := _angrot g; _iac := _iac g; _ja := _ja g;
     _neighbors := _neighbors g; _cache_dict := _cache_dict g;
     _copy_cache := _copy_cache g |}.

(** *** The part of the base class [Grid] the methods below rely on *)

(** Modelled from the spec: [Grid.is_complete], of the base class in
    discretization/grid.py: the top and bottom elevation arrays are present
    ("if either of these are None, then the grid is not complete"). *)
Definition Grid_is_complete (g : UnstructuredGrid) : bool :=
  is_not_None (_top g) && is_not_None (_botm g).

(** Modelled from the spec: [Grid._require_cache_updates], of the base class:
    every cache entry is tagged out of date. *)
Definition _require_cache_updates (g : UnstructuredGrid) : UnstructuredGrid :=
  set__cache_dict g
    ((fun c => {| data := data c; out_of_date := true |}) <$> _cache_dict g).

(** Modelled from the spec: [Grid._has_ref_coordinates], of the base class:
    the grid has a reference-frame offset or rotation. *)
Definition _has_ref_coordinates (g : UnstructuredGrid) : bool :=
  negb (num_eqb (_xoff g) num_zero) || negb (num_eqb (_yoff g) num_zero)
  || negb (num_eqb (_angrot g) num_zero).

(** Modelled from the spec: [Grid.get_coords], of the base class: local to
    world coordinates through the transform service with the grid's offsets
    and rotation; on a point and, elementwise, on arrays. *)
Definition get_coords (g : UnstructuredGrid) (x y : R) : R * R :=
  transform x y (_xoff g) (_yoff g) (_angrot g).

Definition get_coords_array (g : UnstructuredGrid) (xs ys : list R)
  : list R * list R :=
  let ps := zip_with (get_coords g) xs ys in
  (fst <$> ps, snd <$> ps).

(** Modelled from the spec: [Grid._zcoords], of the base class: the z
    vertices are the top and the bottom of every cell (row 0 and row 1), the
    z centers lie between them; both are absent without elevation data. *)
Definition _zcoords (g : UnstructuredGrid)
  : option (list R * list R) * option (list R) :=
  match _top g, _botm g with
  | Some t, Some b => (Some (t, b), Some (zip_with zcenter t b))
  | _, _ => (None, None)
  end.

(** *** Properties *)

Definition is_valid (g : UnstructuredGrid) : bool :=
  let iv := true in
  let iv := if is_not_None (_iverts g) then iv else false in
  let iv := if is_not_None (_vertices g) then iv else false in
  let iv := if is_not_None (_xc g) then iv else false in
  let iv := if is_not_None (_yc g) then iv else false in
  iv.

(** [self.is_valid is not None]: the property returns a bool object, which is
    compared with [None]. *)
Definition is_complete (g : UnstructuredGrid) : bool :=
  if is_not_None (Some (is_valid g)) && Grid_is_complete g
  then true
  else false.

Definition ncpl (g : UnstructuredGrid) : option (list Z) := _ncpl g.

Definition nlay (g : UnstructuredGrid) : option Z :=
  match ncpl g with
  | None => None
  | Some a => Some (len a)
  end.

Definition nnodes (g : UnstructuredGrid) : option Z :=
  match ncpl g with
  | None => None
  | Some a => Some (np_sum a)
  end.

(** [self.ncpl[i]] *)
Definition ncpl_at (g : UnstructuredGrid) (i : Z) : result Z :=
  a <- not_None (ncpl g);; py_index a i.

Definition grid_varies_by_layer (g : UnstructuredGrid) : result bool :=
  if is_valid g
  then n0 <- ncpl_at g 0;;
       ivs <- not_None (_iverts g);;
       if n0 =? len ivs then Ok false else Ok true
  else Ok false.

Definition nvert (g : UnstructuredGrid) : result Z :=
  vs <- not_None (_vertices g);; Ok (len vs).

(** [iverts]: the vertex ids of every cell, [None] padding dropped. *)
Definition iverts (g : UnstructuredGrid) : option (list (list Z)) :=
  match _iverts g with
  | Some ivs => Some ((fun t : list (option Z) => omap (fun ivt => ivt) t) <$> ivs)
  | None => None
  end.

(** *** Construction *)

(** What a caller may pass as [ncpl]: an int; a list, tuple or ndarray (of
    [ndim] dimensions, with the integers it holds); anything else. *)
Inductive ncpl_arg : Type :=
| NcplInt (n : Z)
| NcplArray (ndim : nat) (a : list Z)
| NcplOther.

Definition set_ncpl (g : UnstructuredGrid) (v : ncpl_arg)
  : result UnstructuredGrid :=
  let v := match v with
           | NcplInt n => NcplArray 1 [n]
           | _ => v
           end in
  match v with
  | NcplArray ndim a =>
      if (ndim =? 1)%nat
      then Ok (_require_cache_updates (set__ncpl g (Some a)))
      else Raise AssertionError
  | _ => Raise TypeError
  end.

(** A row of the [cell2d] table: cell id, x, y, vertex count, vertex ids. *)
Record c2drec : Type := {
  c2d_ix : Z;
  c2d_xc : R;
  c2d_yc : R;
  c2d_nv : Z;
  c2d_iverts : list (option Z)
}.

Record init_args : Type := {
  a_vertices : option (list (Z * R * R));
  a_iverts : option (list (list (option Z)));
  a_xcenters : option (list R);
  a_ycenters : option (list R);
  a_xcenters_kind : container;   (* type(xcenters): list or ndarray *)
  a_ycenters_kind : container;   (* type(ycenters) *)
  a_top : option (list R);
  a_botm : option (list R);
  a_idomain : option (list Z);
  a_lenuni : option Z;
  a_ncpl : option ncpl_arg;
  a_crs : option string;
  a_prjfile : option string;
  a_xoff : R;
  a_yoff : R;
  a_angrot : R;
  a_iac : option (list Z);
  a_ja : option (list Z);
  a_cell2d : option (list c2drec)
}.

(** The assertions at the end of [__init__], on the length of [iverts]. *)
Definition check_iverts_length (g : UnstructuredGrid)
    (ivs : list (list (option Z))) : result unit :=
  gvbl <- grid_varies_by_layer g;;
  if gvbl
  then if bool_decide (Some (len ivs) = nnodes g)
       then Ok tt
       else Raise AssertionError
  else a <- not_None (ncpl g);;
       if forallb (fun cpl => cpl =? len ivs) a
       then Ok tt
       else Raise AssertionError.

(** The centers and the cell vertex lists [__init__] stores: read off the
    [cell2d] table when one is passed. *)
Definition init_cells (a : init_args)
  : option (list R) * option (list R) * option (list (list (option Z))) :=
  match a_cell2d a with
  | Some c2d => (Some (c2d_xc <$> c2d), Some (c2d_yc <$> c2d),
                 Some (c2d_iverts <$> c2d))
  | None => (a_xcenters a, a_ycenters a, a_iverts a)
  end.

(** [np.array(...)] makes ndarrays of the centers read off the table. *)
Definition init_kinds (a : init_args) : container * container :=
  match a_cell2d a with
  | Some _ => (NdArray, NdArray)
  | None => (a_xcenters_kind a, a_ycenters_kind a)
  end.

(** The object after the attribute assignments of [__init__], before [ncpl]
    is looked at. *)
Definition init_attrs (a : init_args) : UnstructuredGrid :=
  let '(xcenters, ycenters, ivs) := init_cells a in
  {| _vertices := a_vertices a; _iverts := ivs; _xc := xcenters;
     _yc := ycenters; _xc_kind := (init_kinds a).1;
     _yc_kind := (init_kinds a).2; _top := a_top a; _botm := a_botm a;
     _idomain := a_idomain a; _lenuni := a_lenuni a; _ncpl := None;
     _crs := a_crs a; _prjfile := a_prjfile a; _xoff := a_xoff a;
     _yoff := a_yoff a; _angrot := a_angrot a; _iac := a_iac a;
     _ja := a_ja a; _neighbors := None; _cache_dict := ∅;
     _copy_cache := true |}.

(** [iverts], the local variable of [__init__], is what [_iverts] holds. *)
Definition __init__ (a : init_args) : result UnstructuredGrid :=
  let g := init_attrs a in
  let ivs := _iverts g in
  g <- match a_ncpl a with
       | Some n => set_ncpl g n
       | None =>
           if is_valid g
           then ivs' <- not_None ivs;; set_ncpl g (NcplInt (len ivs'))
           else Ok g
       end;;
  _ <- match ivs with
       | Some ivs' => check_iverts_length g ivs'
       | None => Ok tt
       end;;
  Ok g.

(** *** cell2d *)

(** What the layering guard of [cell2d] evaluates besides comparisons:
    [ncenters / self.nnodes % 0]. *)
Inductive arith_event : Type :=
| ModByLiteralZero (ncenters nnodes : Z).

(** [ncenters != self.nnodes and ncenters / self.nnodes % 0].  The right
    operand is evaluated only when the left one is true.  Its quotient is a
    numpy float64 ([nnodes] is a numpy integer), whose remainder by zero is
    nan, with a warning and no exception; nan is true. *)
Definition cell2d_guard (ncenters : Z) (nn : option Z)
  : list arith_event * result bool :=
  match nn with
  | None => ([], Raise TypeError)
  | Some nn =>
      if negb (ncenters =? nn)
      then ([ModByLiteralZero ncenters nn], Ok true)
      else ([], Ok false)
  end.

Fixpoint cell2d_loop (g : UnstructuredGrid) (is_layered : bool)
    (ixs : list Z) (ix_adj : Z) : result (list c2drec) :=
  match ixs with
  | [] => Ok []
  | ix :: rest =>
      ix_adj <- (if is_layered
                 then n0 <- ncpl_at g 0;;
                      if (np_mod ix n0 =? 0) && negb (ix =? 0)
                      then Ok (ix_adj + n0)
                      else Ok ix_adj
                 else Ok ix_adj);;
      ivs <- not_None (_iverts g);;
      iverts <- py_index ivs (ix - ix_adj);;
      xc <- not_None (_xc g);;
      x <- py_index xc (ix - ix_adj);;
      yc <- not_None (_yc g);;
      y <- py_index yc (ix - ix_adj);;
      let c2drec := {| c2d_ix := ix; c2d_xc := x; c2d_yc := y;
                       c2d_nv := len iverts; c2d_iverts := iverts |} in
      recs <- cell2d_loop g is_layered rest ix_adj;;
      Ok (c2drec :: recs)
  end.

(** The property, with the arithmetic events of its guard. *)
Definition cell2d_run (g : UnstructuredGrid)
  : list arith_event * result (option (list c2drec)) :=
  if is_valid g
  then match _xc g with
       | None => ([], Raise TypeError)
       | Some xc =>
           let ncenters := len xc in
           let '(events, guard) := cell2d_guard ncenters (nnodes g) in
           (events,
            is_layered <- guard;;
            nn <- not_None (nnodes g);;
            recs <- cell2d_loop g is_layered (py_range nn) 0;;
            Ok (Some recs))
       end
  else ([], Ok None).

Definition cell2d (g : UnstructuredGrid) : result (option (list c2drec)) :=
  snd (cell2d_run g).

Definition cell2d_events (g : UnstructuredGrid) : list arith_event :=
  fst (cell2d_run g).

(** *** Derived geometry and its cache *)

Definition vertexdict_of (vs : list (Z * R * R)) : gmap Z (R * R) :=
  foldl (fun d v => let '(iv, x, y) := v in <[iv := (x, y)]> d) ∅ vs.

Definition dict_get {V} (d : gmap Z V) (k : Z) : result V :=
  match d !! k with
  | Some v => Ok v
  | None => Raise KeyError
  end.

(** The x and the y coordinates of the vertices of one cell. *)
Definition cell_xy (vertexdict : gmap Z (R * R)) (ivs : list Z)
  : result (list R * list R) :=
  ps <- mapR (dict_get vertexdict) ivs;;
  Ok (fst <$> ps, snd <$> ps).

(** [get_coords] on two arrays, which must have one length. *)
Definition get_coords_arrays (g : UnstructuredGrid) (xs ys : list R)
  : result (list R * list R) :=
  if (length xs =? length ys)%nat
  then Ok (get_coords_array g xs ys)
  else Raise (ValueError "operands could not be broadcast together").

Definition _build_grid_geometry_info (g : UnstructuredGrid)
  : result UnstructuredGrid :=
  let cache_index_cc := "cellcenters" in
  let cache_index_vert := "xyzgrid" in
  vs <- not_None (_vertices g);;
  let vertexdict := vertexdict_of vs in
  let xcenters := _xc g in
  let ycenters := _yc g in
  ivs <- not_None (iverts g);;
  cells <- mapR (cell_xy vertexdict) ivs;;
  let '(zvertices, zcenters) := _zcoords g in
  geom <- (if _has_ref_coordinates g
           then xc <- not_None xcenters;;
                yc <- not_None ycenters;;
                cc <- get_coords_arrays g xc yc;;
                cells' <- mapR (fun c => get_coords_arrays g (fst c) (snd c))
                               cells;;
                Ok (Some (fst cc), Some (snd cc), cells')
           else Ok (xcenters, ycenters, cells));;
  let '(xcenters, ycenters, cells) := geom in
  let xvertices := fst <$> cells in
  let yvertices := snd <$> cells in
  Ok (set__cache_dict g
        (<[cache_index_vert :=
             {| data := XYZGrid xvertices yvertices zvertices;
                out_of_date := false |}]>
           (<[cache_index_cc :=
                {| data := CellCenters xcenters ycenters zcenters;
                   out_of_date := false |}]>
              (_cache_dict g)))).

(** [CachedData.data] is a deep copy of the stored bundle and
    [CachedData.data_nocopy] the bundle itself: one value here. *)
Definition data_nocopy (c : CachedData) : cache_data := data c.

Definition cache_read (g : UnstructuredGrid) (cache_index : string)
  : option cache_data :=
  if _copy_cache g
  then data <$> (_cache_dict g !! cache_index)
  else data_nocopy <$> (_cache_dict g !! cache_index).

Definition cache_stale (g : UnstructuredGrid) (cache_index : string) : bool :=
  match _cache_dict g !! cache_index with
  | None => true
  | Some c => out_of_date c
  end.

Definition xyzvertices (g : UnstructuredGrid)
  : result (list (list R) * list (list R) * option (list R * list R))
    * UnstructuredGrid :=
  let cache_index := "xyzgrid" in
  match (if cache_stale g cache_index
         then _build_grid_geometry_info g
         else Ok g) with
  | Raise e => (Raise e, g)
  | Ok g' =>
      match cache_read g' cache_index with
      | Some (XYZGrid xv yv zv) => (Ok (xv, yv, zv), g')
      | Some (CellCenters _ _ _) => (Raise TypeError, g')
      | None => (Raise KeyError, g')
      end
  end.

Definition xyzcellcenters (g : UnstructuredGrid)
  : result (option (list R) * option (list R) * option (list R))
    * UnstructuredGrid :=
  let cache_index := "cellcenters" in
  match (if cache_stale g cache_index
         then _build_grid_geometry_info g
         else Ok g) with
  | Raise e => (Raise e, g)
  | Ok g' =>
      match cache_read g' cache_index with
      | Some (CellCenters xc yc zc) => (Ok (xc, yc, zc), g')
      | Some (XYZGrid _ _ _) => (Raise TypeError, g')
      | None => (Raise KeyError, g')
      end
  end.

(** *** intersect *)

(** What [intersect] returns: a cell number or [np.nan]. *)
Inductive cellid : Type :=
| Cell (icell2d : Z)
| NaN.

(** [np.any(x <= xa) and np.any(x >= xa) and np.any(y <= ya) and
    np.any(y >= ya)] *)
Definition in_vertex_range (x y : R) (xa ya : list R) : bool :=
  existsb (fun a => num_leb x a) xa && existsb (fun a => num_geb x a) xa
  && existsb (fun a => num_leb y a) ya && existsb (fun a => num_geb y a) ya.

Definition cell_radius (xa ya : list R) : R :=
  if is_clockwise xa ya then neg_tol else tol.

(** [Path(np.stack((xa, ya)).transpose()).contains_point((x, y), radius)] *)
Definition cell_contains (x y : R) (xa ya : list R) : bool :=
  contains_point (zip xa ya) (x, y) (cell_radius xa ya).

(** The test a cell of the scan has to pass. *)
Definition cell_test (x y : R) (xa ya : list R) : bool :=
  if in_vertex_range x y xa ya
  then cell_contains x y xa ya
  else false.

(** [for lay in range(self.nlay)], on the cell that contains (x, y). *)
Fixpoint intersect_layers (g : UnstructuredGrid) (gvbl : bool)
    (zv : option (list R * list R)) (z : R) (lays : list Z) (icell2d : Z)
  : result (option Z) :=
  match lays with
  | [] => Ok None
  | lay :: rest =>
      icell2d <- (if negb (lay =? 0) && negb gvbl
                  then c <- ncpl_at g (lay - 1);; Ok (icell2d + c)
                  else Ok icell2d);;
      zv' <- not_None zv;;
      ztop <- py_index (fst zv') icell2d;;
      if num_geb ztop z
      then zbot <- py_index (snd zv') icell2d;;
           if num_geb z zbot
           then Ok (Some icell2d)
           else intersect_layers g gvbl zv z rest icell2d
      else intersect_layers g gvbl zv z rest icell2d
  end.

(** [for icell2d in range(ncpl)] *)
Fixpoint intersect_cells (g : UnstructuredGrid) (gvbl : bool)
    (xv yv : list (list R)) (zv : option (list R * list R))
    (x y : R) (z : option R) (cells : list Z) : result (option Z) :=
  match cells with
  | [] => Ok None
  | icell2d :: rest =>
      xa <- py_index xv icell2d;;
      ya <- py_index yv icell2d;;
      if cell_test x y xa ya
      then match z with
           | None => Ok (Some icell2d)
           | Some z' =>
               nl <- not_None (nlay g);;
               r <- intersect_layers g gvbl zv z' (py_range nl) icell2d;;
               match r with
               | Some i => Ok (Some i)
               | None => intersect_cells g gvbl xv yv zv x y z rest
               end
           end
      else intersect_cells g gvbl xv yv zv x y z rest
  end.

(** The number of cells [intersect] scans. *)
Definition intersect_ncpl (g : UnstructuredGrid) : result Z :=
  gvbl <- grid_varies_by_layer g;;
  if gvbl then not_None (nnodes g) else ncpl_at g 0.

Definition outside_msg : string := "point given is outside of the model area".

Definition intersect (g : UnstructuredGrid) (x y : R) (z : option R)
    (local forgive : bool) : result cellid * UnstructuredGrid :=
  let '(x, y) := if local then get_coords g x y else (x, y) in
  match xyzvertices g with
  | (Raise e, g') => (Raise e, g')
  | (Ok (xv, yv, zv), g') =>
      (gvbl <- grid_varies_by_layer g';;
       ncpl <- intersect_ncpl g';;
       r <- intersect_cells g' gvbl xv yv zv x y z (py_range ncpl);;
       match r with
       | Some icell2d => Ok (Cell icell2d)
       | None =>
           if forgive
           then Ok NaN
           else Raise (PyException outside_msg)
       end, g')
  end.

(** *** neighbors *)

Inductive neighbors_ret : Type :=
| NbList (l : list Z)
| NbDict (d : gmap Z (list Z)).

(** [enumerate(l)] *)
Definition enumerate {A} (l : list A) : list (Z * A) :=
  imap (fun i a => (Z.of_nat i, a)) l.

(** The loop of the "iac" method.  Its target variable is [node], the
    method's own argument; [idx0] is read and never assigned. *)
Fixpoint neighbors_iac_loop (ja : option (list Z)) (idx0 : Z)
    (items : list (Z * Z)) (node : option Z) (neighors : gmap Z (list Z))
  : result (option Z * gmap Z (list Z)) :=
  match items with
  | [] => Ok (node, neighors)
  | (n, ia) :: rest =>
      let node := Some n in
      let idx1 := idx0 + ia in
      ja' <- not_None ja;;
      let neighors := <[n := py_slice ja' (idx0 + 1) idx1]> neighors in
      neighbors_iac_loop ja idx0 rest node neighors
  end.

(** [Grid.neighbors] of the base class, for the "rook" and "queen" methods:
    not part of this file. *)
Variable Grid_neighbors :
  UnstructuredGrid -> option Z -> option string -> bool ->
  result neighbors_ret * UnstructuredGrid.

Definition neighbors (g : UnstructuredGrid) (node : option Z)
    (method : option string) (reset : bool)
  : result neighbors_ret * UnstructuredGrid :=
  if bool_decide (method = Some "iac")
  then
    let built :=
      if negb (is_not_None (_neighbors g)) || reset
      then iac <- not_None (_iac g);;
           p <- neighbors_iac_loop (_ja g) 0 (enumerate iac) node ∅;;
           Ok (fst p, set__neighbors g (Some (snd p)))
      else Ok (node, g) in
    match built with
    | Raise e => (Raise e, g)
    | Ok (node, g') =>
        (nb <- not_None (_neighbors g');;
         match node with
         | Some n => l <- dict_get nb n;; Ok (NbList l)
         | None => Ok (NbDict nb)
         end, g')
    end
  else Grid_neighbors g node method reset.

(** *** convert_grid *)

(** [a * factor] on an ndarray: elementwise. *)
Definition scale (factor : R) (a : list R) : list R :=
  (fun v => num_mul v factor) <$> a.

(** [a * factor] on the object a center attribute holds: elementwise on an
    ndarray; a Python list is repeated by an int and cannot be multiplied by
    a float. *)
Definition mul_seq (kind : container) (a : list R) (factor : R)
  : result (list R) :=
  match kind with
  | NdArray => Ok (scale factor a)
  | PyList =>
      match num_int factor with
      | Some n => Ok (concat (replicate (Z.to_nat n) a))
      | None => Raise TypeError
      end
  end.

Definition convert_grid (g : UnstructuredGrid) (factor : R)
  : result UnstructuredGrid :=
  if is_complete g
  then
    vs <- not_None (_vertices g);;
    let vertices :=
      (fun i : Z * R * R =>
         let '(iv, x, y) := i in (iv, num_mul x factor, num_mul y factor))
      <$> vs in
    xc <- not_None (_xc g);;
    xcenters <- mul_seq (_xc_kind g) xc factor;;
    yc <- not_None (_yc g);;
    ycenters <- mul_seq (_yc_kind g) yc factor;;
    top <- not_None (_top g);;
    botm <- not_None (_botm g);;
    __init__ {| a_vertices := Some vertices; a_iverts := _iverts g;
                a_xcenters := Some xcenters;
                a_ycenters := Some ycenters;
                a_xcenters_kind := _xc_kind g;
                a_ycenters_kind := _yc_kind g;
                a_top := Some (scale factor top);
                a_botm := Some (scale factor botm);
                a_idomain := _idomain g; a_lenuni := None; a_ncpl := None;
                a_crs := None; a_prjfile := None;
                a_xoff := num_mul (_xoff g) factor;
                a_yoff := num_mul (_yoff g) factor;
                a_angrot := _angrot g; a_iac := None; a_ja := None;
                a_cell2d := None |}
  else Raise AssertionError.

(** *** clean_iverts *)

(** Two (x, y) tuples are the same dict key. *)
Definition key_eqb (a b : R * R) : bool :=
  num_eqb (fst a) (fst b) && num_eqb (snd a) (snd b).

(** [vset]: a dict from (x, y) to the set of the ids found there, in the
    order in which its keys were inserted.
    [if vert in vset: vset[vert].add(iv) else: vset[vert] = {iv}] *)
Fixpoint vset_add (vset : list (R * R * gset Z)) (vert : R * R) (iv : Z)
  : list (R * R * gset Z) :=
  match vset with
  | [] => [(vert, {[iv]})]
  | (k, ids) :: rest =>
      if key_eqb k vert
      then (k, ids ∪ {[iv]}) :: rest
      else (k, ids) :: vset_add rest vert iv
  end.

Definition clean_vset (vs : list (Z * R * R)) : list (R * R * gset Z) :=
  foldl (fun vset rec => let '(iv, x, y) := rec in vset_add vset (x, y) iv)
        [] vs.

(** The body of [for (xv, yv), iverts in vset.items()], on the state
    (cnt, ivert_remap, vertices). *)
Definition clean_step (st : Z * gmap Z Z * list (Z * R * R))
    (item : R * R * gset Z) : Z * gmap Z Z * list (Z * R * R) :=
  let '(cnt, ivert_remap, vertices) := st in
  let '(xv, yv, ids) := item in
  let ivert_remap :=
    foldl (fun m iv => <[iv := cnt]> m) ivert_remap (elements ids) in
  (cnt + 1, ivert_remap, (vertices ++ [(cnt, xv, yv)])%list).

(** The new vertices and the new cell vertex lists. *)
Definition clean_tables (g : UnstructuredGrid)
  : result (list (Z * R * R) * list (list (option Z))) :=
  vs <- not_None (_vertices g);;
  let vset := clean_vset vs in
  let '(cnt, ivert_remap, vertices) := foldl clean_step (0, ∅, []) vset in
  ivs <- not_None (iverts g);;
  iverts' <- mapR (mapR (dict_get ivert_remap)) ivs;;
  Ok (vertices, (fun t : list Z => Some <$> t) <$> iverts').

Definition clean_iverts (g : UnstructuredGrid) (inplace : bool)
  : result (option UnstructuredGrid) * UnstructuredGrid :=
  if is_valid g
  then
    match clean_tables g with
    | Raise e => (Raise e, g)
    | Ok (vertices, iverts') =>
        if inplace
        then (Ok None,
              _require_cache_updates
                (set__vertices_iverts g (Some vertices) (Some iverts')))
        else
          (g' <- __init__
                   {| a_vertices := Some vertices; a_iverts := Some iverts';
                      a_xcenters := _xc g; a_ycenters := _yc g;
                      a_xcenters_kind := _xc_kind g;
                      a_ycenters_kind := _yc_kind g;
                      a_top := _top g; a_botm := _botm g;
                      a_idomain := _idomain g; a_lenuni := _lenuni g;
                      a_ncpl := NcplArray 1 <$> _ncpl g;
                      a_crs := _crs g; a_prjfile := _prjfile g;
                      a_xoff := _xoff g; a_yoff := _yoff g;
                      a_angrot := _angrot g; a_iac := _iac g;
                      a_ja := _ja g; a_cell2d := None |};;
           Ok (Some g'), g)
    end
  else (Ok None, g).

End Grid.

Arguments UnstructuredGrid R : clear implicits.
Arguments init_args R : clear implicits.
Arguments c2drec R : clear implicits.
Arguments CachedData R : clear implicits.
Arguments cache_data R : clear implicits.

(** ** The header of a grid specification file ([from_gridspec]) *)

Module GridSpec.

(** Whitespace for [str.strip] and [str.split] (ASCII). *)
Definition is_space (c : ascii) : bool :=
  let n := nat_of_ascii c in
  ((9 <=? n) && (n <=? 13) || (28 <=? n) && (n <=? 32))%nat.

(** [str.upper] on an ASCII character. *)
Definition upper_char (c : ascii) : ascii :=
  let n := nat_of_ascii c in
  if ((97 <=? n) && (n <=? 122))%nat then ascii_of_nat (n - 32) else c.

Definition upper (s : string) : string :=
  string_of_list_ascii (upper_char <$> list_ascii_of_string s).

Fixpoint lstrip (cs : list ascii) : list ascii :=
  match cs with
  | c :: cs' => if is_space c then lstrip cs' else cs
  | [] => []
  end.

Definition strip (s : string) : string :=
  string_of_list_ascii
    (rev (lstrip (rev (lstrip (list_ascii_of_string s))))).

(** [cur] holds the characters of the current token, last one first. *)
Fixpoint split_chars (cs cur : list ascii) : list string :=
  match cs with
  | [] =>
      match cur with
      | [] => []
      | _ => [string_of_list_ascii (rev cur)]
      end
  | c :: cs' =>
      if is_space c
      then match cur with
           | [] => split_chars cs' []
           | _ => string_of_list_ascii (rev cur) :: split_chars cs' []
           end
      else split_chars cs' (c :: cur)
  end.

(** [s.split()] *)
Definition split (s : string) : list string :=
  split_chars (list_ascii_of_string s) [].

(** The file is the list of the lines that are still to be read;
    [readline] gives the empty string at the end of the file.
    [split_line] returns the tokens and the rest of the file. *)
Definition split_line (file : list string) : list string * list string :=
  match file with
  | [] => (upper <$> split (strip ""), [])
  | line :: rest => (upper <$> split (strip line), rest)
  end.

(** [header[0][0]] *)
Definition first_char (header : list string) : result ascii :=
  match header with
  | [] => Raise IndexError
  | EmptyString :: _ => Raise IndexError
  | String c _ :: _ => Ok c
  end.

(** [while header[0][0] == "#": header = split_line()] *)
Fixpoint skip_comments (header : list string) (file : list string)
  : result (list string * list string) :=
  c <- first_char header;;
  if Ascii.eqb c "#"
  then match file with
       | [] => _ <- first_char (fst (split_line []));; Ok (header, file)
       | line :: rest => skip_comments (fst (split_line file)) rest
       end
  else Ok (header, file).

(** The condition under which the header is refused:
    [not (len(header) == 1 and header[0] == "UNSTRUCTURED") or
     (len(header) == 2 and header == ["UNSTRUCTURED", "GWF"])];
    [not] binds tighter than [or]. *)
Definition header_refused (header : list string) : bool :=
  negb ((len header =? 1)
        && bool_decide (header !! 0%nat = Some "UNSTRUCTURED"))
  || ((len header =? 2) && bool_decide (header = ["UNSTRUCTURED"; "GWF"])).

Definition no_header_msg : string := "Invalid GSF file, no header".

(** [from_gridspec] up to the check of the header: the lines of the body
    that are left to parse, or the error. *)
Definition from_gridspec_header (file : list string)
  : result (list string) :=
  let '(header, file) := split_line file in
  p <- skip_comments header file;;
  let '(header, file) := p in
  if header_refused header
  then Raise (ValueError no_header_msg)
  else Ok file.

End GridSpec.

(** ** Running the model on binary64 floats *)

Module Float64.

#[export] Instance float_Num : Num float := {|
  num_zero := 0%float;
  num_mul := PrimFloat.mul;
  num_leb := PrimFloat.leb;
  num_eqb := PrimFloat.eqb;
  tol := 0x1.12e0be826d695p-30%float;
  neg_tol := (-0x1.12e0be826d695p-30)%float;
  num_int := fun _ => None
|}.

(** Stand-ins for the collaborators, to evaluate the model on examples:
    the transform of a grid that is not rotated, the orientation of a
    polygon by its signed area, the test for convex polygons with the
    boundary moved by the radius (every vertex turn on one side, up to the
    radius: a positive radius widens a counter-clockwise polygon and narrows
    a clockwise one, a negative radius does the opposite, as the radius of
    matplotlib's [contains_point] does), the midpoint. *)
Definition shift (x y xoff yoff angrot : float) : float * float :=
  (PrimFloat.add x xoff, PrimFloat.add y yoff).

Fixpoint signed_area2 (ps : list (float * float)) : float :=
  match ps with
  | (x1, y1) :: (((x2, y2) :: _) as rest) =>
      PrimFloat.add
        (PrimFloat.mul (PrimFloat.sub x2 x1) (PrimFloat.add y2 y1))
        (signed_area2 rest)
  | _ => 0%float
  end.

Definition area_clockwise (xs ys : list float) : bool :=
  let ps := zip xs ys in
  PrimFloat.ltb 0%float (signed_area2 (ps ++ take 1 ps)%list).

Fixpoint turns (px py : float) (ps : list (float * float)) : list float :=
  match ps with
  | (x1, y1) :: (((x2, y2) :: _) as rest) =>
      PrimFloat.sub
        (PrimFloat.mul (PrimFloat.sub x2 x1) (PrimFloat.sub py y1))
        (PrimFloat.mul (PrimFloat.sub y2 y1) (PrimFloat.sub px x1))
      :: turns px py rest
  | _ => []
  end.

Definition convex_contains (path : list (float * float)) (p : float * float)
    (radius : float) : bool :=
  let ts := turns (fst p) (snd p) (path ++ take 1 path)%list in
  let margin := PrimFloat.opp radius in
  negb (Nat.eqb (length path) 0)
  && (forallb (fun t => PrimFloat.leb margin t) ts
      || forallb (fun t => PrimFloat.leb t margin) ts).

Definition midpoint (t b : float) : float :=
  PrimFloat.div (PrimFloat.add t b) 2%float.

#[export] Instance float_Services : Services float := {|
  transform := shift;
  is_clockwise := area_clockwise;
  contains_point := convex_contains;
  zcenter := midpoint
|}.

(** *** Example grids *)

Definition f0 : float := 0%float.
Definition f1 : float := 1%float.
Definition f2 : float := 2%float.
Definition f5 : float := 5%float.
Definition fhalf : float := 0.5%float.

Definition no_args : init_args float := {|
  a_vertices := None; a_iverts := None; a_xcenters := None;
  a_ycenters := None;
  a_xcenters_kind := NdArray; a_ycenters_kind := NdArray;
  a_top := None; a_botm := None; a_idomain := None;
  a_lenuni := None; a_ncpl := None; a_crs := None; a_prjfile := None;
  a_xoff := f0; a_yoff := f0; a_angrot := f0; a_iac := None; a_ja := None;
  a_cell2d := None |}.

(** [UnstructuredGrid()] *)
Definition empty_grid : UnstructuredGrid float := {|
  _vertices := None; _iverts := None; _xc := None; _yc := None;
  _xc_kind := NdArray; _yc_kind := NdArray;
  _top := None; _botm := None; _idomain := None; _lenuni := None;
  _ncpl := None; _crs := None; _prjfile := None; _xoff := f0; _yoff := f0;
  _angrot := f0; _iac := None; _ja := None; _neighbors := None;
  _cache_dict := ∅; _copy_cache := true |}.

Definition square_vertices : list (Z * float * float) :=
  [(0, f0, f0); (1, f1, f0); (2, f1, f1); (3, f0, f1)].

(** One unit square cell with vertices (0,0), (1,0), (1,1), (0,1). *)
Definition unit_square_args : init_args float := {|
  a_vertices := Some square_vertices;
  a_iverts := Some [[Some 0; Some 1; Some 2; Some 3]];
  a_xcenters := Some [fhalf]; a_ycenters := Some [fhalf];
  a_xcenters_kind := NdArray; a_ycenters_kind := NdArray;
  a_top := None; a_botm := None; a_idomain := None;
  a_lenuni := None; a_ncpl := None; a_crs := None; a_prjfile := None;
  a_xoff := f0; a_yoff := f0; a_angrot := f0; a_iac := None; a_ja := None;
  a_cell2d := None |}.

Definition unit_square : UnstructuredGrid float := {|
  _vertices := Some square_vertices;
  _iverts := Some [[Some 0; Some 1; Some 2; Some 3]];
  _xc := Some [fhalf]; _yc := Some [fhalf];
  _xc_kind := NdArray; _yc_kind := NdArray;
  _top := None; _botm := None; _idomain := None; _lenuni := None;
  _ncpl := Some [1]; _crs := None; _prjfile := None; _xoff := f0;
  _yoff := f0; _angrot := f0; _iac := None; _ja := None;
  _neighbors := None; _cache_dict := ∅; _copy_cache := true |}.

(** The unit square with elevations, centers and vertices, and without
    cell vertex lists: [iverts=None]. *)
Definition no_iverts_args : init_args float := {|
  a_vertices := Some square_vertices;
  a_iverts := None;
  a_xcenters := Some [fhalf]; a_ycenters := Some [fhalf];
  a_xcenters_kind := NdArray; a_ycenters_kind := NdArray;
  a_top := Some [f1]; a_botm := Some [f0]; a_idomain := Some [1];
  a_lenuni := None; a_ncpl := None; a_crs := None; a_prjfile := None;
  a_xoff := f0; a_yoff := f0; a_angrot := f0; a_iac := None; a_ja := None;
  a_cell2d := None |}.

Definition no_iverts_grid : UnstructuredGrid float := {|
  _vertices := Some square_vertices;
  _iverts := None;
  _xc := Some [fhalf]; _yc := Some [fhalf];
  _xc_kind := NdArray; _yc_kind := NdArray;
  _top := Some [f1]; _botm := Some [f0]; _idomain := Some [1];
  _lenuni := None; _ncpl := None; _crs := None; _prjfile := None;
  _xoff := f0; _yoff := f0; _angrot := f0; _iac := None; _ja := None;
  _neighbors := None; _cache_dict := ∅; _copy_cache := true |}.

(** Two unit squares that share the edge x = 1. *)
Definition two_squares_args : init_args float := {|
  a_vertices := Some (square_vertices ++ [(4, f2, f0); (5, f2, f1)])%list;
  a_iverts := Some [[Some 0; Some 1; Some 2; Some 3];
                    [Some 1; Some 4; Some 5; Some 2]];
  a_xcenters := Some [fhalf; 1.5%float]; a_ycenters := Some [fhalf; fhalf];
  a_xcenters_kind := NdArray; a_ycenters_kind := NdArray;
  a_top := Some [f1; f1]; a_botm := Some [f0; f0]; a_idomain := None;
  a_lenuni := None; a_ncpl := None; a_crs := None; a_prjfile := None;
  a_xoff := f0; a_yoff := f0; a_angrot := f0; a_iac := None; a_ja := None;
  a_cell2d := None |}.

Definition two_squares : UnstructuredGrid float := {|
  _vertices := Some (square_vertices ++ [(4, f2, f0); (5, f2, f1)])%list;
  _iverts := Some [[Some 0; Some 1; Some 2; Some 3];
                   [Some 1; Some 4; Some 5; Some 2]];
  _xc := Some [fhalf; 1.5%float]; _yc := Some [fhalf; fhalf];
  _xc_kind := NdArray; _yc_kind := NdArray;
  _top := Some [f1; f1]; _botm := Some [f0; f0]; _idomain := None;
  _lenuni := None; _ncpl := Some [2]; _crs := None; _prjfile := None;
  _xoff := f0; _yoff := f0; _angrot := f0; _iac := None; _ja := None;
  _neighbors := None; _cache_dict := ∅; _copy_cache := true |}.

(** The unit square used for two layers: [ncpl=[1, 1]], one cell vertex
    list and one center. *)
Definition two_layers_args : init_args float := {|
  a_vertices := Some square_vertices;
  a_iverts := Some [[Some 0; Some 1; Some 2; Some 3]];
  a_xcenters := Some [fhalf]; a_ycenters := Some [fhalf];
  a_xcenters_kind := NdArray; a_ycenters_kind := NdArray;
  a_top := Some [f2; f1]; a_botm := Some [f1; f0]; a_idomain := None;
  a_lenuni := None; a_ncpl := Some (NcplArray 1 [1; 1]); a_crs := None;
  a_prjfile := None; a_xoff := f0; a_yoff := f0; a_angrot := f0;
  a_iac := None; a_ja := None; a_cell2d := None |}.

Definition two_layers : UnstructuredGrid float := {|
  _vertices := Some square_vertices;
  _iverts := Some [[Some 0; Some 1; Some 2; Some 3]];
  _xc := Some [fhalf]; _yc := Some [fhalf];
  _xc_kind := NdArray; _yc_kind := NdArray;
  _top := Some [f2; f1]; _botm := Some [f1; f0]; _idomain := None;
  _lenuni := None; _ncpl := Some [1; 1]; _crs := None; _prjfile := None;
  _xoff := f0; _yoff := f0; _angrot := f0; _iac := None; _ja := None;
  _neighbors := None; _cache_dict := ∅; _copy_cache := true |}.

(** Three nodes with the connectivity iac = [3, 2, 2],
    ja = [0, 1, 2, 1, 0, 2, 0] and no geometry. *)
Definition iac_args : init_args float := {|
  a_vertices := None; a_iverts := None; a_xcenters := None;
  a_ycenters := None;
  a_xcenters_kind := NdArray; a_ycenters_kind := NdArray;
  a_top := None; a_botm := None; a_idomain := None;
  a_lenuni := None; a_ncpl := None; a_crs := None; a_prjfile := None;
  a_xoff := f0; a_yoff := f0; a_angrot := f0;
  a_iac := Some [3; 2; 2]; a_ja := Some [0; 1; 2; 1; 0; 2; 0];
  a_cell2d := None |}.

Definition iac_grid : UnstructuredGrid float := {|
  _vertices := None; _iverts := None; _xc := None; _yc := None;
  _xc_kind := NdArray; _yc_kind := NdArray;
  _top := None; _botm := None; _idomain := None; _lenuni := None;
  _ncpl := None; _crs := None; _prjfile := None; _xoff := f0; _yoff := f0;
  _angrot := f0; _iac := Some [3; 2; 2]; _ja := Some [0; 1; 2; 1; 0; 2; 0];
  _neighbors := None; _cache_dict := ∅; _copy_cache := true |}.

(** [no_iverts_grid] with every coordinate doubled. *)
Definition no_iverts_grid_x2 : UnstructuredGrid float := {|
  _vertices := Some [(0, f0, f0); (1, f2, f0); (2, f2, f2); (3, f0, f2)];
  _iverts := None;
  _xc := Some [f1]; _yc := Some [f1];
  _xc_kind := NdArray; _yc_kind := NdArray;
  _top := Some [f2]; _botm := Some [f0]; _idomain := Some [1];
  _lenuni := None; _ncpl := None; _crs := None; _prjfile := None;
  _xoff := f0; _yoff := f0; _angrot := f0; _iac := None; _ja := None;
  _neighbors := None; _cache_dict := ∅; _copy_cache := true |}.

End Float64.

Import Float64.

(** ** Vocabulary of the statements *)

Section Vocabulary.
Context {R : Type} `{Num R} `{Services R}.

(** The arguments of the constructor make a valid grid: vertices, cell vertex
    lists and centers are all passed. *)
Definition init_valid (a : init_args R) : bool :=
  let '(xcenters, ycenters, ivs) := init_cells a in
  is_not_None ivs && is_not_None (a_vertices a)
  && is_not_None xcenters && is_not_None ycenters.

(** Cell [i] of the derived geometry passes the test of [intersect] for the
    point (x, y). *)
Definition cell_passes (xv yv : list (list R)) (x y : R) (i : nat) : Prop :=
  exists xa ya,
    xv !! i = Some xa /\ yv !! i = Some ya /\ cell_test x y xa ya = true.

(** Cell [i] contains the point (x, y) for the path test with the signed
    radius. *)
Definition cell_holds (xv yv : list (list R)) (x y : R) (i : nat) : Prop :=
  exists xa ya,
    xv !! i = Some xa /\ yv !! i = Some ya /\ cell_contains x y xa ya = true.

(** The point [intersect] looks for: (x, y) itself or, with [local], its
    image in world coordinates. *)
Definition query_point (g : UnstructuredGrid R) (x y : R) (local : bool)
  : R * R :=
  if local then get_coords g x y else (x, y).

(** The (x, y) of a vertex record [iv, xv, yv]. *)
Definition vertex_xy (v : Z * R * R) : R * R := (v.1.2, v.2).

(** No two vertices have equal (x, y). *)
Definition distinct_coords (vs : list (Z * R * R)) : Prop :=
  forall (i j : nat) v w,
    i <> j -> vs !! i = Some v -> vs !! j = Some w ->
    key_eqb (vertex_xy v) (vertex_xy w) = false.

(** The geometry of the cells: for every cell the x and the y coordinates of
    its vertices, resolved as [_build_grid_geometry_info] resolves them. *)
Definition cell_coords (g : UnstructuredGrid R)
  : result (list (list R * list R)) :=
  vs <- not_None (_vertices g);;
  ivs <- not_None (iverts g);;
  mapR (cell_xy (vertexdict_of vs)) ivs.

(** The vertices numbered by their position. *)
Definition renumber (vs : list (Z * R * R)) : list (Z * R * R) :=
  imap (fun k v => (Z.of_nat k, v.1.2, v.2)) vs.

(** The shape assertion of the constructor holds for the grid. *)
Definition shape_ok (g : UnstructuredGrid R) : Prop :=
  exists ivs, _iverts g = Some ivs /\ check_iverts_length g ivs = Ok tt.

End Vocabulary.

(** ** Layers, grid lines and cross sections *)

Section Layers.
Context {R : Type} `{Num R} `{Services R}.

Definition set__copy_cache (g : UnstructuredGrid R) (b : bool)
  : UnstructuredGrid R :=
  {| _vertices := _vertices g; _iverts := _iverts g; _xc := _xc g;
     _yc := _yc g; _xc_kind := _xc_kind g; _yc_kind := _yc_kind g;
     _top := _top g; _botm := _botm g;
     _idomain := _idomain g; _lenuni := _lenuni g; _ncpl := _ncpl g;
     _crs := _crs g; _prjfile := _prjfile g; _xoff := _xoff g;
     _yoff := _yoff g; _angrot := _angrot g; _iac := _iac g; _ja := _ja g;
     _neighbors := _neighbors g; _cache_dict := _cache_dict g;
     _copy_cache := b |}.

(** Modelled from the spec: [Grid.xvertices] and [Grid.yvertices], of the
    base class: the x and the y part of [xyzvertices], the per-cell vertex
    coordinate lists. *)
Definition xvertices (g : UnstructuredGrid R)
  : result (list (list R)) * UnstructuredGrid R :=
  let '(r, g') := xyzvertices g in
  (xyz <- r;; Ok xyz.1.1, g').

Definition yvertices (g : UnstructuredGrid R)
  : result (list (list R)) * UnstructuredGrid R :=
  let '(r, g') := xyzvertices g in
  (xyz <- r;; Ok xyz.1.2, g').

(** *** get_cell_vertices *)

Definition get_cell_vertices (g : UnstructuredGrid R) (cellid : Z)
  : result (list (R * R)) * UnstructuredGrid R :=
  let g := set__copy_cache g false in
  match xvertices g with
  | (Raise e, g) => (Raise e, g)
  | (Ok xv, g) =>
      match py_index xv cellid with
      | Raise e => (Raise e, g)
      | Ok xa =>
          match yvertices g with
          | (Raise e, g) => (Raise e, g)
          | (Ok yv, g) =>
              match py_index yv cellid with
              | Raise e => (Raise e, g)
              | Ok ya =>
                  let cell_vert := zip xa ya in
                  (Ok cell_vert, set__copy_cache g true)
              end
          end
      end
  end.

(** *** grid_lines *)

(** A grid line: [[(x0, y0), (x1, y1)]]. *)
Definition segment : Type := (R * R) * (R * R).

(** [for ix in range(len(verts))], on cell [icell] with x coordinates
    [xa = xgrid[icell]]: the segment from vertex [ix - 1] to vertex [ix]. *)
Definition cell_lines (xa : list R) (ygrid : list (list R)) (icell : Z)
  : result (list segment) :=
  mapR (fun ix =>
          x0 <- py_index xa (ix - 1);;
          ya <- py_index ygrid icell;;
          y0 <- py_index ya (ix - 1);;
          x1 <- py_index xa ix;;
          y1 <- py_index ya ix;;
          Ok ((x0, y0), (x1, y1)))
       (py_range (len xa)).

(** The lines of the cells [icell] of a list of cell numbers, one cell after
    the other. *)
Fixpoint cells_lines (xgrid ygrid : list (list R)) (icells : list Z)
  : result (list segment) :=
  match icells with
  | [] => Ok []
  | icell :: rest =>
      xa <- py_index xgrid icell;;
      lines <- cell_lines xa ygrid icell;;
      more <- cells_lines xgrid ygrid rest;;
      Ok (lines ++ more)%list
  end.

(** [for ilay, numcells in enumerate(self.ncpl)], with the running cell
    number [icell]. *)
Fixpoint layers_lines (xgrid ygrid : list (list R)) (layers : list (Z * Z))
    (icell : Z) (grdlines : gmap Z (list segment))
  : result (gmap Z (list segment)) :=
  match layers with
  | [] => Ok grdlines
  | (ilay, numcells) :: rest =>
      let cells := (fun k => icell + k) <$> py_range numcells in
      lines <- cells_lines xgrid ygrid cells;;
      layers_lines xgrid ygrid rest (icell + len cells)
        (<[ilay := lines]> grdlines)
  end.

Inductive grid_lines_ret : Type :=
| GlList (lines : list segment)
| GlDict (lines : gmap Z (list segment)).

Definition grid_lines (g : UnstructuredGrid R)
  : result grid_lines_ret * UnstructuredGrid R :=
  let g := set__copy_cache g false in
  match xvertices g with
  | (Raise e, g) => (Raise e, g)
  | (Ok xgrid, g) =>
      match yvertices g with
      | (Raise e, g) => (Raise e, g)
      | (Ok ygrid, g) =>
          match (gvbl <- grid_varies_by_layer g;;
                 if gvbl
                 then a <- not_None (ncpl g);;
                      d <- layers_lines xgrid ygrid (enumerate a) 0 ∅;;
                      Ok (GlDict d)
                 else n0 <- ncpl_at g 0;;
                      l <- cells_lines xgrid ygrid (py_range n0);;
                      Ok (GlList l)) with
          | Raise e => (Raise e, g)
          | Ok grdlines => (Ok grdlines, set__copy_cache g true)
          end
      end
  end.

(** *** Layers *)

(** [np.add.accumulate(a)] *)
Fixpoint accumulate_from (acc : Z) (a : list Z) : list Z :=
  match a with
  | [] => []
  | n :: rest => (acc + n) :: accumulate_from (acc + n) rest
  end.

Definition np_add_accumulate (a : list Z) : list Z := accumulate_from 0 a.

Definition accumulate_scalar_msg : string := "cannot accumulate on a scalar".

Definition get_layer_node_range (g : UnstructuredGrid R) (layer : Z)
  : result (Z * Z) :=
  match ncpl g with
  | None => Raise (ValueError accumulate_scalar_msg)
  | Some a =>
      let node_layer_range := 0 :: np_add_accumulate a in
      istart <- py_index node_layer_range layer;;
      istop <- py_index node_layer_range (layer + 1);;
      Ok (istart, istop)
  end.

Definition reshape_msg : string := "cannot reshape array".

(** [get_plottable_layer_array], on a one-dimensional array [a]. *)
Definition get_plottable_layer_array {V} (g : UnstructuredGrid R)
    (a : list V) (layer : Z) : result (list V) :=
  n <- ncpl_at g layer;;
  plotarray <-
    (if len a =? n
     then Ok a
     else
       nn <- not_None (nnodes g);;
       plotarray <- (if len a =? nn
                     then Ok a
                     else Raise (ValueError reshape_msg));;
       r <- get_layer_node_range g layer;;
       Ok (py_slice plotarray r.1 r.2));;
  n' <- ncpl_at g layer;;
  if len plotarray =? n'
  then Ok plotarray
  else Raise AssertionError.

(** [get_number_plottable_layers], on the number of elements of the
    array. *)
Definition get_number_plottable_layers (g : UnstructuredGrid R) (size : Z)
  : option Z :=
  let nplottable := Some 0 in
  if bool_decide (Some size = nnodes g) then nlay g else nplottable.

(** *** Cross sections *)

(** [for ncpl in self.ncpl], with [strt] and [end]; [keys] are the keys of
    [xypts] in the order of the dict. *)
Fixpoint nodeskip_loop (layers : list Z) (strt end_ : Z) (keys : list Z)
  : list (list Z) :=
  match layers with
  | [] => []
  | ncpl :: rest =>
      let end_ := end_ + ncpl in
      let layskip :=
        filter (fun nn => ¬ (strt <= nn < end_)) keys in
      layskip :: nodeskip_loop rest (strt + ncpl) end_ keys
  end.

Definition cross_section_nodeskip {V} (g : UnstructuredGrid R) (nlay : Z)
    (xypts : list (Z * V)) : result (list (list Z)) :=
  a <- not_None (ncpl g);;
  Ok (nodeskip_loop a 0 0 (fst <$> xypts)).

(** [xv *= self.nlay]: the list repeated [nlay] times. *)
Definition list_repeat {A} (l : list A) (n : Z) : list A :=
  concat (replicate (Z.to_nat n) l).

(** With copy mode off, [xyzvertices] hands out the lists the cache holds,
    and [xv *= self.nlay] extends those in place. *)
Definition store_xy (g : UnstructuredGrid R) (xv yv : list (list R))
  : UnstructuredGrid R :=
  if _copy_cache g
  then g
  else
    match _cache_dict g !! "xyzgrid" with
    | Some {| data := XYZGrid _ _ zv; out_of_date := o |} =>
        set__cache_dict g
          (<["xyzgrid" := {| data := XYZGrid xv yv zv; out_of_date := o |}]>
             (_cache_dict g))
    | _ => g
    end.

Definition cross_section_vertices (g : UnstructuredGrid R)
  : result (list (list R) * list (list R)) * UnstructuredGrid R :=
  match xvertices g with
  | (Raise e, g) => (Raise e, g)
  | (Ok xv, g) =>
      match yvertices g with
      | (Raise e, g) => (Raise e, g)
      | (Ok yv, g) =>
          match ncpl_at g 0 with
          | Raise e => (Raise e, g)
          | Ok n0 =>
              if len xv =? n0
              then match not_None (nlay g) with
                   | Raise e => (Raise e, g)
                   | Ok nl =>
                       let xv := list_repeat xv nl in
                       let yv := list_repeat yv nl in
                       (Ok (xv, yv), store_xy g xv yv)
                   end
              else (Ok (xv, yv), g)
          end
      end
  end.

(** *** The geometry of one layer *)

(** [np.array(self.xvertices, dtype=object)], sliced along its first axis,
    the cells, when the grid varies by layer. *)
Definition get_xvertices_for_layer (g : UnstructuredGrid R) (layer : Z)
  : result (list (list R)) * UnstructuredGrid R :=
  match xvertices g with
  | (Raise e, g) => (Raise e, g)
  | (Ok xgrid, g) =>
      (gvbl <- grid_varies_by_layer g;;
       if gvbl
       then r <- get_layer_node_range g layer;;
            Ok (py_slice xgrid r.1 r.2)
       else Ok xgrid,
       g)
  end.

Definition get_yvertices_for_layer (g : UnstructuredGrid R) (layer : Z)
  : result (list (list R)) * UnstructuredGrid R :=
  match yvertices g with
  | (Raise e, g) => (Raise e, g)
  | (Ok ygrid, g) =>
      (gvbl <- grid_varies_by_layer g;;
       if gvbl
       then r <- get_layer_node_range g layer;;
            Ok (py_slice ygrid r.1 r.2)
       else Ok ygrid,
       g)
  end.

(** The one entry of the shape tuple. *)
Definition get_plottable_layer_shape (g : UnstructuredGrid R)
    (layer : option Z) : result (option Z) :=
  let shp := nnodes g in
  match layer with
  | Some layer => n <- ncpl_at g layer;; Ok (Some n)
  | None => Ok shp
  end.

End Layers.

(** ** Further vocabulary *)

Section MoreVocabulary.
Context {R : Type} `{Num R} `{Services R}.

(** The table the "iac" loop builds when it is entered with [idx0 = 0]. *)
Definition iac_table (ja iac : list Z) : gmap Z (list Z) :=
  foldl (fun d it => <[it.1 := py_slice ja (0 + 1) (0 + it.2)]> d)
        ∅ (enumerate iac).

(** A row of a [cell2d] table in the form the [cell2d] property writes: the
    cell id is the position of the row and the count is the number of vertex
    ids. *)
Definition rows_numbered (rows : list (c2drec R)) : Prop :=
  forall (i : nat) row,
    rows !! i = Some row ->
    c2d_ix row = Z.of_nat i /\ c2d_nv row = len (c2d_iverts row).

(** The geometry the cache holds under "xyzgrid". *)
Definition cached_xyz (g : UnstructuredGrid R)
  : option (list (list R) * list (list R) * option (list R * list R)) :=
  match data <$> (_cache_dict g !! "xyzgrid") with
  | Some (XYZGrid xv yv zv) => Some (xv, yv, zv)
  | _ => None
  end.

(** In the words of the specification.  The point (x, y) lies within the
    range of the vertex coordinates of a cell: some vertex has x at or above
    it and some at or below it, and likewise for y. *)
Definition within_vertex_range (x y : R) (xa ya : list R) : Prop :=
  Exists (fun a => num_leb x a = true) xa
  /\ Exists (fun a => num_leb a x = true) xa
  /\ Exists (fun a => num_leb y a = true) ya
  /\ Exists (fun a => num_leb a y = true) ya.

(** In the words of the specification.  The polygon of a cell contains the
    point under the edge-tolerant test: the point-in-path test with the
    signed radius, -1e-9 for clockwise winding and 1e-9 otherwise. *)
Definition contains_tolerant (x y : R) (xa ya : list R) : Prop :=
  contains_point (zip xa ya) (x, y)
    (if is_clockwise xa ya then neg_tol else tol) = true.

(** Cell [i] of the derived geometry has the point within the range of its
    vertex coordinates and contains it under the edge-tolerant test. *)
Definition cell_accepts (xv yv : list (list R)) (x y : R) (i : nat) : Prop :=
  exists xa ya,
    xv !! i = Some xa /\ yv !! i = Some ya
    /\ within_vertex_range x y xa ya /\ contains_tolerant x y xa ya.

(** The first node of a layer: the cells of the layers before it. *)
Definition layer_start (a : list Z) (layer : nat) : Z :=
  np_sum (take layer a).

(** Two (x, y) are the same point for [clean_iverts]: the second one is the
    first one or a key the dict identifies with it. *)
Definition same_xy (p p' : R * R) : Prop :=
  p' = p \/ key_eqb p' p = true.

(** Two lists of cells whose vertices are the same points, in order. *)
Definition same_polygons (cells cells' : list (list R * list R)) : Prop :=
  Forall2 (fun c c' => Forall2 same_xy (zip c.1 c.2) (zip c'.1 c'.2))
          cells cells'.

Definition vertex_ids (vs : list (Z * R * R)) : list Z :=
  (fun v => v.1.1) <$> vs.

(** The vertices the second loop of [clean_iverts] makes of the groups. *)
Definition numbered (vset : list (R * R * gset Z)) : list (Z * R * R) :=
  imap (fun i grp => (Z.of_nat i, grp.1.1, grp.1.2)) vset.

End MoreVocabulary.

(** A line of a grid specification file whose first token starts with the
    comment character. *)
Definition is_comment_line (line : string) : bool :=
  match (GridSpec.split_line [line]).1 with
  | String c _ :: _ => Ascii.eqb c "#"
  | _ => false
  end.

(** ** Further example grids *)

Module Float64More.
Import Float64.

(** The [cell2d] table of the two squares that share an edge. *)
Definition two_squares_rows : list (c2drec float) :=
  [ {| c2d_ix := 0; c2d_xc := fhalf; c2d_yc := fhalf; c2d_nv := 4;
       c2d_iverts := [Some 0; Some 1; Some 2; Some 3] |};
    {| c2d_ix := 1; c2d_xc := 1.5%float; c2d_yc := fhalf; c2d_nv := 4;
       c2d_iverts := [Some 1; Some 4; Some 5; Some 2] |} ].

Definition table_args : init_args float := {|
  a_vertices := Some (square_vertices ++ [(4, f2, f0); (5, f2, f1)])%list;
  a_iverts := None; a_xcenters := None; a_ycenters := None;
  a_xcenters_kind := NdArray; a_ycenters_kind := NdArray;
  a_top := None; a_botm := None; a_idomain := None;
  a_lenuni := None; a_ncpl := None; a_crs := None; a_prjfile := None;
  a_xoff := f0; a_yoff := f0; a_angrot := f0; a_iac := None; a_ja := None;
  a_cell2d := Some two_squares_rows |}.

(** Two squares that share an edge, each with four vertices of its own: the
    vertices at (1, 0) and (1, 1) are there twice. *)
Definition doubled_vertices : list (Z * float * float) :=
  (square_vertices
   ++ [(4, f1, f0); (5, f2, f0); (6, f2, f1); (7, f1, f1)])%list.

Definition doubled_squares : UnstructuredGrid float := {|
  _vertices := Some doubled_vertices;
  _iverts := Some [[Some 0; Some 1; Some 2; Some 3];
                   [Some 4; Some 5; Some 6; Some 7]];
  _xc := Some [fhalf; 1.5%float]; _yc := Some [fhalf; fhalf];
  _xc_kind := NdArray; _yc_kind := NdArray;
  _top := None; _botm := None; _idomain := None;
  _lenuni := None; _ncpl := Some [2]; _crs := None; _prjfile := None;
  _xoff := f0; _yoff := f0; _angrot := f0; _iac := None; _ja := None;
  _neighbors := None; _cache_dict := ∅; _copy_cache := true |}.

(** The two squares as two layers of one cell each: [ncpl=[1, 1]] and two
    cell vertex lists, so the grid varies by layer. *)
Definition stacked_args : init_args float := {|
  a_vertices := Some (square_vertices ++ [(4, f2, f0); (5, f2, f1)])%list;
  a_iverts := Some [[Some 0; Some 1; Some 2; Some 3];
                    [Some 1; Some 4; Some 5; Some 2]];
  a_xcenters := Some [fhalf; 1.5%float]; a_ycenters := Some [fhalf; fhalf];
  a_xcenters_kind := NdArray; a_ycenters_kind := NdArray;
  a_top := Some [f2; f1]; a_botm := Some [f1; f0]; a_idomain := None;
  a_lenuni := None; a_ncpl := Some (NcplArray 1 [1; 1]); a_crs := None;
  a_prjfile := None; a_xoff := f0; a_yoff := f0; a_angrot := f0;
  a_iac := None; a_ja := None; a_cell2d := None |}.

Definition stacked_squares : UnstructuredGrid float := {|
  _vertices := Some (square_vertices ++ [(4, f2, f0); (5, f2, f1)])%list;
  _iverts := Some [[Some 0; Some 1; Some 2; Some 3];
                   [Some 1; Some 4; Some 5; Some 2]];
  _xc := Some [fhalf; 1.5%float]; _yc := Some [fhalf; fhalf];
  _xc_kind := NdArray; _yc_kind := NdArray;
  _top := Some [f2; f1]; _botm := Some [f1; f0]; _idomain := None;
  _lenuni := None; _ncpl := Some [1; 1]; _crs := None; _prjfile := None;
  _xoff := f0; _yoff := f0; _angrot := f0; _iac := None; _ja := None;
  _neighbors := None; _cache_dict := ∅; _copy_cache := true |}.

(** The unit square with its vertices in clockwise order. *)
Definition clockwise_square : UnstructuredGrid float := {|
  _vertices := Some square_vertices;
  _iverts := Some [[Some 0; Some 3; Some 2; Some 1]];
  _xc := Some [fhalf]; _yc := Some [fhalf];
  _xc_kind := NdArray; _yc_kind := NdArray;
  _top := None; _botm := None; _idomain := None;
  _lenuni := None; _ncpl := Some [1]; _crs := None; _prjfile := None;
  _xoff := f0; _yoff := f0; _angrot := f0; _iac := None; _ja := None;
  _neighbors := None; _cache_dict := ∅; _copy_cache := true |}.

(** A point 1e-10 to the right of the edge x = 1. *)
Definition just_right_of_1 : float := 0x1.000000006df38p+0%float.

(** The unit square with vertex ids that are not positions. *)
Definition relabelled_vertices : list (Z * float * float) :=
  [(10, f0, f0); (20, f1, f0); (30, f1, f1); (40, f0, f1)].

Definition relabelled_square : UnstructuredGrid float := {|
  _vertices := Some relabelled_vertices;
  _iverts := Some [[Some 10; Some 20; Some 30; Some 40]];
  _xc := Some [fhalf]; _yc := Some [fhalf];
  _xc_kind := NdArray; _yc_kind := NdArray;
  _top := None; _botm := None; _idomain := None;
  _lenuni := None; _ncpl := Some [1]; _crs := None; _prjfile := None;
  _xoff := f0; _yoff := f0; _angrot := f0; _iac := None; _ja := None;
  _neighbors := None; _cache_dict := ∅; _copy_cache := true |}.

(** The unit square after [set_ncpl([3])]: one cell vertex list, three cells
    in the one layer. *)
Definition resized_square : UnstructuredGrid float := {|
  _vertices := Some square_vertices;
  _iverts := Some [[Some 0; Some 1; Some 2; Some 3]];
  _xc := Some [fhalf]; _yc := Some [fhalf];
  _xc_kind := NdArray; _yc_kind := NdArray;
  _top := None; _botm := None; _idomain := None;
  _lenuni := None; _ncpl := Some [3]; _crs := None; _prjfile := None;
  _xoff := f0; _yoff := f0; _angrot := f0; _iac := None; _ja := None;
  _neighbors := None; _cache_dict := ∅; _copy_cache := true |}.

(** A cell that names vertex 9, which the grid does not have. *)
Definition dangling_args : init_args float := {|
  a_vertices := Some square_vertices;
  a_iverts := Some [[Some 0; Some 1; Some 9]];
  a_xcenters := Some [fhalf]; a_ycenters := Some [fhalf];
  a_xcenters_kind := NdArray; a_ycenters_kind := NdArray;
  a_top := None; a_botm := None; a_idomain := None;
  a_lenuni := None; a_ncpl := None; a_crs := None; a_prjfile := None;
  a_xoff := f0; a_yoff := f0; a_angrot := f0; a_iac := None; a_ja := None;
  a_cell2d := None |}.

Definition dangling_square : UnstructuredGrid float := {|
  _vertices := Some square_vertices;
  _iverts := Some [[Some 0; Some 1; Some 9]];
  _xc := Some [fhalf]; _yc := Some [fhalf];
  _xc_kind := NdArray; _yc_kind := NdArray;
  _top := None; _botm := None; _idomain := None;
  _lenuni := None; _ncpl := Some [1]; _crs := None; _prjfile := None;
  _xoff := f0; _yoff := f0; _angrot := f0; _iac := None; _ja := None;
  _neighbors := None; _cache_dict := ∅; _copy_cache := true |}.

(** The unit square with [ncpl=[1, 1]], one cell vertex list and two
    centers: as many centers as nodes, more than cell vertex lists. *)
Definition two_centers_args : init_args float := {|
  a_vertices := Some square_vertices;
  a_iverts := Some [[Some 0; Some 1; Some 2; Some 3]];
  a_xcenters := Some [fhalf; fhalf]; a_ycenters := Some [fhalf; fhalf];
  a_xcenters_kind := NdArray; a_ycenters_kind := NdArray;
  a_top := None; a_botm := None; a_idomain := None;
  a_lenuni := None; a_ncpl := Some (NcplArray 1 [1; 1]); a_crs := None;
  a_prjfile := None; a_xoff := f0; a_yoff := f0; a_angrot := f0;
  a_iac := None; a_ja := None; a_cell2d := None |}.

Definition two_centers : UnstructuredGrid float := {|
  _vertices := Some square_vertices;
  _iverts := Some [[Some 0; Some 1; Some 2; Some 3]];
  _xc := Some [fhalf; fhalf]; _yc := Some [fhalf; fhalf];
  _xc_kind := NdArray; _yc_kind := NdArray;
  _top := None; _botm := None; _idomain := None;
  _lenuni := None; _ncpl := Some [1; 1]; _crs := None; _prjfile := None;
  _xoff := f0; _yoff := f0; _angrot := f0; _iac := None; _ja := None;
  _neighbors := None; _cache_dict := ∅; _copy_cache := true |}.

(** The unit square in two layers with elevations and idomain: a complete
    grid; its centers are ndarrays. *)
Definition complete_args : init_args float := {|
  a_vertices := Some square_vertices;
  a_iverts := Some [[Some 0; Some 1; Some 2; Some 3]];
  a_xcenters := Some [fhalf]; a_ycenters := Some [fhalf];
  a_xcenters_kind := NdArray; a_ycenters_kind := NdArray;
  a_top := Some [f2; f1]; a_botm := Some [f1; f0];
  a_idomain := Some [1; 1];
  a_lenuni := None; a_ncpl := Some (NcplArray 1 [1; 1]); a_crs := None;
  a_prjfile := None; a_xoff := f0; a_yoff := f0; a_angrot := f0;
  a_iac := Some [1; 1]; a_ja := Some [0; 1]; a_cell2d := None |}.

Definition complete_grid : UnstructuredGrid float := {|
  _vertices := Some square_vertices;
  _iverts := Some [[Some 0; Some 1; Some 2; Some 3]];
  _xc := Some [fhalf]; _yc := Some [fhalf];
  _xc_kind := NdArray; _yc_kind := NdArray;
  _top := Some [f2; f1]; _botm := Some [f1; f0]; _idomain := Some [1; 1];
  _lenuni := None; _ncpl := Some [1; 1]; _crs := None; _prjfile := None;
  _xoff := f0; _yoff := f0; _angrot := f0;
  _iac := Some [1; 1]; _ja := Some [0; 1];
  _neighbors := None; _cache_dict := ∅; _copy_cache := true |}.

(** The same grid with its centers passed as Python lists. *)
Definition list_centers_args : init_args float := {|
  a_vertices := Some square_vertices;
  a_iverts := Some [[Some 0; Some 1; Some 2; Some 3]];
  a_xcenters := Some [fhalf]; a_ycenters := Some [fhalf];
  a_xcenters_kind := PyList; a_ycenters_kind := PyList;
  a_top := Some [f2; f1]; a_botm := Some [f1; f0];
  a_idomain := Some [1; 1];
  a_lenuni := None; a_ncpl := Some (NcplArray 1 [1; 1]); a_crs := None;
  a_prjfile := None; a_xoff := f0; a_yoff := f0; a_angrot := f0;
  a_iac := Some [1; 1]; a_ja := Some [0; 1]; a_cell2d := None |}.

Definition list_centers_grid : UnstructuredGrid float := {|
  _vertices := Some square_vertices;
  _iverts := Some [[Some 0; Some 1; Some 2; Some 3]];
  _xc := Some [fhalf]; _yc := Some [fhalf];
  _xc_kind := PyList; _yc_kind := PyList;
  _top := Some [f2; f1]; _botm := Some [f1; f0]; _idomain := Some [1; 1];
  _lenuni := None; _ncpl := Some [1; 1]; _crs := None; _prjfile := None;
  _xoff := f0; _yoff := f0; _angrot := f0;
  _iac := Some [1; 1]; _ja := Some [0; 1];
  _neighbors := None; _cache_dict := ∅; _copy_cache := true |}.

(** The base class's [neighbors] is not reached by the "iac" method. *)
Definition no_base_neighbors (g : UnstructuredGrid float) (node : option Z)
    (method : option string) (reset : bool)
  : result neighbors_ret * UnstructuredGrid float :=
  (Raise TypeError, g).

End Float64More.

Import Float64More.

(** * Properties *)

(** The example grids are what the constructor builds. *)
Lemma example_grids_constructed :
  __init__ Float64.no_args = Ok Float64.empty_grid
  /\ __init__ Float64.unit_square_args = Ok Float64.unit_square
  /\ __init__ Float64.no_iverts_args = Ok Float64.no_iverts_grid
  /\ __init__ Float64.two_squares_args = Ok Float64.two_squares
  /\ __init__ Float64.iac_args = Ok Float64.iac_grid
  /\ __init__ Float64.two_layers_args = Ok Float64.two_layers.
Proof. repeat split; reflexivity. Qed.

(** ** Python sequences *)

Lemma py_index_nat {A} (l : list A) (i : nat) (x : A) :
  l !! i = Some x -> py_index l (Z.of_nat i) = Ok x.
Proof.
  intros Hx. pose proof (lookup_lt_Some _ _ _ Hx) as Hlt.
  unfold py_index.
  replace (Z.of_nat i <? 0) with false by (symmetry; apply Z.ltb_ge; lia).
  replace (0 <=? Z.of_nat i) with true by (symmetry; apply Z.leb_le; lia).
  replace (Z.of_nat i <? Z.of_nat (length l)) with true
    by (symmetry; apply Z.ltb_lt; lia).
  simpl. by rewrite Nat2Z.id, Hx.
Qed.

Lemma py_index_0 {A} (x : A) (l : list A) : py_index (x :: l) 0 = Ok x.
Proof. by apply (py_index_nat (x :: l) 0). Qed.

Lemma py_index_nat_inv {A} (l : list A) (i : nat) (x : A) :
  py_index l (Z.of_nat i) = Ok x -> l !! i = Some x.
Proof.
  unfold py_index.
  replace (Z.of_nat i <? 0) with false by (symmetry; apply Z.ltb_ge; lia).
  destruct ((0 <=? Z.of_nat i) && (Z.of_nat i <? Z.of_nat (length l)));
    [|discriminate].
  rewrite Nat2Z.id. destruct (l !! i); [|discriminate]. by intros [= ->].
Qed.

Section GridFacts.
Context {R : Type} `{Num R} `{Services R}.

Implicit Types g : UnstructuredGrid R.

(** The validity test of [is_complete] never fails: the property is the
    base class's, whatever [is_valid] says. *)
Lemma is_complete_base g : is_complete g = Grid_is_complete g.
Proof. unfold is_complete. simpl. by destruct (Grid_is_complete g). Qed.

Lemma is_valid_true g :
  is_valid g = true <->
  exists ivs vs xc yc,
    _iverts g = Some ivs /\ _vertices g = Some vs
    /\ _xc g = Some xc /\ _yc g = Some yc.
Proof.
  unfold is_valid. split.
  - destruct (_iverts g), (_vertices g), (_xc g), (_yc g); simpl;
      try discriminate; eauto 10.
  - intros (? & ? & ? & ? & -> & -> & -> & ->). reflexivity.
Qed.

(** C10.  A grid that is not valid is left alone by [clean_iverts]: the call
    returns [None] with [inplace] true and with [inplace] false, raises
    nothing, and the object keeps every attribute. *)
Theorem clean_iverts_not_valid g (inplace : bool) :
  is_valid g = false ->
  clean_iverts g inplace = (Ok None, g).
Proof. intros Hv. unfold clean_iverts. by rewrite Hv. Qed.

(** C6.  A grid built without an [ncpl] argument from arguments that make it
    valid has [ncpl = [len(iverts)]]; whenever [ncpl] is set, [nnodes] is its
    sum and [nlay] its length; this is so after [set_ncpl] and after any
    construction that sets [ncpl]. *)
Theorem ncpl_default_and_counts :
  (forall a : init_args R,
      a_ncpl a = None -> init_valid a = true ->
      exists g ivs,
        __init__ a = Ok g /\ is_valid g = true
        /\ _iverts g = Some ivs /\ ncpl g = Some [len ivs])
  /\ (forall g l,
        ncpl g = Some l ->
        nnodes g = Some (np_sum l) /\ nlay g = Some (len l))
  /\ (forall g v g',
        set_ncpl g v = Ok g' ->
        exists l, ncpl g' = Some l
                  /\ nnodes g' = Some (np_sum l) /\ nlay g' = Some (len l))
  /\ (forall (a : init_args R) g v,
        a_ncpl a = Some v -> __init__ a = Ok g ->
        exists l, ncpl g = Some l
                  /\ nnodes g = Some (np_sum l) /\ nlay g = Some (len l)).
Proof.
  assert (Hcounts : forall g l, ncpl g = Some l ->
             nnodes g = Some (np_sum l) /\ nlay g = Some (len l)).
  { intros g l Hl. unfold nnodes, nlay. by rewrite Hl. }
  assert (Hset : forall g v g', set_ncpl g v = Ok g' ->
             exists l, ncpl g' = Some l).
  { intros g v g' Hs. unfold set_ncpl in Hs.
    destruct v as [n|ndim a|]; simpl in Hs; try discriminate.
    - injection Hs as <-. by eexists.
    - destruct (ndim =? 1)%nat; [|discriminate].
      injection Hs as <-. by eexists. }
  split; [|split; [exact Hcounts|split]].
  - intros a Hn Hv. unfold __init__, init_attrs, init_valid in *.
    destruct (init_cells a) as [[xc yc] ivs].
    destruct ivs as [ivs|]; [|discriminate].
    destruct (a_vertices a) as [vs|] eqn:Hvs; [|discriminate].
    destruct xc as [xc|]; [|discriminate].
    destruct yc as [yc|]; [|discriminate].
    rewrite Hn. cbn -[len].
    unfold check_iverts_length, grid_varies_by_layer, ncpl_at.
    cbn -[len py_index]. rewrite py_index_0. cbn -[len].
    rewrite !Z.eqb_refl. cbn -[len].
    eexists _, ivs. repeat split.
  - intros g v g' Hs. destruct (Hset _ _ _ Hs) as [l Hl].
    exists l. split; [done|]. by apply Hcounts.
  - intros a g v Hn Hi. unfold __init__ in Hi. rewrite Hn in Hi.
    destruct (set_ncpl (init_attrs a) v) as [g1|] eqn:Hs; [|discriminate].
    cbn [bind] in Hi.
    destruct (Hset _ _ _ Hs) as [l Hl].
    destruct (_iverts (init_attrs a)) as [ivs|]; cbn [bind] in Hi.
    + destruct (check_iverts_length g1 ivs); [|discriminate].
      cbn in Hi. injection Hi as <-.
      exists l. split; [done|]. by apply Hcounts.
    + injection Hi as <-. exists l. split; [done|]. by apply Hcounts.
Qed.

(** Without elevations [convert_grid] raises. *)
Lemma convert_grid_no_elevation g (factor : R) :
  Grid_is_complete g = false -> convert_grid g factor = Raise AssertionError.
Proof.
  intros Hc. unfold convert_grid. by rewrite is_complete_base, Hc.
Qed.

Lemma convert_grid_ndarray g (factor : R) vs ivs xc yc top botm :
  _vertices g = Some vs -> _iverts g = Some ivs ->
  _xc g = Some xc -> _yc g = Some yc ->
  _xc_kind g = NdArray -> _yc_kind g = NdArray ->
  _top g = Some top -> _botm g = Some botm ->
  convert_grid g factor
  = Ok {| _vertices :=
            Some ((fun i : Z * R * R =>
                     (i.1.1, num_mul i.1.2 factor, num_mul i.2 factor))
                  <$> vs);
          _iverts := Some ivs;
          _xc := Some (scale factor xc); _yc := Some (scale factor yc);
          _xc_kind := NdArray; _yc_kind := NdArray;
          _top := Some (scale factor top);
          _botm := Some (scale factor botm);
          _idomain := _idomain g; _lenuni := None;
          _ncpl := Some [len ivs]; _crs := None; _prjfile := None;
          _xoff := num_mul (_xoff g) factor;
          _yoff := num_mul (_yoff g) factor;
          _angrot := _angrot g; _iac := None; _ja := None;
          _neighbors := None; _cache_dict := ∅; _copy_cache := true |}.
Proof.
  intros Hvs Hivs Hxc Hyc Hkx Hky Ht Hb.
  unfold convert_grid. rewrite is_complete_base.
  unfold Grid_is_complete. rewrite Hvs, Hivs, Hxc, Hyc, Hkx, Hky, Ht, Hb.
  cbn -[len py_index]. unfold __init__, init_attrs. cbn -[len py_index].
  unfold check_iverts_length, grid_varies_by_layer, ncpl_at.
  cbn -[len py_index]. rewrite py_index_0. cbn -[len].
  rewrite !Z.eqb_refl. cbn -[len].
  f_equal. unfold _require_cache_updates, set__cache_dict, set__ncpl.
  cbn -[len]. rewrite fmap_empty.
  replace ((fun '(iv, x, y) => (iv, num_mul x factor, num_mul y factor))
           <$> vs)
    with ((fun i : Z * R * R =>
             (i.1.1, num_mul i.1.2 factor, num_mul i.2 factor)) <$> vs);
    [reflexivity|].
  apply list_fmap_ext. intros ? [[iv x] y] ?. reflexivity.
Qed.

(** On a complete grid, idomain included, whose centers are ndarrays,
    [convert_grid] returns a new grid: every coordinate, elevation and
    offset multiplied by the factor, the same cell vertex lists and
    rotation. *)
Lemma convert_grid_scales g (factor : R) vs ivs xc yc top botm idomain :
  _vertices g = Some vs -> _iverts g = Some ivs ->
  _xc g = Some xc -> _yc g = Some yc ->
  _xc_kind g = NdArray -> _yc_kind g = NdArray ->
  _top g = Some top -> _botm g = Some botm ->
  _idomain g = Some idomain ->
  exists g',
    convert_grid g factor = Ok g'
    /\ _vertices g'
       = Some ((fun i : Z * R * R =>
                  (i.1.1, num_mul i.1.2 factor, num_mul i.2 factor)) <$> vs)
    /\ _iverts g' = Some ivs
    /\ _xc g' = Some (scale factor xc) /\ _yc g' = Some (scale factor yc)
    /\ _top g' = Some (scale factor top)
    /\ _botm g' = Some (scale factor botm)
    /\ _xoff g' = num_mul (_xoff g) factor
    /\ _yoff g' = num_mul (_yoff g) factor
    /\ _angrot g' = _angrot g.
Proof.
  intros Hvs Hivs Hxc Hyc Hkx Hky Ht Hb _.
  eexists. split; [by apply (convert_grid_ndarray g factor vs ivs xc yc
                               top botm)|].
  repeat split.
Qed.

(** The loop of the "iac" method: every node gets a slice that starts at
    [idx0 + 1], for the one [idx0] the loop was entered with, and the loop
    variable ends on the last node. *)
Lemma neighbors_iac_loop_spec (ja : list Z) (idx0 : Z) items node d :
  neighbors_iac_loop (Some ja) idx0 items node d
  = Ok (foldl (fun _ it => Some it.1) node items,
        foldl (fun d it => <[it.1 := py_slice ja (idx0 + 1) (idx0 + it.2)]> d)
              d items).
Proof.
  revert node d. induction items as [|[n ia] items IH]; intros node d.
  - reflexivity.
  - cbn [neighbors_iac_loop not_None bind]. rewrite IH. reflexivity.
Qed.

(** *** The geometry cache *)

Lemma set__cache_dict_id g : set__cache_dict g (_cache_dict g) = g.
Proof. by destruct g. Qed.

Lemma build_attrs g g' :
  _build_grid_geometry_info g = Ok g' ->
  g' = set__cache_dict g (_cache_dict g').
Proof.
  unfold _build_grid_geometry_info. intros Hb.
  destruct (not_None (_vertices g)); [|discriminate]. cbn [bind] in Hb.
  destruct (not_None (iverts g)); [|discriminate]. cbn [bind] in Hb.
  destruct (mapR _ _); [|discriminate]. cbn [bind] in Hb.
  destruct (_zcoords g) as [zvertices zcenters].
  match type of Hb with
  | bind ?m _ = _ => destruct m as [[[xc yc] cells]|]
  end; [|discriminate].
  cbn [bind] in Hb. injection Hb as <-. reflexivity.
Qed.

(** Reading [xyzvertices] changes nothing but the cache, and not even the
    cache when its entry is up to date. *)
Lemma xyzvertices_attrs g r g' :
  xyzvertices g = (r, g') ->
  g' = set__cache_dict g (_cache_dict g')
  /\ (cache_stale g "xyzgrid" = false -> g' = g).
Proof.
  unfold xyzvertices. destruct (cache_stale g "xyzgrid").
  - destruct (_build_grid_geometry_info g) as [g1|e] eqn:Hb.
    + apply build_attrs in Hb.
      destruct (cache_read g1 "xyzgrid") as [[| ]|];
        intros [= <- <-]; (split; [done|discriminate]).
    + intros [= <- <-]. by rewrite set__cache_dict_id.
  - destruct (cache_read g "xyzgrid") as [[| ]|];
      intros [= <- <-]; by rewrite set__cache_dict_id.
Qed.

Lemma intersect_ncpl_cache g c :
  intersect_ncpl (set__cache_dict g c) = intersect_ncpl g.
Proof. reflexivity. Qed.

Lemma grid_varies_by_layer_cache g c :
  grid_varies_by_layer (set__cache_dict g c) = grid_varies_by_layer g.
Proof. reflexivity. Qed.

Lemma intersect_ncpl_Ok g n :
  intersect_ncpl g = Ok n ->
  exists gvbl,
    grid_varies_by_layer g = Ok gvbl
    /\ (gvbl = true -> nnodes g = Some n)
    /\ (gvbl = false -> ncpl_at g 0 = Ok n).
Proof.
  unfold intersect_ncpl. destruct (grid_varies_by_layer g) as [[|]|];
    cbn [bind]; [| |discriminate]; intros Hn; eexists; (split; [reflexivity|]).
  - split; [|discriminate]. intros _.
    by destruct (nnodes g); cbn in Hn; [injection Hn as ->|].
  - split; [discriminate|]. done.
Qed.

(** *** intersect *)

(** The scan falls through when the cells that it visits all fail the
    test. *)
Lemma intersect_cells_none g gvbl xv yv zv (x y : R) z (k s : nat) :
  (s + k <= length xv)%nat -> length yv = length xv ->
  (forall i xa ya,
      (s <= i < s + k)%nat -> xv !! i = Some xa -> yv !! i = Some ya ->
      cell_test x y xa ya = false) ->
  intersect_cells g gvbl xv yv zv x y z (Z.of_nat <$> seq s k) = Ok None.
Proof.
  intros Hk Hly. revert s Hk. induction k as [|k IH]; intros s Hk Hno.
  - reflexivity.
  - destruct (lookup_lt_is_Some_2 xv s) as [xa Hxa]; [lia|].
    destruct (lookup_lt_is_Some_2 yv s) as [ya Hya]; [lia|].
    cbn [seq fmap list_fmap intersect_cells].
    rewrite (py_index_nat _ _ _ Hxa), (py_index_nat _ _ _ Hya). cbn [bind].
    rewrite (Hno s xa ya); [|lia|done..].
    apply (IH (S s)); [lia|]. intros i ? ? Hi. apply Hno. lia.
Qed.

(** Without z the scan returns the first cell that passes the test. *)
Lemma intersect_cells_first g gvbl xv yv zv (x y : R) (k s i : nat) :
  (s <= i < s + k)%nat ->
  cell_passes xv yv x y i ->
  (forall j, (s <= j < i)%nat -> ~ cell_passes xv yv x y j) ->
  intersect_cells g gvbl xv yv zv x y None (Z.of_nat <$> seq s k)
  = Ok (Some (Z.of_nat i)).
Proof.
  revert s. induction k as [|k IH]; intros s Hi Hp Hbelow; [lia|].
  destruct Hp as (xa & ya & Hxa & Hya & Ht).
  cbn [seq fmap list_fmap intersect_cells].
  destruct (decide (s = i)) as [->|Hne].
  - rewrite (py_index_nat _ _ _ Hxa), (py_index_nat _ _ _ Hya). cbn [bind].
    by rewrite Ht.
  - destruct (lookup_lt_is_Some_2 xv s) as [xs Hxs].
    { apply lookup_lt_Some in Hxa. lia. }
    destruct (lookup_lt_is_Some_2 yv s) as [ys Hys].
    { apply lookup_lt_Some in Hya. lia. }
    rewrite (py_index_nat _ _ _ Hxs), (py_index_nat _ _ _ Hys). cbn [bind].
    destruct (cell_test x y xs ys) eqn:Hts.
    + exfalso. apply (Hbelow s); [lia|]. by exists xs, ys.
    + apply (IH (S s)); [lia|by exists xa, ya|].
      intros j Hj. apply Hbelow. lia.
Qed.

Lemma cell_passes_dec xv yv (x y : R) i :
  cell_passes xv yv x y i \/ ~ cell_passes xv yv x y i.
Proof.
  unfold cell_passes.
  destruct (xv !! i) as [xa|] eqn:Hxa; [|right; by intros (? & ? & [=] & _)].
  destruct (yv !! i) as [ya|] eqn:Hya;
    [|right; by intros (? & ? & _ & [=] & _)].
  destruct (cell_test x y xa ya) eqn:Ht.
  - left. by exists xa, ya.
  - right. intros (? & ? & [= <-] & [= <-] & Ht'). congruence.
Qed.

(** Below a cell that passes there is a first one. *)
Lemma first_passing xv yv (x y : R) i :
  cell_passes xv yv x y i ->
  exists k, (k <= i)%nat /\ cell_passes xv yv x y k
            /\ forall j, (j < k)%nat -> ~ cell_passes xv yv x y j.
Proof.
  induction (lt_wf i) as [i _ IH]. intros Hp.
  assert (Hcase : (exists j, (j < i)%nat /\ cell_passes xv yv x y j)
                  \/ forall j, (j < i)%nat -> ~ cell_passes xv yv x y j).
  { clear IH Hp. induction i as [|i [(j & Hj & Hp)|Hn]].
    - right. intros; lia.
    - left. exists j. split; [lia|done].
    - destruct (cell_passes_dec xv yv x y i) as [Hp|Hp].
      + left. exists i. split; [lia|done].
      + right. intros j Hj. destruct (decide (j = i)) as [->|]; [done|].
        apply Hn. lia. }
  destruct Hcase as [(j & Hj & Hpj)|Hn].
  - destruct (IH j Hj Hpj) as (k & Hk & Hpk & Hbelow).
    exists k. split; [lia|done].
  - exists i. split; [lia|done].
Qed.

(** The cell test of the source is the test the specification words. *)
Lemma existsb_Exists {A} (f : A -> bool) (l : list A) :
  existsb f l = true <-> Exists (fun a => f a = true) l.
Proof.
  induction l as [|a l IH]; cbn [existsb].
  - split; [discriminate|]. intros Hex. inversion Hex.
  - rewrite orb_true_iff, IH, Exists_cons. reflexivity.
Qed.

Lemma cell_test_accepts (x y : R) (xa ya : list R) :
  cell_test x y xa ya = true
  <-> within_vertex_range x y xa ya /\ contains_tolerant x y xa ya.
Proof.
  unfold cell_test, within_vertex_range, contains_tolerant, cell_contains,
    cell_radius.
  split.
  - destruct (in_vertex_range x y xa ya) eqn:Hr; [|discriminate].
    intros Hc. split; [|exact Hc].
    unfold in_vertex_range, num_geb in Hr.
    apply andb_true_iff in Hr as [Hr H4].
    apply andb_true_iff in Hr as [Hr H3].
    apply andb_true_iff in Hr as [H1 H2].
    apply existsb_Exists in H1, H2, H3, H4. done.
  - intros [(H1 & H2 & H3 & H4) Hc].
    assert (Hr : in_vertex_range x y xa ya = true).
    { unfold in_vertex_range, num_geb.
      rewrite !andb_true_iff. repeat split; apply existsb_Exists; done. }
    by rewrite Hr.
Qed.

Lemma cell_passes_accepts xv yv (x y : R) (i : nat) :
  cell_passes xv yv x y i <-> cell_accepts xv yv x y i.
Proof.
  unfold cell_passes, cell_accepts. split.
  - intros (xa & ya & Hxa & Hya & Ht). exists xa, ya.
    split; [done|]. split; [done|]. by apply cell_test_accepts.
  - intros (xa & ya & Hxa & Hya & Hacc). exists xa, ya.
    split; [done|]. split; [done|]. by apply cell_test_accepts.
Qed.

(** The outcome of [intersect] without z, from the derived geometry. *)
Lemma intersect_first g (x y : R) forgive xv yv zv g' n (i : nat) :
  xyzvertices g = (Ok (xv, yv, zv), g') ->
  intersect_ncpl g = Ok n ->
  Z.of_nat i < n ->
  cell_passes xv yv x y i ->
  (forall j, (j < i)%nat -> ~ cell_passes xv yv x y j) ->
  intersect g x y None false forgive = (Ok (Cell (Z.of_nat i)), g').
Proof.
  intros Hg Hn Hi Hp Hbelow. unfold intersect. rewrite Hg.
  destruct (xyzvertices_attrs _ _ _ Hg) as [Hattrs _].
  rewrite Hattrs, intersect_ncpl_cache, grid_varies_by_layer_cache, Hn.
  rewrite <- Hattrs.
  destruct (intersect_ncpl_Ok _ _ Hn) as (gvbl & -> & _). cbn [bind].
  unfold py_range.
  rewrite (intersect_cells_first g' gvbl xv yv zv x y (Z.to_nat n) 0 i);
    [reflexivity|lia|done|].
  intros j Hj. apply Hbelow. lia.
Qed.

Lemma intersect_cells_sound g gvbl xv yv zv (x y : R) (k s : nat) i :
  intersect_cells g gvbl xv yv zv x y None (Z.of_nat <$> seq s k)
  = Ok (Some i) ->
  exists m : nat,
    i = Z.of_nat m /\ (s <= m < s + k)%nat
    /\ cell_passes xv yv x y m
    /\ forall j, (s <= j < m)%nat -> ~ cell_passes xv yv x y j.
Proof.
  revert s. induction k as [|k IH]; intros s; [discriminate|].
  cbn [seq fmap list_fmap intersect_cells].
  destruct (py_index xv (Z.of_nat s)) as [xa|] eqn:Hxa; [|discriminate].
  destruct (py_index yv (Z.of_nat s)) as [ya|] eqn:Hya; [|discriminate].
  cbn [bind]. apply py_index_nat_inv in Hxa, Hya.
  destruct (cell_test x y xa ya) eqn:Ht.
  - intros [= <-]. exists s. split; [done|]. split; [lia|].
    split; [by exists xa, ya|]. intros; lia.
  - intros Hrest. destruct (IH (S s) Hrest) as (m & -> & Hm & Hp & Hbelow).
    exists m. split; [done|]. split; [lia|]. split; [done|].
    intros j Hj. destruct (decide (j = s)) as [->|Hne].
    + intros (xa' & ya' & Hxa' & Hya' & Ht'). congruence.
    + apply Hbelow. lia.
Qed.

Lemma intersect_found g (x y : R) forgive xv yv zv g' i :
  xyzvertices g = (Ok (xv, yv, zv), g') ->
  (intersect g x y None false forgive).1 = Ok (Cell i) ->
  exists (m : nat) n,
    i = Z.of_nat m /\ intersect_ncpl g = Ok n /\ i < n
    /\ cell_passes xv yv x y m
    /\ forall j, (j < m)%nat -> ~ cell_passes xv yv x y j.
Proof.
  intros Hg. unfold intersect. rewrite Hg.
  destruct (xyzvertices_attrs _ _ _ Hg) as [Hattrs _].
  rewrite Hattrs, intersect_ncpl_cache, grid_varies_by_layer_cache.
  rewrite <- Hattrs. cbn [fst].
  destruct (grid_varies_by_layer g) as [gvbl|]; [|discriminate].
  cbn [bind]. destruct (intersect_ncpl g) as [n|]; [|discriminate].
  cbn [bind]. unfold py_range.
  destruct (intersect_cells _ _ _ _ _ _ _ _ _) as [[c|]|] eqn:Hc;
    cbn [bind]; [|by destruct forgive|discriminate].
  intros [= ->].
  destruct (intersect_cells_sound _ _ _ _ _ _ _ _ _ _ Hc)
    as (m & -> & Hm & Hp & Hbelow).
  exists m, n. repeat split; [lia|done|]. intros j Hj. apply Hbelow. lia.
Qed.

(** The outcome of [intersect] when no scanned cell passes the test. *)
Lemma intersect_none g (x y : R) z forgive xv yv zv g' n :
  xyzvertices g = (Ok (xv, yv, zv), g') ->
  intersect_ncpl g = Ok n ->
  n <= len xv -> length yv = length xv ->
  (forall i xa ya,
      Z.of_nat i < n -> xv !! i = Some xa -> yv !! i = Some ya ->
      cell_test x y xa ya = false) ->
  intersect g x y z false forgive
  = (if forgive then Ok NaN else Raise (PyException outside_msg), g').
Proof.
  intros Hg Hn Hlen Hly Hno. unfold intersect. rewrite Hg.
  destruct (xyzvertices_attrs _ _ _ Hg) as [Hattrs _].
  rewrite Hattrs, intersect_ncpl_cache, grid_varies_by_layer_cache, Hn.
  rewrite <- Hattrs.
  destruct (intersect_ncpl_Ok _ _ Hn) as (gvbl & -> & _). cbn [bind].
  unfold py_range.
  rewrite (intersect_cells_none g' gvbl xv yv zv x y z (Z.to_nat n) 0);
    [reflexivity|unfold len in Hlen; lia|done|].
  intros i xa ya Hi. apply Hno. lia.
Qed.

Lemma intersect_local g (x y : R) z local forgive :
  intersect g x y z local forgive
  = intersect g (query_point g x y local).1 (query_point g x y local).2
      z false forgive.
Proof.
  unfold intersect, query_point. destruct local; [|reflexivity].
  by destruct (get_coords g x y).
Qed.

(** C3 (as amended).  When the geometry of the grid can be derived and
    covers the cells to scan, and the path test accepts the query point for
    none of them, [intersect] raises with [forgive] false and returns nan
    with [forgive] true, with or without z.  The call changes no attribute
    of the grid but the geometry cache, and leaves the whole object as it
    was when the cache entry was up to date. *)
Theorem intersect_outside g (x y : R) z local forgive xv yv zv g' n :
  xyzvertices g = (Ok (xv, yv, zv), g') ->
  intersect_ncpl g = Ok n ->
  n <= len xv -> length yv = length xv ->
  (forall i : nat,
      Z.of_nat i < n ->
      ~ cell_holds xv yv (query_point g x y local).1
          (query_point g x y local).2 i) ->
  intersect g x y z local forgive
  = (if forgive then Ok NaN else Raise (PyException outside_msg), g')
  /\ g' = set__cache_dict g (_cache_dict g')
  /\ (cache_stale g "xyzgrid" = false -> g' = g).
Proof.
  intros Hg Hn Hlen Hly Hno. split; [|exact (xyzvertices_attrs g _ g' Hg)].
  rewrite intersect_local.
  apply (intersect_none g _ _ z forgive xv yv zv g' n); try done.
  intros i xa ya Hi Hxa Hya. unfold cell_test.
  destruct (in_vertex_range _ _ xa ya); [|done].
  destruct (cell_contains _ _ xa ya) eqn:Hc; [|done].
  exfalso. apply (Hno i Hi). by exists xa, ya.
Qed.

(** *** clean_iverts *)

Lemma vset_add_fresh (vset : list (R * R * gset Z)) vert iv :
  (forall k ids, (k, ids) ∈ vset -> key_eqb k vert = false) ->
  vset_add vset vert iv = (vset ++ [(vert, {[iv]})])%list.
Proof.
  induction vset as [|[k ids] vset IH]; intros Hfresh; [reflexivity|].
  cbn [vset_add]. rewrite (Hfresh k ids) by apply list_elem_of_here.
  cbn [app]. f_equal. apply IH. intros k' ids' Hin.
  apply (Hfresh k' ids'). by apply list_elem_of_further.
Qed.

(** With distinct coordinates every vertex opens a group of its own. *)
Lemma clean_vset_distinct (vs : list (Z * R * R)) :
  distinct_coords vs ->
  clean_vset vs = (fun v => (vertex_xy v, {[v.1.1]})) <$> vs.
Proof.
  induction vs as [|v vs IH] using rev_ind; intros Hd; [reflexivity|].
  unfold clean_vset in *. rewrite foldl_app, fmap_app. cbn [foldl].
  rewrite IH.
  - destruct v as [[iv x] y]. rewrite vset_add_fresh; [reflexivity|].
    intros k ids Hin.
    apply list_elem_of_fmap in Hin as (w & [= -> ->] & Hw).
    apply list_elem_of_lookup in Hw as [i Hi].
    apply (Hd i (length vs) w (iv, x, y)).
    + apply lookup_lt_Some in Hi. lia.
    + by rewrite lookup_app_l by (by apply lookup_lt_Some in Hi).
    + by rewrite lookup_app_r, Nat.sub_diag by lia.
  - intros i j v' w' Hne Hi Hj. apply (Hd i j v' w' Hne).
    + by rewrite lookup_app_l by (by apply lookup_lt_Some in Hi).
    + by rewrite lookup_app_l by (by apply lookup_lt_Some in Hj).
Qed.

Lemma renumber_snoc (vs : list (Z * R * R)) v :
  renumber (vs ++ [v]) = (renumber vs ++ [(len vs, v.1.2, v.2)])%list.
Proof.
  unfold renumber. rewrite imap_app. cbn. by rewrite Nat.add_0_r.
Qed.

Lemma vertexdict_of_snoc (vs : list (Z * R * R)) iv x y :
  vertexdict_of (vs ++ [(iv, x, y)]) = <[iv := (x, y)]> (vertexdict_of vs).
Proof. unfold vertexdict_of. by rewrite foldl_app. Qed.

(** The second loop of [clean_iverts] on one group per vertex: the new
    vertices are the old ones renumbered, and the id of a vertex is mapped to
    the position of the last vertex that carries it, the one [vertexdict]
    keeps. *)
Lemma clean_step_distinct (vs : list (Z * R * R)) :
  exists ivert_remap,
    foldl clean_step (0, ∅, [])
      ((fun v => (vertex_xy v, {[v.1.1]})) <$> vs)
    = (len vs, ivert_remap, renumber vs)
    /\ forall iv,
         match ivert_remap !! iv with
         | Some c =>
             exists (k : nat) v,
               c = Z.of_nat k /\ vs !! k = Some v
               /\ vertexdict_of vs !! iv = Some (vertex_xy v)
         | None => vertexdict_of vs !! iv = None
         end.
Proof.
  induction vs as [|[[iv x] y] vs IH] using rev_ind.
  - exists ∅. split; [reflexivity|]. intros iv. by rewrite lookup_empty.
  - destruct IH as (remap & Hfold & Hremap).
    exists (<[iv := len vs]> remap). split.
    + rewrite fmap_app, foldl_app, Hfold. cbn [fmap list_fmap foldl].
      unfold clean_step, vertex_xy. cbn [fst snd].
      rewrite elements_singleton. cbn [foldl].
      rewrite renumber_snoc. unfold len. rewrite length_app. cbn [length].
      repeat f_equal. lia.
    + intros iv'. rewrite vertexdict_of_snoc.
      destruct (decide (iv = iv')) as [<-|Hne].
      * rewrite !lookup_insert_eq. exists (length vs), (iv, x, y).
        split; [reflexivity|]. split; [|reflexivity].
        by rewrite lookup_app_r, Nat.sub_diag by lia.
      * rewrite !lookup_insert_ne by done.
        specialize (Hremap iv'). destruct (remap !! iv') as [c|]; [|done].
        destruct Hremap as (k & v & -> & Hk & Hv).
        exists k, v. split; [reflexivity|]. split; [|done].
        by rewrite lookup_app_l by (by apply lookup_lt_Some in Hk).
Qed.

(** The dictionary of the renumbered vertices. *)
Lemma vertexdict_of_renumber (vs : list (Z * R * R)) (k : nat) v :
  vs !! k = Some v ->
  vertexdict_of (renumber vs) !! Z.of_nat k = Some (vertex_xy v).
Proof.
  revert k v. induction vs as [|w vs IH] using rev_ind; intros k v Hk.
  - by rewrite lookup_nil in Hk.
  - rewrite renumber_snoc, vertexdict_of_snoc.
    destruct (decide (k = length vs)) as [->|Hne].
    + rewrite lookup_app_r, Nat.sub_diag in Hk by lia.
      injection Hk as ->. unfold len. by rewrite lookup_insert_eq.
    + assert (k < length vs)%nat.
      { apply lookup_lt_Some in Hk. rewrite length_app in Hk. cbn in Hk. lia. }
      rewrite lookup_app_l in Hk by done.
      rewrite lookup_insert_ne by (unfold len; lia). by apply IH.
Qed.

Lemma mapR_cons_Ok {A B} (f : A -> result B) x xs r :
  mapR f (x :: xs) = Ok r ->
  exists y ys, f x = Ok y /\ mapR f xs = Ok ys /\ r = y :: ys.
Proof.
  cbn [mapR]. destruct (f x) as [y|]; [|discriminate]. cbn [bind].
  destruct (mapR f xs) as [ys|]; [|discriminate]. cbn [bind].
  intros [= <-]. by exists y, ys.
Qed.

(** A vertex id that resolves is remapped, and the new id resolves to the
    same coordinates among the renumbered vertices. *)
Lemma remap_ids (vs : list (Z * R * R)) (ivert_remap : gmap Z Z) t ps :
  (forall iv,
      match ivert_remap !! iv with
      | Some c =>
          exists (k : nat) v,
            c = Z.of_nat k /\ vs !! k = Some v
            /\ vertexdict_of vs !! iv = Some (vertex_xy v)
      | None => vertexdict_of vs !! iv = None
      end) ->
  mapR (dict_get (vertexdict_of vs)) t = Ok ps ->
  exists t',
    mapR (dict_get ivert_remap) t = Ok t'
    /\ mapR (dict_get (vertexdict_of (renumber vs))) t' = Ok ps.
Proof.
  intros Hremap. revert ps. induction t as [|iv t IH]; intros ps Hps.
  - injection Hps as <-. by exists [].
  - apply mapR_cons_Ok in Hps as (p & ps' & Hp & Hps' & ->).
    destruct (IH _ Hps') as (t' & Ht' & Hres).
    unfold dict_get in Hp. specialize (Hremap iv).
    destruct (vertexdict_of vs !! iv) as [p'|] eqn:Hd; [|discriminate].
    injection Hp as ->.
    destruct (ivert_remap !! iv) as [c|] eqn:Hc; [|discriminate].
    destruct Hremap as (k & v & -> & Hk & [= ->]).
    exists (Z.of_nat k :: t'). cbn [mapR]. unfold dict_get at 1.
    rewrite Hc. cbn [bind]. rewrite Ht'. cbn [bind].
    split; [reflexivity|]. unfold dict_get at 1.
    rewrite (vertexdict_of_renumber vs k v Hk). cbn [bind].
    by rewrite Hres.
Qed.

Lemma remap_cells (vs : list (Z * R * R)) (ivert_remap : gmap Z Z) ivs cells :
  (forall iv,
      match ivert_remap !! iv with
      | Some c =>
          exists (k : nat) v,
            c = Z.of_nat k /\ vs !! k = Some v
            /\ vertexdict_of vs !! iv = Some (vertex_xy v)
      | None => vertexdict_of vs !! iv = None
      end) ->
  mapR (cell_xy (vertexdict_of vs)) ivs = Ok cells ->
  exists ivs',
    mapR (mapR (dict_get ivert_remap)) ivs = Ok ivs'
    /\ mapR (cell_xy (vertexdict_of (renumber vs))) ivs' = Ok cells
    /\ length ivs' = length ivs.
Proof.
  intros Hremap. revert cells.
  induction ivs as [|t ivs IH]; intros cells Hcells.
  - injection Hcells as <-. by exists [].
  - apply mapR_cons_Ok in Hcells as (c & cells' & Hc & Hcells' & ->).
    destruct (IH _ Hcells') as (ivs' & Hivs' & Hres & Hlen).
    unfold cell_xy in Hc.
    destruct (mapR (dict_get (vertexdict_of vs)) t) as [ps|] eqn:Hps;
      [|discriminate].
    cbn [bind] in Hc. injection Hc as <-.
    destruct (remap_ids vs ivert_remap t ps Hremap Hps) as (t' & Ht' & Hps').
    exists (t' :: ivs'). cbn [mapR]. rewrite Ht', Hivs'. cbn [bind].
    split; [reflexivity|]. unfold cell_xy at 1. rewrite Hps'. cbn [bind].
    rewrite Hres. cbn [bind length]. by rewrite Hlen.
Qed.

Lemma omap_Some {A} (t : list A) : omap (fun x => x) (Some <$> t) = t.
Proof. induction t as [|x t IH]; [done|]. cbn. by rewrite IH. Qed.

(** The shape assertion looks at the validity of the grid, at [ncpl] and at
    the number of cells only. *)
Lemma check_iverts_length_ext g1 g2 ivs1 ivs2 :
  is_valid g1 = is_valid g2 -> ncpl g1 = ncpl g2 ->
  _iverts g1 = Some ivs1 -> _iverts g2 = Some ivs2 ->
  length ivs1 = length ivs2 ->
  check_iverts_length g1 ivs1 = check_iverts_length g2 ivs2.
Proof.
  intros Hv Hn H1 H2 Hlen.
  unfold check_iverts_length, grid_varies_by_layer, ncpl_at, nnodes, len.
  rewrite Hv, Hn, H1, H2. cbn [not_None bind]. by rewrite Hlen.
Qed.

Lemma check_iverts_length_ncpl g ivs :
  is_valid g = true -> check_iverts_length g ivs = Ok tt ->
  exists l, ncpl g = Some l.
Proof.
  intros Hv. unfold check_iverts_length, grid_varies_by_layer, ncpl_at.
  rewrite Hv. destruct (ncpl g) as [l|]; [by exists l|discriminate].
Qed.

(** C7 (as amended).  On a valid grid whose vertices have pairwise distinct
    (x, y), whose cell vertex ids all resolve to vertices and which
    satisfies the shape assertion of its constructor,
    [clean_iverts(inplace=False)] returns a new grid and leaves the grid
    itself as it was.  Every cell of the new grid
    resolves to the same sequence of (x, y) coordinates as in the original
    (the vertices are renumbered by position); centers, top, botm, ncpl,
    offsets, rotation, idomain, lenuni, crs, prjfile, iac and ja are those
    of the original. *)
Theorem clean_iverts_same_geometry g vs cells :
  is_valid g = true ->
  _vertices g = Some vs ->
  distinct_coords vs ->
  cell_coords g = Ok cells ->
  shape_ok g ->
  exists g',
    clean_iverts g false = (Ok (Some g'), g)
    /\ cell_coords g' = Ok cells
    /\ _vertices g' = Some (renumber vs)
    /\ _xc g' = _xc g /\ _yc g' = _yc g
    /\ _top g' = _top g /\ _botm g' = _botm g
    /\ ncpl g' = ncpl g
    /\ _xoff g' = _xoff g /\ _yoff g' = _yoff g /\ _angrot g' = _angrot g
    /\ _idomain g' = _idomain g /\ _lenuni g' = _lenuni g
    /\ _crs g' = _crs g /\ _prjfile g' = _prjfile g
    /\ _iac g' = _iac g /\ _ja g' = _ja g.
Proof.
  intros Hv Hvs Hd Hcells (ivs0 & Hivs0 & Hcheck).
  destruct (check_iverts_length_ncpl g ivs0 Hv Hcheck) as [l Hl].
  unfold cell_coords, iverts in Hcells. rewrite Hvs, Hivs0 in Hcells.
  cbn [not_None bind] in Hcells.
  destruct (clean_step_distinct vs) as (remap & Hfold & Hremap).
  destruct (remap_cells vs remap _ cells Hremap Hcells)
    as (ivs' & Hivs' & Hres & Hlen).
  rewrite length_fmap in Hlen.
  assert (Htables : clean_tables g
            = Ok (renumber vs, (fun t : list Z => Some <$> t) <$> ivs')).
  { unfold clean_tables. rewrite Hvs. cbn [not_None bind].
    rewrite (clean_vset_distinct vs Hd), Hfold.
    unfold iverts. rewrite Hivs0. cbn [not_None bind].
    by rewrite Hivs'. }
  unfold clean_iverts. rewrite Hv, Htables.
  unfold ncpl in Hl. rewrite Hl. cbn [fmap option_fmap option_map].
  match goal with
  | |- context [__init__ ?a] => set (args := a)
  end.
  set (g1 := _require_cache_updates (set__ncpl (init_attrs args) (Some l))).
  assert (Hinit : __init__ args = Ok g1).
  { unfold __init__. cbn [a_ncpl args set_ncpl Nat.eqb bind].
    fold g1.
    change (_iverts (init_attrs args))
      with (Some ((fun t : list Z => Some <$> t) <$> ivs')).
    cbn [bind].
    assert (Hc : check_iverts_length g1
                   ((fun t : list Z => Some <$> t) <$> ivs')
                 = check_iverts_length g ivs0).
    { apply check_iverts_length_ext.
      - rewrite Hv.
        destruct (proj1 (is_valid_true g) Hv)
          as (? & ? & ? & ? & _ & _ & Hxc & Hyc).
        subst g1. unfold is_valid. cbn. by rewrite Hxc, Hyc.
      - subst g1. cbn. by rewrite <- Hl.
      - reflexivity.
      - exact Hivs0.
      - by rewrite length_fmap. }
    by rewrite Hc, Hcheck. }
  rewrite Hinit. cbn [bind]. exists g1. split; [reflexivity|].
  split.
  { unfold cell_coords, iverts. subst g1. cbn [_vertices _iverts
      _require_cache_updates set__cache_dict set__ncpl init_attrs init_cells
      args a_cell2d a_vertices a_iverts not_None bind].
    rewrite <- list_fmap_compose.
    replace (_ <$> ivs') with ivs'; [done|].
    rewrite <- (list_fmap_id ivs') at 1.
    apply list_fmap_ext. intros ? t _. cbn. by rewrite omap_Some. }
  subst g1. cbn. unfold ncpl. rewrite Hl. repeat split.
Qed.

(** *** cell2d *)

Lemma cell2d_loop_flat g xc yc ivs (k s : nat) :
  _xc g = Some xc -> _yc g = Some yc -> _iverts g = Some ivs ->
  length yc = length xc -> length ivs = length xc ->
  (s + k <= length xc)%nat ->
  exists recs,
    cell2d_loop g false (Z.of_nat <$> seq s k) 0 = Ok recs
    /\ length recs = k
    /\ forall (j : nat) x y iv,
         (j < k)%nat ->
         xc !! (s + j)%nat = Some x -> yc !! (s + j)%nat = Some y ->
         ivs !! (s + j)%nat = Some iv ->
         recs !! j = Some {| c2d_ix := Z.of_nat (s + j); c2d_xc := x;
                             c2d_yc := y; c2d_nv := len iv;
                             c2d_iverts := iv |}.
Proof.
  intros Hxc Hyc Hivs Hly Hli. revert s.
  induction k as [|k IH]; intros s Hs.
  - exists []. repeat split. intros; lia.
  - destruct (lookup_lt_is_Some_2 xc s) as [x Hx]; [lia|].
    destruct (lookup_lt_is_Some_2 yc s) as [y Hy]; [lia|].
    destruct (lookup_lt_is_Some_2 ivs s) as [iv Hiv]; [lia|].
    destruct (IH (S s)) as (recs & Hloop & Hlen & Hrecs); [lia|].
    cbn [seq fmap list_fmap cell2d_loop bind].
    rewrite Hivs, Hxc, Hyc. cbn [not_None bind].
    rewrite Z.sub_0_r.
    rewrite (py_index_nat _ _ _ Hiv), (py_index_nat _ _ _ Hx),
      (py_index_nat _ _ _ Hy).
    cbn [bind].
    change (list_fmap nat Z Z.of_nat (seq (S s) k))
      with (Z.of_nat <$> seq (S s) k).
    rewrite Hloop. cbn [bind].
    eexists. split; [reflexivity|]. split; [cbn; lia|].
    intros [|j] x' y' iv' Hj Hx' Hy' Hiv'.
    + rewrite Nat.add_0_r in *. cbn. congruence.
    + cbn. replace (s + S j)%nat with (S s + j)%nat in * by lia.
      apply Hrecs; [lia|done..].
Qed.

(** C9 (as amended).  On a valid grid whose [ncpl] is set and whose center
    and cell vertex arrays have one length, reading [cell2d] evaluates the
    modulo by the literal zero, [ncenters / self.nnodes % 0], exactly when
    the number of centers differs from [nnodes].  When the two are equal the
    property returns [nnodes] records [ix, xc[ix], yc[ix], len(iverts[ix]),
    iverts[ix]...] and evaluates no such modulo.  When they differ the
    modulo is taken, its value nan is true, and the records are those of the
    loop in its layered mode. *)
Theorem cell2d_zero_modulus g l xc yc ivs :
  is_valid g = true -> ncpl g = Some l ->
  _xc g = Some xc -> _yc g = Some yc -> _iverts g = Some ivs ->
  length yc = length xc -> length ivs = length xc ->
  (len xc = np_sum l ->
   cell2d_events g = []
   /\ exists recs,
       cell2d g = Ok (Some recs) /\ len recs = np_sum l
       /\ forall (i : nat) x y iv,
            xc !! i = Some x -> yc !! i = Some y -> ivs !! i = Some iv ->
            recs !! i = Some {| c2d_ix := Z.of_nat i; c2d_xc := x;
                                c2d_yc := y; c2d_nv := len iv;
                                c2d_iverts := iv |})
  /\ (len xc <> np_sum l ->
      cell2d_events g = [ModByLiteralZero (len xc) (np_sum l)]
      /\ cell2d g
         = (recs <- cell2d_loop g true (py_range (np_sum l)) 0;;
            Ok (Some recs)))
  /\ (cell2d_events g = [] <-> len xc = np_sum l).
Proof.
  intros Hv Hl Hxc Hyc Hivs Hly Hli.
  assert (Hnn : nnodes g = Some (np_sum l)) by (unfold nnodes; by rewrite Hl).
  assert (Heq : len xc = np_sum l ->
            cell2d_run g
            = ([], recs <- cell2d_loop g false (py_range (np_sum l)) 0;;
                   Ok (Some recs))).
  { intros E. unfold cell2d_run, cell2d_guard.
    rewrite Hv, Hxc, Hnn. rewrite E, Z.eqb_refl. reflexivity. }
  assert (Hne' : len xc <> np_sum l ->
            cell2d_run g
            = ([ModByLiteralZero (len xc) (np_sum l)],
               recs <- cell2d_loop g true (py_range (np_sum l)) 0;;
               Ok (Some recs))).
  { intros E. unfold cell2d_run, cell2d_guard.
    rewrite Hv, Hxc, Hnn.
    destruct (Z.eqb_spec (len xc) (np_sum l)); [done|]. reflexivity. }
  assert (Hne : len xc <> np_sum l ->
            fst (cell2d_run g) = [ModByLiteralZero (len xc) (np_sum l)]).
  { intros E. by rewrite (Hne' E). }
  split; [|split].
  - intros E. unfold cell2d_events, cell2d. rewrite (Heq E).
    split; [reflexivity|]. cbn [snd].
    destruct (cell2d_loop_flat g xc yc ivs (length xc) 0)
      as (recs & Hloop & Hlen & Hrecs); try done.
    unfold py_range. rewrite <- E. unfold len at 1. rewrite Nat2Z.id.
    rewrite Hloop. cbn [bind].
    exists recs. split; [reflexivity|]. split.
    { unfold len. by rewrite Hlen. }
    intros i x y iv Hx Hy Hiv.
    apply (Hrecs i x y iv); try done.
    by apply lookup_lt_Some in Hx.
  - intros E. unfold cell2d_events, cell2d. by rewrite (Hne' E).
  - unfold cell2d_events. split.
    + intros Hev. destruct (Z.eq_dec (len xc) (np_sum l)) as [E|E]; [done|].
      rewrite (Hne E) in Hev. discriminate.
    + intros E. by rewrite (Heq E).
Qed.

End GridFacts.

(** ** The header of a grid specification file *)

(** The header check lets exactly one header through. *)
Lemma header_refused_false (header : list string) :
  GridSpec.header_refused header = false <-> header = ["UNSTRUCTURED"].
Proof.
  unfold GridSpec.header_refused. split.
  - destruct header as [|h0 [|h1 [|h2 t]]]; cbn; try discriminate.
    + case_bool_decide as Hd; cbn; [|discriminate].
      intros _. congruence.
    + unfold len. cbn [length].
      destruct (Z.eqb_spec (Z.of_nat (S (S (S (length t))))) 1); [lia|].
      cbn. discriminate.
  - intros ->. reflexivity.
Qed.

(** C4 (the code departs from it).  A file whose header line is the token
    UNSTRUCTURED alone passes the header check of [from_gridspec], and the
    body is what is parsed next; a file whose header line is UNSTRUCTURED
    followed by the tag GWF is refused with "Invalid GSF file, no header",
    which the claim says must not happen. *)
Theorem from_gridspec_header_gwf (body : list string) :
  GridSpec.from_gridspec_header ("UNSTRUCTURED" :: body) = Ok body
  /\ GridSpec.from_gridspec_header ("UNSTRUCTURED GWF" :: body)
     = Raise (ValueError GridSpec.no_header_msg).
Proof. split; destruct body; reflexivity. Qed.

(** ** Completeness and scaling *)

(** C1 (the code departs from it).  The grid built from vertices, centers
    and elevations without cell vertex lists is not valid, and [is_complete]
    answers true on it; the claim says a grid with null [iverts] is never
    complete. *)
Theorem is_complete_without_iverts :
  is_valid no_iverts_grid = false /\ is_complete no_iverts_grid = true.
Proof. split; reflexivity. Qed.

(** C5 (the code departs from it).  The grid without cell vertex lists is
    not valid, hence not complete in the sense of the specification, and
    [convert_grid] with factor 2 returns a scaled grid for it; the claim
    says the call raises. *)
Theorem convert_grid_without_iverts :
  is_valid no_iverts_grid = false
  /\ convert_grid no_iverts_grid f2 = Ok no_iverts_grid_x2.
Proof. split; reflexivity. Qed.

(** ** Neighbors *)

(** C8 (the code departs from it).  With iac = [3, 2, 2] and
    ja = [0, 1, 2, 1, 0, 2, 0], the first call [neighbors(node=0,
    method="iac")] returns [1]: the loop that fills the cache rebinds [node]
    to the last node, whose slice is ja[1:2].  On the cache so built, node 0
    gives [1, 2] and node 1 gives [1], which is ja[1:2] and not ja[4:5] =
    [0]: the offset is never advanced. *)
Theorem neighbors_iac_scenario
    (Grid_neighbors :
       UnstructuredGrid float -> option Z -> option string -> bool ->
       result neighbors_ret * UnstructuredGrid float) :
  let first := neighbors Grid_neighbors iac_grid (Some 0) (Some "iac") false in
  first.1 = Ok (NbList [1])
  /\ (neighbors Grid_neighbors first.2 (Some 0) (Some "iac") false).1
     = Ok (NbList [1; 2])
  /\ (neighbors Grid_neighbors first.2 (Some 1) (Some "iac") false).1
     = Ok (NbList [1])
  /\ py_slice [0; 1; 2; 1; 0; 2; 0] 4 5 = [0].
Proof. repeat split; vm_compute; reflexivity. Qed.

(** C10, on the grid that [UnstructuredGrid()] builds. *)
Lemma clean_iverts_not_valid_witness :
  is_valid Float64.empty_grid = false
  /\ clean_iverts Float64.empty_grid true = (Ok None, Float64.empty_grid)
  /\ clean_iverts Float64.empty_grid false = (Ok None, Float64.empty_grid).
Proof.
  split; [reflexivity|].
  split; apply (clean_iverts_not_valid Float64.empty_grid); reflexivity.
Defined.

(** C6, on the unit square. *)
Lemma ncpl_default_and_counts_witness :
  a_ncpl Float64.unit_square_args = None
  /\ init_valid Float64.unit_square_args = true
  /\ exists g ivs,
       __init__ Float64.unit_square_args = Ok g /\ is_valid g = true
       /\ _iverts g = Some ivs /\ ncpl g = Some [len ivs].
Proof.
  split; [reflexivity|]. split; [reflexivity|].
  apply (proj1 (ncpl_default_and_counts (R:=float))); reflexivity.
Defined.

(** C9 (as stated, fails).  The unit square with [ncpl=[1, 1]], one cell
    vertex list and two centers is accepted by the constructor and valid,
    and has as many centers as nodes; the guard takes no modulo, the loop
    runs over the two nodes without adjustment, and [self._iverts[1]] raises
    IndexError: no record is returned. *)
Lemma cell2d_zero_modulus_counterexample :
  __init__ two_centers_args = Ok two_centers
  /\ is_valid two_centers = true
  /\ (len <$> _xc two_centers) = nnodes two_centers
  /\ cell2d_events two_centers = []
  /\ cell2d two_centers = Raise IndexError.
Proof. repeat split; reflexivity. Qed.

(** C9 (as amended), on the unit square (one center, one node) and on the
    unit square in two layers (one center, two nodes). *)
Lemma cell2d_zero_modulus_witness :
  (cell2d_events unit_square = []
   /\ exists recs,
       cell2d unit_square = Ok (Some recs) /\ len recs = np_sum [1]
       /\ forall (i : nat) x y iv,
            [fhalf] !! i = Some x -> [fhalf] !! i = Some y ->
            [[Some 0; Some 1; Some 2; Some 3]] !! i = Some iv ->
            recs !! i = Some {| c2d_ix := Z.of_nat i; c2d_xc := x;
                                c2d_yc := y; c2d_nv := len iv;
                                c2d_iverts := iv |})
  /\ cell2d_events two_layers = [ModByLiteralZero 1 2].
Proof.
  split.
  - apply (cell2d_zero_modulus unit_square [1] [fhalf] [fhalf]
             [[Some 0; Some 1; Some 2; Some 3]]); reflexivity.
  - apply (cell2d_zero_modulus two_layers [1; 1] [fhalf] [fhalf]
             [[Some 0; Some 1; Some 2; Some 3]]); try reflexivity.
    unfold len. simpl. lia.
Defined.

(** With one center for two nodes the guard of [cell2d] takes the modulo by
    zero, and both records read the one cell. *)
Example cell2d_two_layers :
  cell2d_events two_layers = [ModByLiteralZero 1 2]
  /\ cell2d two_layers
     = Ok (Some [ {| c2d_ix := 0; c2d_xc := fhalf; c2d_yc := fhalf;
                     c2d_nv := 4;
                     c2d_iverts := [Some 0; Some 1; Some 2; Some 3] |};
                  {| c2d_ix := 1; c2d_xc := fhalf; c2d_yc := fhalf;
                     c2d_nv := 4;
                     c2d_iverts := [Some 0; Some 1; Some 2; Some 3] |} ]).
Proof. split; reflexivity. Qed.

(** ** Point queries *)

(** With z, the scan of the layers returns the node of the layer whose top
    and bottom enclose z: node 1 for z = 0.5 in the second layer. *)
Example intersect_two_layers :
  (intersect two_layers fhalf fhalf (Some fhalf) false false).1 = Ok (Cell 1)
  /\ (intersect two_layers fhalf fhalf (Some 1.5%float) false false).1
     = Ok (Cell 0)
  /\ (intersect two_layers fhalf fhalf (Some f5) false true).1 = Ok NaN.
Proof. repeat split; reflexivity. Qed.

(** C2 (as amended).  On a grid whose geometry can be derived and whose
    number of cells to scan is defined, [intersect] without z scans the
    cells 0, 1, ... below [nnodes] when the grid varies by layer and below
    [ncpl[0]] otherwise, and returns the first one that accepts the point:
    the point lies within the range of the cell's vertex coordinates, and
    the path of the cell contains it for the radius -1e-9 (clockwise
    winding) or 1e-9 (otherwise).  It returns that cell and no other: a cell
    number it returns is the first accepting cell.  So when two cells accept
    the point, as on their shared edge, the answer is not above the lower
    one; and on the unit square (0,0), (1,0), (1,1), (0,1), whose path
    contains (0.5, 0.5) for that radius, [intersect(0.5, 0.5)] is cell 0. *)
Theorem intersect_first_containing :
  (forall (R : Type) (HN : Num R) (HS : Services R)
          (g : UnstructuredGrid R) (x y : R) (forgive : bool)
          xv yv zv g' n,
      xyzvertices g = (Ok (xv, yv, zv), g') ->
      intersect_ncpl g = Ok n ->
      (exists gvbl,
          grid_varies_by_layer g = Ok gvbl
          /\ (gvbl = true -> nnodes g = Some n)
          /\ (gvbl = false -> ncpl_at g 0 = Ok n))
      /\ (forall i : nat,
             Z.of_nat i < n ->
             cell_accepts xv yv x y i ->
             (forall j, (j < i)%nat -> ~ cell_accepts xv yv x y j) ->
             (intersect g x y None false forgive).1 = Ok (Cell (Z.of_nat i)))
      /\ (forall c,
             (intersect g x y None false forgive).1 = Ok (Cell c) ->
             exists i : nat,
               c = Z.of_nat i /\ Z.of_nat i < n
               /\ cell_accepts xv yv x y i
               /\ forall j, (j < i)%nat -> ~ cell_accepts xv yv x y j)
      /\ (forall i j : nat,
             (i < j)%nat -> Z.of_nat j < n ->
             cell_accepts xv yv x y i -> cell_accepts xv yv x y j ->
             exists k : nat,
               (k <= i)%nat
               /\ (intersect g x y None false forgive).1
                  = Ok (Cell (Z.of_nat k))))
  /\ (forall HS : Services float,
        contains_point [(f0, f0); (f1, f0); (f1, f1); (f0, f1)]
          (fhalf, fhalf)
          (if is_clockwise [f0; f1; f1; f0] [f0; f0; f1; f1]
           then neg_tol else tol) = true ->
        (intersect unit_square fhalf fhalf None false false).1 = Ok (Cell 0)).
Proof.
  split.
  - intros R HN HS g x y forgive xv yv zv g' n Hg Hn.
    assert (Hnot : forall i : nat,
               (forall j, (j < i)%nat -> ~ cell_accepts xv yv x y j) ->
               forall j, (j < i)%nat -> ~ cell_passes xv yv x y j).
    { intros i Hbelow j Hj Hp. apply (Hbelow j Hj).
      by apply cell_passes_accepts. }
    split; [by apply intersect_ncpl_Ok|]. split; [|split].
    + intros i Hi Hp Hbelow.
      rewrite (intersect_first g x y forgive xv yv zv g' n i);
        [done..| |by apply Hnot]. by apply cell_passes_accepts.
    + intros c Hc.
      destruct (intersect_found g x y forgive xv yv zv g' c Hg Hc)
        as (m & n' & -> & Hn' & Hlt & Hp & Hbelow).
      exists m. split; [done|]. split; [congruence|].
      split; [by apply cell_passes_accepts|].
      intros j Hj Hacc. apply (Hbelow j Hj). by apply cell_passes_accepts.
    + intros i j Hij Hj Hpi _. apply cell_passes_accepts in Hpi.
      destruct (first_passing xv yv x y i Hpi) as (k & Hk & Hpk & Hbelow).
      exists k. split; [done|].
      rewrite (intersect_first g x y forgive xv yv zv g' n k);
        [done..|lia|done|done].
  - intros HS Hc.
    rewrite (intersect_first unit_square fhalf fhalf false
               [[f0; f1; f1; f0]] [[f0; f0; f1; f1]] None
               (xyzvertices unit_square).2 1 0);
      [reflexivity|reflexivity|reflexivity|lia| |intros; lia].
    exists [f0; f1; f1; f0], [f0; f0; f1; f1].
    split; [reflexivity|]. split; [reflexivity|].
    unfold cell_test.
    change (in_vertex_range fhalf fhalf [f0; f1; f1; f0] [f0; f0; f1; f1])
      with true.
    exact Hc.
Qed.

(** C2 (as stated, fails).  The claim asks for the first cell whose polygon
    contains the point under the edge-tolerant test.  The point
    (1.0000000001, 0.5) lies 1e-10 outside the edge x = 1 of the unit
    square, within the radius 1e-9, so the tolerant test accepts it; but no
    vertex has an x at or above it, the range check of the source fails
    before the path is asked, and [intersect] finds no cell. *)
Lemma intersect_first_containing_counterexample :
  (xyzvertices unit_square).1
  = Ok ([[f0; f1; f1; f0]], [[f0; f0; f1; f1]], None)
  /\ contains_tolerant just_right_of_1 fhalf [f0; f1; f1; f0] [f0; f0; f1; f1]
  /\ ~ within_vertex_range just_right_of_1 fhalf
        [f0; f1; f1; f0] [f0; f0; f1; f1]
  /\ (intersect unit_square just_right_of_1 fhalf None false true).1 = Ok NaN
  /\ (intersect unit_square just_right_of_1 fhalf None false false).1
     = Raise (PyException outside_msg).
Proof.
  split; [reflexivity|]. split; [reflexivity|]. split; [|split; reflexivity].
  intros (Hx & _). apply existsb_Exists in Hx. vm_compute in Hx. discriminate.
Qed.

(** C2 (as amended): the radius is 1e-9 with the sign of the winding; on the
    two squares that share the edge x = 1, the point (1, 0.5) of that edge
    gives cell 0; on the unit square wound clockwise the point (1, 0.5) of
    its edge is accepted for the radius -1e-9; and (0.5, 0.5) on the unit
    square gives cell 0. *)
#[local] Set Warnings "-inexact-float".

Lemma intersect_first_containing_witness :
  (tol = 1e-9%float /\ neg_tol = (-1e-9)%float)
  /\ (intersect two_squares f1 fhalf None false false).1 = Ok (Cell 0)
  /\ (is_clockwise [f0; f0; f1; f1] [f0; f1; f1; f0] = true
      /\ (intersect clockwise_square f1 fhalf None false false).1
         = Ok (Cell 0))
  /\ (intersect unit_square fhalf fhalf None false false).1 = Ok (Cell 0).
Proof.
  split; [split; reflexivity|]. split; [|split; [split; [reflexivity|]|]].
  - assert (Hg : xyzvertices two_squares
                 = (Ok ([[f0; f1; f1; f0]; [f1; f2; f2; f1]],
                        [[f0; f0; f1; f1]; [f0; f0; f1; f1]],
                        Some ([f1; f1], [f0; f0])),
                    (xyzvertices two_squares).2)) by reflexivity.
    assert (Hn : intersect_ncpl two_squares = Ok 2) by reflexivity.
    destruct (proj1 intersect_first_containing float _ _ two_squares f1 fhalf
                false _ _ _ _ _ Hg Hn) as (_ & Hfirst & _).
    apply (Hfirst 0%nat); [lia| |intros; lia].
    exists [f0; f1; f1; f0], [f0; f0; f1; f1].
    split; [reflexivity|]. split; [reflexivity|]. split; [|reflexivity].
    repeat split; apply existsb_Exists; reflexivity.
  - assert (Hg : xyzvertices clockwise_square
                 = (Ok ([[f0; f0; f1; f1]], [[f0; f1; f1; f0]], None),
                    (xyzvertices clockwise_square).2)) by reflexivity.
    assert (Hn : intersect_ncpl clockwise_square = Ok 1) by reflexivity.
    destruct (proj1 intersect_first_containing float _ _ clockwise_square
                f1 fhalf false _ _ _ _ _ Hg Hn) as (_ & Hfirst & _).
    apply (Hfirst 0%nat); [lia| |intros; lia].
    exists [f0; f0; f1; f1], [f0; f1; f1; f0].
    split; [reflexivity|]. split; [reflexivity|]. split; [|reflexivity].
    repeat split; apply existsb_Exists; reflexivity.
  - apply (proj2 intersect_first_containing float_Services). reflexivity.
Defined.

(** C3 (as stated, fails).  On the grid of [UnstructuredGrid()], which has no
    cell, [intersect(5, 5, forgive=True)] raises TypeError instead of
    returning nan.  On the unit square, whose cell does not contain (5, 5),
    the call returns nan and fills the geometry cache of the grid, which was
    empty: the object is not as it was. *)
Lemma intersect_outside_counterexample :
  (intersect empty_grid f5 f5 None false true).1 = Raise TypeError
  /\ cell_test f5 f5 [f0; f1; f1; f0] [f0; f0; f1; f1] = false
  /\ (intersect unit_square f5 f5 None false true).1 = Ok NaN
  /\ (intersect unit_square f5 f5 None false true).2 <> unit_square.
Proof.
  split; [reflexivity|]. split; [reflexivity|]. split; [reflexivity|].
  intros Heq.
  apply (f_equal (fun g => is_not_None (_cache_dict g !! "xyzgrid"))) in Heq.
  vm_compute in Heq. discriminate.
Qed.

(** C3 (as amended), on the unit square and the point (5, 5). *)
Lemma intersect_outside_witness :
  intersect unit_square f5 f5 None false true
  = (Ok NaN, (xyzvertices unit_square).2)
  /\ intersect unit_square f5 f5 None false false
     = (Raise (PyException outside_msg), (xyzvertices unit_square).2).
Proof.
  assert (Hg : xyzvertices unit_square
               = (Ok ([[f0; f1; f1; f0]], [[f0; f0; f1; f1]], None),
                  (xyzvertices unit_square).2)) by reflexivity.
  assert (Hn : intersect_ncpl unit_square = Ok 1) by reflexivity.
  assert (Hno : forall i : nat,
             Z.of_nat i < 1 ->
             ~ cell_holds [[f0; f1; f1; f0]] [[f0; f0; f1; f1]]
                 (query_point unit_square f5 f5 false).1
                 (query_point unit_square f5 f5 false).2 i).
  { intros [|i] Hi; [|lia].
    intros (xa & ya & [= <-] & [= <-] & Hc). vm_compute in Hc. discriminate. }
  split.
  - apply (intersect_outside unit_square f5 f5 None false true _ _ _ _ 1
             Hg Hn); [unfold len; simpl; lia|reflexivity|exact Hno].
  - apply (intersect_outside unit_square f5 f5 None false false _ _ _ _ 1
             Hg Hn); [unfold len; simpl; lia|reflexivity|exact Hno].
Defined.

(** ** Vertex clean-up *)

Lemma two_squares_distinct :
  distinct_coords (square_vertices ++ [(4, f2, f0); (5, f2, f1)])%list.
Proof.
  intros i j v w Hne Hi Hj.
  destruct i as [|[|[|[|[|[|i]]]]]]; destruct j as [|[|[|[|[|[|j]]]]]];
    cbn in Hi, Hj; try discriminate; try done;
    injection Hi as <-; injection Hj as <-; reflexivity.
Qed.

Lemma square_distinct : distinct_coords square_vertices.
Proof.
  intros i j v w Hne Hi Hj.
  destruct i as [|[|[|[|i]]]]; destruct j as [|[|[|[|j]]]];
    cbn in Hi, Hj; try discriminate; try done;
    injection Hi as <-; injection Hj as <-; reflexivity.
Qed.

Lemma relabelled_distinct : distinct_coords relabelled_vertices.
Proof.
  intros i j v w Hne Hi Hj.
  destruct i as [|[|[|[|i]]]]; destruct j as [|[|[|[|j]]]];
    cbn in Hi, Hj; try discriminate; try done;
    injection Hi as <-; injection Hj as <-; reflexivity.
Qed.

(** C7 (as stated, fails).  Two valid grids with pairwise distinct vertex
    coordinates on which [clean_iverts(inplace=False)] returns no grid.  On
    the unit square after [set_ncpl([3])] the constructor it calls fails its
    assertion on the length of [iverts] (one cell vertex list, three cells
    in the layer).  On the square whose cell names vertex 9, which the
    constructor accepts, the renumbering looks the id up and raises
    KeyError. *)
Lemma clean_iverts_same_geometry_counterexample :
  (set_ncpl unit_square (NcplArray 1 [3]) = Ok resized_square
   /\ is_valid resized_square = true
   /\ _vertices resized_square = Some square_vertices
   /\ distinct_coords square_vertices
   /\ clean_iverts resized_square false
      = (Raise AssertionError, resized_square))
  /\ (__init__ dangling_args = Ok dangling_square
      /\ is_valid dangling_square = true
      /\ _vertices dangling_square = Some square_vertices
      /\ clean_iverts dangling_square false
         = (Raise KeyError, dangling_square)).
Proof.
  split.
  - split; [reflexivity|]. split; [reflexivity|]. split; [reflexivity|].
    split; [exact square_distinct|reflexivity].
  - repeat split; reflexivity.
Qed.

(** C7 (as amended), on the unit square whose vertices are numbered 10, 20,
    30, 40: the new grid numbers them 0, 1, 2, 3 and its cell resolves to
    the same coordinates; and on the two squares that share an edge. *)
Lemma clean_iverts_same_geometry_witness :
  (exists g',
      clean_iverts relabelled_square false = (Ok (Some g'), relabelled_square)
      /\ _vertices g' = Some square_vertices
      /\ _iverts g' = Some [[Some 0; Some 1; Some 2; Some 3]]
      /\ cell_coords g' = cell_coords relabelled_square
      /\ _xc g' = _xc relabelled_square /\ _yc g' = _yc relabelled_square
      /\ ncpl g' = ncpl relabelled_square)
  /\ (exists g',
        clean_iverts two_squares false = (Ok (Some g'), two_squares)
        /\ cell_coords g' = cell_coords two_squares
        /\ _xc g' = _xc two_squares /\ _yc g' = _yc two_squares
        /\ ncpl g' = ncpl two_squares).
Proof.
  split.
  - destruct (clean_iverts_same_geometry relabelled_square
                relabelled_vertices [([f0; f1; f1; f0], [f0; f0; f1; f1])])
      as (g' & Hclean & Hcells & Hvs & Hxc & Hyc & _ & _ & Hncpl & _).
    + reflexivity.
    + reflexivity.
    + exact relabelled_distinct.
    + reflexivity.
    + eexists. split; reflexivity.
    + exists g'. split; [done|]. split; [exact Hvs|].
      split; [|split; [by rewrite Hcells|done]].
      assert (Hg' : Ok (Some g')
                    = (clean_iverts relabelled_square false).1)
        by (by rewrite Hclean).
      vm_compute in Hg'. by injection Hg' as ->.
  - destruct (clean_iverts_same_geometry two_squares
                (square_vertices ++ [(4, f2, f0); (5, f2, f1)])%list
                [([f0; f1; f1; f0], [f0; f0; f1; f1]);
                 ([f1; f2; f2; f1], [f0; f0; f1; f1])])
      as (g' & Hclean & Hcells & _ & Hxc & Hyc & _ & _ & Hncpl & _).
    + reflexivity.
    + reflexivity.
    + exact two_squares_distinct.
    + reflexivity.
    + eexists. split; reflexivity.
    + exists g'. split; [done|]. split; [by rewrite Hcells|done].
Defined.

(** * Further properties of the code *)

Section CacheFacts.
Context {R : Type} `{Num R} `{Services R}.

Implicit Types g : UnstructuredGrid R.

(** *** The geometry cache *)

Lemma build_fresh g g1 :
  _build_grid_geometry_info g = Ok g1 ->
  exists d,
    _cache_dict g1 !! "xyzgrid" = Some {| data := d; out_of_date := false |}.
Proof.
  unfold _build_grid_geometry_info. intros Hb.
  destruct (not_None (_vertices g)); [|discriminate]. cbn [bind] in Hb.
  destruct (not_None (iverts g)); [|discriminate]. cbn [bind] in Hb.
  destruct (mapR _ _); [|discriminate]. cbn [bind] in Hb.
  destruct (_zcoords g) as [zvertices zcenters].
  match type of Hb with
  | bind ?m _ = _ => destruct m as [[[xc yc] cells]|]
  end; [|discriminate].
  cbn [bind] in Hb. injection Hb as <-. cbn [_cache_dict set__cache_dict].
  eexists. apply lookup_insert_eq.
Qed.

Lemma xyzvertices_reread g geom g' :
  xyzvertices g = (Ok geom, g') ->
  cache_stale g' "xyzgrid" = false /\ xyzvertices g' = (Ok geom, g').
Proof.
  intros Hx.
  assert (Hfresh : cache_stale g' "xyzgrid" = false).
  { unfold xyzvertices in Hx.
    destruct (cache_stale g "xyzgrid") eqn:Hs.
    - destruct (_build_grid_geometry_info g) as [g1|] eqn:Hb;
        [|discriminate].
      destruct (build_fresh g g1 Hb) as [d Hd].
      destruct (cache_read g1 "xyzgrid") as [[| ]|]; try discriminate.
      injection Hx as _ <-. unfold cache_stale. by rewrite Hd.
    - destruct (cache_read g "xyzgrid") as [[| ]|]; try discriminate.
      by injection Hx as _ <-. }
  split; [done|].
  unfold xyzvertices in *. rewrite Hfresh.
  destruct (cache_stale g "xyzgrid").
  - destruct (_build_grid_geometry_info g) as [g1|]; [|discriminate].
    destruct (cache_read g1 "xyzgrid") as [[| ]|] eqn:Hr; try discriminate.
    injection Hx as <- <-. by rewrite Hr.
  - destruct (cache_read g "xyzgrid") as [[| ]|] eqn:Hr; try discriminate.
    injection Hx as <- <-. by rewrite Hr.
Qed.

(** After a read of [xyzvertices] that succeeds the cache entry is up to
    date: the next read returns the same geometry and changes nothing. *)
Theorem xyzvertices_cached g geom g' :
  xyzvertices g = (Ok geom, g') ->
  cache_stale g' "xyzgrid" = false /\ xyzvertices g' = (Ok geom, g').
Proof. apply xyzvertices_reread. Qed.

Lemma build_centers g g1 :
  _build_grid_geometry_info g = Ok g1 ->
  _has_ref_coordinates g = false ->
  exists xv yv zv,
    _cache_dict g1 !! "xyzgrid"
    = Some {| data := XYZGrid xv yv zv; out_of_date := false |}
    /\ _cache_dict g1 !! "cellcenters"
       = Some {| data := CellCenters (_xc g) (_yc g) (_zcoords g).2;
                 out_of_date := false |}.
Proof.
  unfold _build_grid_geometry_info. intros Hb Href. rewrite Href in Hb.
  destruct (not_None (_vertices g)); [|discriminate]. cbn [bind] in Hb.
  destruct (not_None (iverts g)); [|discriminate]. cbn [bind] in Hb.
  destruct (mapR _ _); [|discriminate]. cbn [bind] in Hb.
  destruct (_zcoords g) as [zvertices zcenters].
  cbn [bind] in Hb. injection Hb as <-. cbn [_cache_dict set__cache_dict snd].
  eexists _, _, _. split; [apply lookup_insert_eq|].
  rewrite lookup_insert_ne by done. apply lookup_insert_eq.
Qed.

(** On a grid without offset and rotation whose cell centres are not cached,
    a read of [xyzcellcenters] that returns gives the stored [xc] and [yc]
    and the z centres of top and botm; the same build serves the vertex
    geometry, so both cache entries are up to date afterwards and a second
    read changes nothing. *)
Theorem cellcenters_unreferenced g cc g' :
  _has_ref_coordinates g = false ->
  cache_stale g "cellcenters" = true ->
  xyzcellcenters g = (Ok cc, g') ->
  cc = (_xc g, _yc g, (_zcoords g).2)
  /\ cache_stale g' "cellcenters" = false
  /\ cache_stale g' "xyzgrid" = false
  /\ xyzcellcenters g' = (Ok cc, g').
Proof.
  intros Href Hstale. unfold xyzcellcenters at 1. rewrite Hstale.
  destruct (_build_grid_geometry_info g) as [g1|] eqn:Hb; [|discriminate].
  destruct (build_centers g g1 Hb Href) as (xv & yv & zv & Hv & Hc).
  assert (Hr : cache_read g1 "cellcenters"
               = Some (CellCenters (_xc g) (_yc g) (_zcoords g).2)).
  { unfold cache_read, data_nocopy. rewrite Hc. by destruct (_copy_cache g1). }
  cbv beta iota zeta. rewrite Hr. intros [= <- <-].
  split; [done|]. unfold cache_stale. rewrite Hc, Hv.
  split; [done|]. split; [done|].
  unfold xyzcellcenters, cache_stale. rewrite Hc.
  cbv beta iota zeta delta [out_of_date]. by rewrite Hr.
Qed.

End CacheFacts.

Section IntersectFacts.
Context {R : Type} `{Num R} `{Services R}.

Implicit Types g : UnstructuredGrid R.

(** Whatever its arguments and its outcome, [intersect] changes nothing of
    the grid but the geometry cache, and nothing at all when the cache entry
    is up to date. *)
Theorem intersect_attrs g (x y : R) z local forgive :
  let g' := (intersect g x y z local forgive).2 in
  g' = set__cache_dict g (_cache_dict g')
  /\ (cache_stale g "xyzgrid" = false -> g' = g).
Proof.
  unfold intersect.
  destruct (if local then get_coords g x y else (x, y)) as [x' y'].
  destruct (xyzvertices g) as [r g1] eqn:Hx.
  destruct (xyzvertices_attrs g r g1 Hx) as [Hattrs Hsame].
  destruct r as [[[xv yv] zv]|e]; cbn [snd]; by split.
Qed.

(** Without z, a cell number that [intersect] returns is below the number of
    cells to scan, its cell passes the cell test, and no cell before it
    does. *)
Theorem intersect_returns_first g (x y : R) forgive xv yv zv g' i :
  xyzvertices g = (Ok (xv, yv, zv), g') ->
  (intersect g x y None false forgive).1 = Ok (Cell i) ->
  exists (m : nat) n,
    i = Z.of_nat m /\ intersect_ncpl g = Ok n /\ i < n
    /\ cell_passes xv yv x y m
    /\ forall j, (j < m)%nat -> ~ cell_passes xv yv x y j.
Proof. apply intersect_found. Qed.

Lemma intersect_layers_sound g gvbl zv (z : R) lays icell2d i :
  intersect_layers g gvbl zv z lays icell2d = Ok (Some i) ->
  exists top botm t b,
    zv = Some (top, botm)
    /\ py_index top i = Ok t /\ py_index botm i = Ok b
    /\ num_geb t z = true /\ num_geb z b = true.
Proof.
  revert icell2d. induction lays as [|lay lays IH]; intros icell2d;
    [discriminate|].
  cbn [intersect_layers].
  match goal with
  | |- bind ?m _ = _ -> _ => destruct m as [c|]
  end; [|discriminate].
  cbn [bind]. destruct zv as [[top botm]|]; [|discriminate].
  cbn [not_None bind fst snd].
  destruct (py_index top c) as [t|] eqn:Ht; [|discriminate]. cbn [bind].
  destruct (num_geb t z) eqn:Hgt; [|apply IH].
  destruct (py_index botm c) as [b|] eqn:Hb; [|discriminate]. cbn [bind].
  destruct (num_geb z b) eqn:Hgb; [|apply IH].
  intros [= <-]. by exists top, botm, t, b.
Qed.

Lemma intersect_cells_z_sound g gvbl xv yv zv (x y z : R) cells i :
  intersect_cells g gvbl xv yv zv x y (Some z) cells = Ok (Some i) ->
  exists top botm t b,
    zv = Some (top, botm)
    /\ py_index top i = Ok t /\ py_index botm i = Ok b
    /\ num_geb t z = true /\ num_geb z b = true.
Proof.
  induction cells as [|c cells IH]; [discriminate|].
  cbn [intersect_cells].
  destruct (py_index xv c); [|discriminate].
  destruct (py_index yv c); [|discriminate].
  cbn [bind]. destruct (cell_test _ _ _ _); [|apply IH].
  destruct (not_None (nlay g)); [|discriminate]. cbn [bind].
  destruct (intersect_layers _ _ _ _ _ _) as [[j|]|] eqn:Hl;
    cbn [bind]; [|apply IH|discriminate].
  intros [= <-]. by apply (intersect_layers_sound _ _ _ _ _ _ _ Hl).
Qed.

(** With z, a cell number that [intersect] returns names a cell whose top is
    at or above z and whose bottom is at or below z, in the elevation rows
    of the derived geometry. *)
Theorem intersect_z_within g (x y z : R) local forgive xv yv zv g' i :
  xyzvertices g = (Ok (xv, yv, zv), g') ->
  (intersect g x y (Some z) local forgive).1 = Ok (Cell i) ->
  exists top botm t b,
    zv = Some (top, botm)
    /\ py_index top i = Ok t /\ py_index botm i = Ok b
    /\ num_geb t z = true /\ num_geb z b = true.
Proof.
  intros Hg. unfold intersect.
  destruct (if local then get_coords g x y else (x, y)) as [x' y'].
  rewrite Hg. cbn [fst].
  destruct (grid_varies_by_layer g') as [gvbl|]; [|discriminate].
  cbn [bind]. destruct (intersect_ncpl g') as [n|]; [|discriminate].
  cbn [bind].
  destruct (intersect_cells _ _ _ _ _ _ _ _ _) as [[c|]|] eqn:Hc;
    cbn [bind]; [|by destruct forgive|discriminate].
  intros [= ->]. by apply (intersect_cells_z_sound _ _ _ _ _ _ _ _ _ _ Hc).
Qed.

End IntersectFacts.

Local Open Scope list_scope.

Section ObjectFacts.
Context {R : Type} `{Num R} `{Services R}.

Implicit Types g : UnstructuredGrid R.

(** *** neighbors *)

Lemma enumerate_snoc {A} (l : list A) (a : A) :
  enumerate (l ++ [a]) = (enumerate l ++ [(len l, a)])%list.
Proof. unfold enumerate. rewrite imap_app. cbn. by rewrite Nat.add_0_r. Qed.

Lemma iac_table_lookup (ja iac : list Z) (k : nat) ia :
  iac !! k = Some ia -> iac_table ja iac !! Z.of_nat k = Some (py_slice ja 1 ia).
Proof.
  revert k ia. induction iac as [|a iac IH] using rev_ind; intros k ia Hk.
  - by rewrite lookup_nil in Hk.
  - unfold iac_table in *. rewrite enumerate_snoc, foldl_app. cbn [foldl fst snd].
    destruct (decide (k = length iac)) as [->|Hne].
    + rewrite lookup_app_r, Nat.sub_diag in Hk by lia. injection Hk as ->.
      unfold len. by rewrite lookup_insert_eq.
    + assert (k < length iac)%nat.
      { apply lookup_lt_Some in Hk. rewrite length_app in Hk. cbn in Hk. lia. }
      rewrite lookup_app_l in Hk by done.
      rewrite lookup_insert_ne by (unfold len; lia). by apply IH.
Qed.

Lemma iac_table_dom (ja : list Z) (items : list (Z * Z))
    (d : gmap Z (list Z)) (n : Z) :
  n ∉ items.*1 ->
  foldl (fun d it => <[it.1 := py_slice ja (0 + 1) (0 + it.2)]> d) d items
    !! n = d !! n.
Proof.
  revert d. induction items as [|[i ia] items IH]; intros d Hn; [done|].
  cbn [foldl fst snd]. rewrite IH.
  - apply lookup_insert_ne. intros ->. apply Hn. cbn. apply list_elem_of_here.
  - intros Hin. apply Hn. cbn. by apply list_elem_of_further.
Qed.

Lemma enumerate_keys {A} (l : list A) :
  (enumerate l).*1 = Z.of_nat <$> seq 0 (length l).
Proof.
  induction l as [|a l IH] using rev_ind; [done|].
  rewrite enumerate_snoc, fmap_app, IH, length_app. cbn [length fmap list_fmap].
  rewrite Nat.add_1_r, seq_S, fmap_app. reflexivity.
Qed.

Lemma iac_table_lookup_None (ja iac : list Z) (n : Z) :
  ~ (0 <= n < len iac) -> iac_table ja iac !! n = None.
Proof.
  intros Hn. unfold iac_table. rewrite iac_table_dom; [done|].
  rewrite enumerate_keys. intros Hin.
  apply list_elem_of_fmap in Hin as (k & -> & Hk).
  apply elem_of_seq in Hk. unfold len in Hn. lia.
Qed.

Lemma loop_node_last {A} (l : list A) a (node : option Z) :
  foldl (fun _ (it : Z * A) => Some it.1) node (enumerate (l ++ [a]))
  = Some (len l).
Proof. by rewrite enumerate_snoc, foldl_app. Qed.

Lemma neighbors_iac_build_eq
    (Grid_neighbors :
       UnstructuredGrid R -> option Z -> option string -> bool ->
       result neighbors_ret * UnstructuredGrid R)
    g node reset iac ia_last ja :
  _iac g = Some (iac ++ [ia_last]) -> _ja g = Some ja ->
  _neighbors g = None \/ reset = true ->
  neighbors Grid_neighbors g node (Some "iac") reset
  = (Ok (NbList (py_slice ja 1 ia_last)),
     set__neighbors g (Some (iac_table ja (iac ++ [ia_last])))).
Proof.
  intros Hiac Hja Hbuild.
  unfold neighbors. rewrite bool_decide_eq_true_2 by done.
  assert (Hc : negb (is_not_None (_neighbors g)) || reset = true).
  { destruct Hbuild as [->| ->]; [done|]. by rewrite orb_true_r. }
  rewrite Hc, Hiac, Hja. cbn [not_None bind].
  rewrite neighbors_iac_loop_spec. cbn [bind fst snd].
  rewrite loop_node_last. cbn [_neighbors set__neighbors not_None bind].
  fold (iac_table ja (iac ++ [ia_last])).
  unfold dict_get, len.
  rewrite (iac_table_lookup ja (iac ++ [ia_last]) (length iac) ia_last);
    [reflexivity|].
  by rewrite lookup_app_r, Nat.sub_diag by lia.
Qed.

(** When the "iac" table is built (no table yet, or [reset]) on a grid with
    a non-empty [iac], the call returns the entry of the last node whatever
    node was asked for, and the table stored maps every node [k] to
    [ja[1 : iac[k]]]. *)
Theorem neighbors_iac_rebuild
    (Grid_neighbors :
       UnstructuredGrid R -> option Z -> option string -> bool ->
       result neighbors_ret * UnstructuredGrid R)
    g node reset iac ia_last ja :
  _iac g = Some (iac ++ [ia_last]) -> _ja g = Some ja ->
  _neighbors g = None \/ reset = true ->
  neighbors Grid_neighbors g node (Some "iac") reset
  = (Ok (NbList (py_slice ja 1 ia_last)),
     set__neighbors g (Some (iac_table ja (iac ++ [ia_last]))))
  /\ forall (k : nat) ia,
       (iac ++ [ia_last]) !! k = Some ia ->
       iac_table ja (iac ++ [ia_last]) !! Z.of_nat k = Some (py_slice ja 1 ia).
Proof.
  intros Hiac Hja Hbuild.
  split; [by apply neighbors_iac_build_eq|apply iac_table_lookup].
Qed.

(** Once the "iac" table is stored, a call without [reset] reads it and
    leaves the grid as it is: a node gets its own entry, [ja[1 : iac[k]]],
    no node gets the whole table, and a node the table does not hold raises
    KeyError. So on a fresh grid the first call answers for the last node
    and only the calls after it answer for the node asked for. *)
Theorem neighbors_iac_second_call
    (Grid_neighbors :
       UnstructuredGrid R -> option Z -> option string -> bool ->
       result neighbors_ret * UnstructuredGrid R)
    g node reset iac ia_last ja :
  _iac g = Some (iac ++ [ia_last]) -> _ja g = Some ja ->
  _neighbors g = None \/ reset = true ->
  let g1 := (neighbors Grid_neighbors g node (Some "iac") reset).2 in
  (forall (k : nat) ia,
      (iac ++ [ia_last]) !! k = Some ia ->
      neighbors Grid_neighbors g1 (Some (Z.of_nat k)) (Some "iac") false
      = (Ok (NbList (py_slice ja 1 ia)), g1))
  /\ neighbors Grid_neighbors g1 None (Some "iac") false
     = (Ok (NbDict (iac_table ja (iac ++ [ia_last]))), g1)
  /\ (forall n,
        ~ (0 <= n < len (iac ++ [ia_last])) ->
        neighbors Grid_neighbors g1 (Some n) (Some "iac") false
        = (Raise KeyError, g1)).
Proof.
  intros Hiac Hja Hbuild g1. subst g1.
  rewrite (neighbors_iac_build_eq Grid_neighbors g node reset iac ia_last ja
             Hiac Hja Hbuild).
  cbn [snd]. unfold neighbors. rewrite bool_decide_eq_true_2 by done.
  cbn [_neighbors set__neighbors is_not_None negb orb not_None bind].
  split; [|split; [reflexivity|]].
  - intros k ia Hk. unfold dict_get.
    by rewrite (iac_table_lookup ja _ k ia Hk).
  - intros n Hn. unfold dict_get.
    by rewrite (iac_table_lookup_None ja _ n Hn).
Qed.

(** *** convert_grid *)

(** The grid [convert_grid] returns has one layer, [ncpl = [len(iverts)]],
    whatever [ncpl] was, and no connectivity, whatever [iac] and [ja] were:
    the constructor is called without them.  The grid is complete, idomain
    included, and its centers are ndarrays. *)
Theorem convert_grid_single_layer g (factor : R) vs ivs xc yc top botm
    idomain :
  _vertices g = Some vs -> _iverts g = Some ivs ->
  _xc g = Some xc -> _yc g = Some yc ->
  _xc_kind g = NdArray -> _yc_kind g = NdArray ->
  _top g = Some top -> _botm g = Some botm ->
  _idomain g = Some idomain ->
  exists g',
    convert_grid g factor = Ok g'
    /\ ncpl g' = Some [len ivs]
    /\ _iac g' = None /\ _ja g' = None.
Proof.
  intros Hvs Hivs Hxc Hyc Hkx Hky Ht Hb _.
  eexists. split; [by apply (convert_grid_ndarray g factor vs ivs xc yc
                               top botm)|].
  repeat split.
Qed.

(** With a center attribute that is a Python list, [convert_grid] with a
    float factor does not return: [self._xc * factor] raises TypeError (a
    list is not multiplied by a float).  The grid is complete, idomain
    included. *)
Theorem convert_grid_list_centers g (factor : R) idomain :
  is_complete g = true -> _idomain g = Some idomain ->
  _xc_kind g = PyList \/ _yc_kind g = PyList ->
  num_int factor = None ->
  convert_grid g factor = Raise TypeError.
Proof.
  intros Hc _ Hkind Hf. unfold convert_grid. rewrite Hc.
  destruct (_vertices g); [|reflexivity]. cbn [not_None bind].
  destruct (_xc g); [|reflexivity]. cbn [not_None bind].
  unfold mul_seq. rewrite Hf.
  destruct (_xc_kind g); [reflexivity|]. cbn [bind].
  destruct (_yc g); [|reflexivity]. cbn [not_None bind].
  destruct Hkind as [?| ->]; [discriminate|reflexivity].
Qed.

(** *** __init__ and set_ncpl *)

Lemma set_ncpl_keeps g v g' :
  set_ncpl g v = Ok g' ->
  _iverts g' = _iverts g /\ is_valid g' = is_valid g
  /\ exists l, ncpl g' = Some l
              /\ g' = _require_cache_updates (set__ncpl g (Some l)).
Proof.
  unfold set_ncpl. destruct v as [n|ndim a|]; cbn; try discriminate.
  - intros [= <-]. repeat split. by eexists.
  - destruct (ndim =? 1)%nat; [|discriminate].
    intros [= <-]. repeat split. by eexists.
Qed.

(** A valid grid that the constructor returns satisfies the assertion on the
    length of [iverts]: [ncpl] is set and not empty, and either every layer
    has [len(iverts)] cells or the layers add up to [len(iverts)]. *)
Theorem init_shape_ok (a : init_args R) g :
  __init__ a = Ok g -> is_valid g = true ->
  shape_ok g
  /\ exists l ivs,
      ncpl g = Some l /\ _iverts g = Some ivs /\ l <> []
      /\ (Forall (fun cpl => cpl = len ivs) l \/ np_sum l = len ivs).
Proof.
  unfold __init__. intros Hi Hv.
  match type of Hi with
  | bind ?m _ = _ => destruct m as [g1|] eqn:Hset
  end; [|discriminate].
  cbn [bind] in Hi.
  assert (Hkeep : _iverts g1 = _iverts (init_attrs a)).
  { destruct (a_ncpl a) as [n|].
    - by apply set_ncpl_keeps in Hset as [? _].
    - destruct (is_valid (init_attrs a)); [|by injection Hset as <-].
      destruct (not_None (_iverts (init_attrs a))); [|discriminate].
      cbn [bind] in Hset. by apply set_ncpl_keeps in Hset as [? _]. }
  rewrite <- Hkeep in Hi.
  destruct (_iverts g1) as [ivs|] eqn:Hivs; cbn [bind] in Hi.
  - destruct (check_iverts_length g1 ivs) as [[]|] eqn:Hc; [|discriminate].
    cbn [bind] in Hi. injection Hi as <-.
    split; [by exists ivs|].
    unfold check_iverts_length, grid_varies_by_layer, ncpl_at in Hc.
    rewrite Hv, Hivs in Hc. destruct (ncpl g1) as [l|] eqn:Hl; [|discriminate].
    cbn [not_None bind] in Hc.
    destruct (py_index l 0) as [n0|] eqn:Hn0; [|discriminate].
    cbn [bind] in Hc.
    exists l, ivs. split; [done|]. split; [done|]. split.
    { intros ->. discriminate. }
    destruct (n0 =? len ivs); cbn [bind] in Hc.
    + left. destruct (forallb _ l) eqn:Hall; [|discriminate].
      apply Forall_forall. intros cpl Hin.
      rewrite forallb_forall in Hall.
      apply Z.eqb_eq, Hall. by apply list_elem_of_In.
    + right. unfold nnodes in Hc. rewrite Hl in Hc.
      case_bool_decide as Hd; [|discriminate]. by injection Hd as ->.
  - injection Hi as <-. apply is_valid_true in Hv as (? & ? & ? & ? & ? & _).
    congruence.
Qed.

Lemma build_cache_read g c :
  match _build_grid_geometry_info g,
        _build_grid_geometry_info (set__cache_dict g c) with
  | Ok g1, Ok g2 => cache_read g1 "xyzgrid" = cache_read g2 "xyzgrid"
  | Raise e1, Raise e2 => e1 = e2
  | _, _ => False
  end.
Proof.
  unfold _build_grid_geometry_info, iverts, _zcoords, _has_ref_coordinates,
    get_coords_arrays, get_coords_array, get_coords.
  cbn [set__cache_dict _vertices _iverts _xc _yc _top _botm _xoff _yoff
       _angrot _cache_dict].
  destruct (not_None (_vertices g)); [|done]. cbn [bind].
  destruct (not_None _); [|done]. cbn [bind].
  destruct (mapR _ _); [|done]. cbn [bind].
  destruct (match _top g with Some _ => _ | None => _ end).
  match goal with
  | |- match bind ?m _ with _ => _ end => destruct m as [[[? ?] ?]|]
  end; [|done].
  cbn [bind]. unfold cache_read.
  cbn [_copy_cache _cache_dict set__cache_dict].
  by rewrite !lookup_insert_eq.
Qed.

(** [set_ncpl] tags every cache entry out of date, so the next read of
    [xyzvertices] derives the geometry anew: it returns what it would return
    on the same grid with an empty cache. *)
Theorem set_ncpl_invalidates g v g' :
  set_ncpl g v = Ok g' ->
  (forall cache_index, cache_stale g' cache_index = true)
  /\ (xyzvertices g').1 = (xyzvertices (set__cache_dict g' ∅)).1.
Proof.
  intros Hs. apply set_ncpl_keeps in Hs as (_ & _ & l & _ & ->).
  assert (Hstale : forall cache_index,
             cache_stale (_require_cache_updates (set__ncpl g (Some l)))
               cache_index = true).
  { intros idx. unfold cache_stale, _require_cache_updates.
    cbn [_cache_dict set__cache_dict]. rewrite lookup_fmap.
    by destruct (_ !! idx). }
  split; [done|].
  set (g1 := _require_cache_updates (set__ncpl g (Some l))) in *.
  unfold xyzvertices. rewrite Hstale.
  replace (cache_stale (set__cache_dict g1 ∅) "xyzgrid") with true
    by (unfold cache_stale; cbn; by rewrite lookup_empty).
  pose proof (build_cache_read g1 ∅) as Hb.
  destruct (_build_grid_geometry_info g1) as [g2|e2],
    (_build_grid_geometry_info (set__cache_dict g1 ∅)) as [g3|e3];
    try done.
  - rewrite Hb. by destruct (cache_read g3 "xyzgrid") as [[| ]|].
  - by subst.
Qed.

(** *** clean_iverts in place *)

Lemma clean_tables_distinct g vs cells :
  _vertices g = Some vs -> distinct_coords vs ->
  cell_coords g = Ok cells ->
  exists ivs',
    clean_tables g
    = Ok (renumber vs, (fun t : list Z => Some <$> t) <$> ivs')
    /\ mapR (cell_xy (vertexdict_of (renumber vs))) ivs' = Ok cells.
Proof.
  intros Hvs Hd Hcells. unfold cell_coords in Hcells.
  rewrite Hvs in Hcells. cbn [not_None bind] in Hcells.
  destruct (iverts g) as [ivs|] eqn:Hivs; [|discriminate].
  cbn [not_None bind] in Hcells.
  destruct (clean_step_distinct vs) as (remap & Hfold & Hremap).
  destruct (remap_cells vs remap _ cells Hremap Hcells)
    as (ivs' & Hivs' & Hres & _).
  exists ivs'. split; [|done].
  unfold clean_tables. rewrite Hvs. cbn [not_None bind].
  rewrite (clean_vset_distinct vs Hd), Hfold, Hivs. cbn [not_None bind].
  by rewrite Hivs'.
Qed.

(** On a valid grid whose vertices have pairwise distinct (x, y) and whose
    cell vertex ids resolve, [clean_iverts(inplace=True)] returns [None] and
    rewrites the grid itself: the vertices are renumbered by position, every
    cell resolves to the same coordinates as before, every cache entry is
    out of date, and the other attributes are kept. *)
Theorem clean_iverts_inplace_distinct g vs cells :
  is_valid g = true -> _vertices g = Some vs -> distinct_coords vs ->
  cell_coords g = Ok cells ->
  exists g1,
    clean_iverts g true = (Ok None, g1)
    /\ _vertices g1 = Some (renumber vs)
    /\ cell_coords g1 = Ok cells
    /\ (forall cache_index, cache_stale g1 cache_index = true)
    /\ _xc g1 = _xc g /\ _yc g1 = _yc g /\ _top g1 = _top g
    /\ _botm g1 = _botm g /\ ncpl g1 = ncpl g
    /\ _iac g1 = _iac g /\ _ja g1 = _ja g.
Proof.
  intros Hv Hvs Hd Hcells.
  destruct (clean_tables_distinct g vs cells Hvs Hd Hcells)
    as (ivs' & Htables & Hres).
  unfold clean_iverts. rewrite Hv, Htables.
  eexists. split; [reflexivity|]. split; [reflexivity|]. split.
  { unfold cell_coords, iverts.
    cbn [_vertices _iverts _require_cache_updates set__cache_dict
         set__vertices_iverts not_None bind].
    rewrite <- list_fmap_compose.
    replace (_ <$> ivs') with ivs'; [done|].
    rewrite <- (list_fmap_id ivs') at 1.
    apply list_fmap_ext. intros ? t _. cbn. by rewrite omap_Some. }
  split; [|repeat split].
  intros idx. unfold cache_stale, _require_cache_updates.
  cbn [_cache_dict set__cache_dict]. rewrite lookup_fmap.
  by destruct (_ !! idx).
Qed.

End ObjectFacts.

(** ** Layers *)

Lemma np_sum_app (a b : list Z) : np_sum (a ++ b) = np_sum a + np_sum b.
Proof.
  unfold np_sum. induction a as [|n a IH]; cbn [app foldr]; [done|].
  rewrite IH. lia.
Qed.

Lemma np_sum_nonneg (a : list Z) :
  Forall (fun c => 0 <= c) a -> 0 <= np_sum a.
Proof. unfold np_sum. induction 1; cbn [foldr]; lia. Qed.

Lemma np_sum_take_S (a : list Z) (k : nat) n :
  a !! k = Some n -> np_sum (take (S k) a) = np_sum (take k a) + n.
Proof.
  intros Hk. rewrite (take_S_r _ _ _ Hk), np_sum_app. cbn. lia.
Qed.

Lemma np_sum_take_le (a : list Z) (k : nat) :
  Forall (fun c => 0 <= c) a ->
  0 <= np_sum (take k a) /\ np_sum (take k a) <= np_sum a.
Proof.
  intros Ha. rewrite <- (take_drop k a) at 3. rewrite np_sum_app.
  pose proof (np_sum_nonneg (take k a)) as H1.
  pose proof (np_sum_nonneg (drop k a)) as H2.
  rewrite <- (take_drop k a) in Ha. apply Forall_app in Ha as [Ht Hd].
  specialize (H1 Ht). specialize (H2 Hd). lia.
Qed.

Lemma accumulate_from_lookup (a : list Z) (acc : Z) (k : nat) :
  (k < length a)%nat ->
  accumulate_from acc a !! k = Some (acc + np_sum (take (S k) a)).
Proof.
  revert acc k. induction a as [|n a IH]; intros acc k Hk; [cbn in Hk; lia|].
  destruct k as [|k]; cbn [accumulate_from].
  - unfold np_sum. simpl. f_equal. lia.
  - cbn [lookup list_lookup]. rewrite IH by (cbn in Hk; lia).
    unfold np_sum. simpl. f_equal. lia.
Qed.

Lemma node_layer_range_lookup (a : list Z) (k : nat) :
  (k <= length a)%nat ->
  (0 :: np_add_accumulate a) !! k = Some (np_sum (take k a)).
Proof.
  intros Hk. destruct k as [|k]; [reflexivity|].
  cbn [lookup list_lookup]. unfold np_add_accumulate.
  by rewrite accumulate_from_lookup by lia.
Qed.

Lemma py_slice_inside {A} (l : list A) (a b : Z) :
  0 <= a <= b -> b <= len l ->
  py_slice l a b = take (Z.to_nat (b - a)) (drop (Z.to_nat a) l).
Proof.
  intros Hab Hb. unfold py_slice, py_slice_bound, len in *.
  replace (a <? 0) with false by (symmetry; apply Z.ltb_ge; lia).
  replace (b <? 0) with false by (symmetry; apply Z.ltb_ge; lia).
  repeat f_equal; lia.
Qed.

Section LayerFacts.
Context {R : Type} `{Num R} `{Services R}.

Implicit Types g : UnstructuredGrid R.

Lemma layer_range_eq g (a : list Z) (k : nat) n :
  ncpl g = Some a -> a !! k = Some n ->
  get_layer_node_range g (Z.of_nat k)
  = Ok (layer_start a k, layer_start a k + n).
Proof.
  intros Ha Hk. pose proof (lookup_lt_Some _ _ _ Hk) as Hlt.
  unfold get_layer_node_range. rewrite Ha.
  rewrite (py_index_nat _ k _ (node_layer_range_lookup a k ltac:(lia))).
  cbn [bind]. replace (Z.of_nat k + 1) with (Z.of_nat (S k)) by lia.
  rewrite (py_index_nat _ (S k) _ (node_layer_range_lookup a (S k) ltac:(lia))).
  cbn [bind]. unfold layer_start. by rewrite (np_sum_take_S a k n Hk).
Qed.

(** The node ranges of the layers partition the nodes: layer [k] runs from
    the number of cells of the layers before it over [ncpl[k]] nodes; the
    first layer starts at node 0, every layer starts where the one before
    stops, and the last layer stops at [nnodes]. *)
Theorem layer_node_ranges g (a : list Z) (k : nat) n :
  ncpl g = Some a -> a !! k = Some n ->
  get_layer_node_range g (Z.of_nat k)
  = Ok (layer_start a k, layer_start a k + n)
  /\ layer_start a 0 = 0
  /\ layer_start a (S k) = layer_start a k + n
  /\ (S k = length a -> nnodes g = Some (layer_start a k + n)).
Proof.
  intros Ha Hk. split; [by apply layer_range_eq|]. split; [reflexivity|].
  split; [by apply np_sum_take_S|].
  intros Hlast. unfold nnodes. rewrite Ha. f_equal.
  unfold layer_start. rewrite <- (np_sum_take_S a k n Hk), Hlast.
  by rewrite firstn_all.
Qed.

Lemma nodeskip_loop_lookup (a : list Z) (s : Z) (keys : list Z)
    (k : nat) n :
  a !! k = Some n ->
  nodeskip_loop a s s keys !! k
  = Some (filter (fun nn => ¬ (s + np_sum (take k a) <= nn
                               < s + np_sum (take k a) + n)) keys).
Proof.
  revert s k. induction a as [|c a IH]; intros s k Hk; [done|].
  destruct k as [|k]; cbn [nodeskip_loop lookup list_lookup].
  - injection Hk as ->.
    replace (np_sum (take 0 (n :: a))) with 0 by reflexivity.
    by replace (s + 0) with s by lia.
  - cbn in Hk. etrans; [exact (IH (s + c) k Hk)|].
    replace (np_sum (take (S k) (c :: a))) with (c + np_sum (take k a))
      by reflexivity.
    by replace (s + c + np_sum (take k a))
      with (s + (c + np_sum (take k a))) by lia.
Qed.

Lemma nodeskip_loop_length (a : list Z) (s e : Z) (keys : list Z) :
  length (nodeskip_loop a s e keys) = length a.
Proof.
  revert s e. induction a as [|c a IH]; intros s e; [done|].
  cbn. by rewrite IH.
Qed.

(** [cross_section_nodeskip] returns one list per layer; the list of layer
    [k] holds, in the order of [xypts], the nodes of [xypts] that lie outside
    the node range of that layer, the range [get_layer_node_range] gives. *)
Theorem nodeskip_outside_layer {V} g (nlay_arg : Z) (xypts : list (Z * V))
    (a : list Z) :
  ncpl g = Some a ->
  exists nodeskip,
    cross_section_nodeskip g nlay_arg xypts = Ok nodeskip
    /\ length nodeskip = length a
    /\ forall (k : nat) n,
         a !! k = Some n ->
         get_layer_node_range g (Z.of_nat k)
         = Ok (layer_start a k, layer_start a k + n)
         /\ nodeskip !! k
            = Some (filter (fun nn => ¬ (layer_start a k <= nn
                                         < layer_start a k + n))
                           (fst <$> xypts)).
Proof.
  intros Ha. unfold cross_section_nodeskip. rewrite Ha. cbn [not_None bind].
  eexists. split; [reflexivity|]. split; [apply nodeskip_loop_length|].
  intros k n Hk. split; [by apply layer_range_eq|].
  rewrite (nodeskip_loop_lookup a 0 _ k n Hk). unfold layer_start.
  by rewrite Z.add_0_l.
Qed.

Lemma layer_bounds (a : list Z) (k : nat) n :
  Forall (fun c => 0 <= c) a -> a !! k = Some n ->
  0 <= n /\ 0 <= layer_start a k /\ layer_start a k + n <= np_sum a.
Proof.
  intros Hpos Hk. split.
  { rewrite Forall_forall in Hpos. apply Hpos. by eapply list_elem_of_lookup_2. }
  destruct (np_sum_take_le a k Hpos) as [Hs0 _].
  destruct (np_sum_take_le a (S k) Hpos) as [_ Hs1].
  rewrite (np_sum_take_S a k n Hk) in Hs1. by split.
Qed.

Lemma layer_slice {V} (l : list V) (a : list Z) (k : nat) n :
  Forall (fun c => 0 <= c) a -> a !! k = Some n -> len l = np_sum a ->
  py_slice l (layer_start a k) (layer_start a k + n)
  = take (Z.to_nat n) (drop (Z.to_nat (layer_start a k)) l)
  /\ len (take (Z.to_nat n) (drop (Z.to_nat (layer_start a k)) l)) = n.
Proof.
  intros Hpos Hk Hlen. destruct (layer_bounds a k n Hpos Hk) as (Hn & Hs0 & Hs1).
  split.
  - rewrite py_slice_inside by lia.
    by replace (layer_start a k + n - layer_start a k) with n by lia.
  - unfold len in *. rewrite length_take, length_drop. lia.
Qed.

Lemma plottable_layer_eq {V} g (arr : list V) (a : list Z) (k : nat) n :
  ncpl g = Some a -> Forall (fun c => 0 <= c) a -> a !! k = Some n ->
  len arr = np_sum a ->
  get_plottable_layer_array g arr (Z.of_nat k)
  = Ok (take (Z.to_nat n) (drop (Z.to_nat (layer_start a k)) arr)).
Proof.
  intros Ha Hpos Hk Hlen.
  destruct (layer_bounds a k n Hpos Hk) as (Hn & Hs0 & Hs1).
  destruct (layer_slice arr a k n Hpos Hk Hlen) as [Hsl Hl].
  unfold get_plottable_layer_array, ncpl_at. rewrite Ha.
  cbn [not_None bind]. rewrite (py_index_nat _ _ _ Hk). cbn [bind].
  destruct (Z.eqb_spec (len arr) n) as [E|E]; cbn [bind].
  - assert (layer_start a k = 0) by lia.
    replace (take (Z.to_nat n) (drop (Z.to_nat (layer_start a k)) arr))
      with arr.
    + by rewrite E, Z.eqb_refl.
    + replace (layer_start a k) with 0 by done. cbn [Z.to_nat drop].
      symmetry. apply take_ge. unfold len in E. lia.
  - unfold nnodes. rewrite Ha. cbn [not_None bind].
    rewrite Hlen, Z.eqb_refl. cbn [bind].
    rewrite (layer_range_eq g a k n Ha Hk). cbn [bind fst snd].
    rewrite Hsl. by rewrite Hl, Z.eqb_refl.
Qed.

(** For an array with one value per node, layers that are not negative and a
    layer [k] of the grid, [get_plottable_layer_array] returns the
    [ncpl[k]] values of the nodes of that layer. *)
Theorem plottable_layer_values {V} g (arr : list V) (a : list Z)
    (k : nat) n :
  ncpl g = Some a -> Forall (fun c => 0 <= c) a -> a !! k = Some n ->
  len arr = np_sum a ->
  get_plottable_layer_array g arr (Z.of_nat k)
  = Ok (take (Z.to_nat n) (drop (Z.to_nat (layer_start a k)) arr))
  /\ len (take (Z.to_nat n) (drop (Z.to_nat (layer_start a k)) arr)) = n.
Proof.
  intros Ha Hpos Hk Hlen. split; [by apply plottable_layer_eq|].
  by apply (layer_slice arr a k n).
Qed.

(** On a grid whose layer sizes are not negative, an array with one value
    per node has as many plottable layers as the grid has layers, and every
    one of them can be plotted:
    [get_plottable_layer_array] returns for each layer below the count, with
    as many values as [get_plottable_layer_shape] asks for. *)
Theorem plottable_layers_all_plot {V} g (arr : list V) (a : list Z) :
  ncpl g = Some a -> Forall (fun c => 0 <= c) a -> len arr = np_sum a ->
  get_number_plottable_layers g (len arr) = Some (len a)
  /\ forall layer,
       0 <= layer < len a ->
       exists vals n,
         get_plottable_layer_array g arr layer = Ok vals
         /\ get_plottable_layer_shape g (Some layer) = Ok (Some n)
         /\ len vals = n.
Proof.
  intros Ha Hpos Hlen. split.
  - unfold get_number_plottable_layers, nnodes, nlay. rewrite Ha, Hlen.
    by rewrite bool_decide_eq_true_2.
  - intros layer Hlayer.
    destruct (lookup_lt_is_Some_2 a (Z.to_nat layer)) as [n Hk];
      [unfold len in Hlayer; lia|].
    replace layer with (Z.of_nat (Z.to_nat layer)) by lia.
    eexists _, n. split; [by apply (plottable_layer_eq g arr a _ n)|].
    split; [|by apply (layer_slice arr a _ n)].
    unfold get_plottable_layer_shape, ncpl_at. rewrite Ha.
    cbn [not_None bind]. by rewrite (py_index_nat _ _ _ Hk).
Qed.

(** On a grid that varies by layer, whose layer sizes are not negative and
    whose geometry has one polygon per node, [get_xvertices_for_layer] and [get_yvertices_for_layer] return the
    polygons of the nodes of the layer, [ncpl[k]] of them, and change nothing
    but what the read of the geometry changes. *)
Theorem layer_vertices_slice g xv yv zv g' (a : list Z) (k : nat) n :
  xyzvertices g = (Ok (xv, yv, zv), g') ->
  grid_varies_by_layer g = Ok true ->
  ncpl g = Some a -> Forall (fun c => 0 <= c) a -> a !! k = Some n ->
  len xv = np_sum a -> len yv = np_sum a ->
  get_xvertices_for_layer g (Z.of_nat k)
  = (Ok (take (Z.to_nat n) (drop (Z.to_nat (layer_start a k)) xv)), g')
  /\ get_yvertices_for_layer g (Z.of_nat k)
     = (Ok (take (Z.to_nat n) (drop (Z.to_nat (layer_start a k)) yv)), g')
  /\ len (take (Z.to_nat n) (drop (Z.to_nat (layer_start a k)) xv)) = n
  /\ len (take (Z.to_nat n) (drop (Z.to_nat (layer_start a k)) yv)) = n.
Proof.
  intros Hx Hg Ha Hpos Hk Hlx Hly.
  destruct (xyzvertices_attrs g _ g' Hx) as [Hattrs _].
  assert (Hg' : grid_varies_by_layer g' = Ok true).
  { rewrite Hattrs. exact Hg. }
  assert (Ha' : ncpl g' = Some a).
  { rewrite Hattrs. exact Ha. }
  destruct (layer_slice xv a k n Hpos Hk Hlx) as [Hsx Hnx].
  destruct (layer_slice yv a k n Hpos Hk Hly) as [Hsy Hny].
  repeat split; [| |done|done].
  - unfold get_xvertices_for_layer, xvertices. rewrite Hx. cbn [bind fst snd].
    rewrite Hg'. cbn [bind].
    rewrite (layer_range_eq g' a k n Ha' Hk). cbn [bind fst snd].
    by rewrite Hsx.
  - unfold get_yvertices_for_layer, yvertices. rewrite Hx. cbn [bind fst snd].
    rewrite Hg'. cbn [bind].
    rewrite (layer_range_eq g' a k n Ha' Hk). cbn [bind fst snd].
    by rewrite Hsy.
Qed.

End LayerFacts.

(** ** Grid lines, cell vertices and cross sections *)

Lemma py_index_last {A} (l : list A) (x : A) :
  l !! (length l - 1)%nat = Some x -> py_index l (-1) = Ok x.
Proof.
  intros Hx. pose proof (lookup_lt_Some _ _ _ Hx) as Hlt.
  unfold py_index. cbn [Z.ltb Z.compare].
  replace (0 <=? -1 + Z.of_nat (length l)) with true
    by (symmetry; apply Z.leb_le; lia).
  replace (-1 + Z.of_nat (length l) <? Z.of_nat (length l)) with true
    by (symmetry; apply Z.ltb_lt; lia).
  cbn [andb].
  replace (Z.to_nat (-1 + Z.of_nat (length l))) with (length l - 1)%nat
    by lia.
  by rewrite Hx.
Qed.

Lemma mapR_Forall2 {A B} (f : A -> result B) (P : A -> B -> Prop) l :
  (forall x, x ∈ l -> exists y, f x = Ok y /\ P x y) ->
  exists ys, mapR f l = Ok ys /\ Forall2 P l ys.
Proof.
  induction l as [|x l IH]; intros Hf.
  - exists []. by split.
  - destruct (Hf x) as (y & Hy & HP); [apply list_elem_of_here|].
    destruct IH as (ys & Hys & HF).
    { intros x' Hin. apply Hf. by apply list_elem_of_further. }
    exists (y :: ys). cbn [mapR]. rewrite Hy, Hys. split; [done|].
    by constructor.
Qed.

Lemma list_repeat_length {A} (l : list A) (n : Z) :
  0 <= n -> len (list_repeat l n) = n * len l.
Proof.
  intros Hn. unfold list_repeat, len.
  rewrite <- (Z2Nat.id n) at 2 by done.
  induction (Z.to_nat n) as [|k IH]; [done|].
  cbn [replicate concat]. rewrite length_app. lia.
Qed.

Lemma np_sum_all_equal (a : list Z) (c : Z) :
  Forall (fun cpl => cpl = c) a -> np_sum a = len a * c.
Proof.
  unfold np_sum, len. induction 1 as [|x a -> _ IH]; [done|].
  cbn [foldr length]. rewrite IH. lia.
Qed.

Section LineFacts.
Context {R : Type} `{Num R} `{Services R}.

Implicit Types g : UnstructuredGrid R.

(** The vertex before vertex [k] on the ring of [n] vertices. *)
Lemma cell_line_at (xa ya : list R) ygrid icell (k : nat) x0 y0 x1 y1 :
  py_index ygrid icell = Ok ya ->
  xa !! k = Some x1 -> ya !! k = Some y1 ->
  xa !! (if k is O then length xa - 1 else k - 1)%nat = Some x0 ->
  ya !! (if k is O then length ya - 1 else k - 1)%nat = Some y0 ->
  (x0' <- py_index xa (Z.of_nat k - 1);;
   ya' <- py_index ygrid icell;;
   y0' <- py_index ya' (Z.of_nat k - 1);;
   x1' <- py_index xa (Z.of_nat k);;
   y1' <- py_index ya' (Z.of_nat k);;
   Ok ((x0', y0'), (x1', y1')))
  = Ok ((x0, y0), (x1, y1)).
Proof.
  intros Hyg Hx1 Hy1 Hx0 Hy0.
  assert (Hp : py_index xa (Z.of_nat k - 1) = Ok x0
               /\ py_index ya (Z.of_nat k - 1) = Ok y0).
  { destruct k as [|k].
    - change (Z.of_nat 0 - 1) with (-1).
      by rewrite (py_index_last _ _ Hx0), (py_index_last _ _ Hy0).
    - replace (Z.of_nat (S k) - 1) with (Z.of_nat k) by lia.
      replace (S k - 1)%nat with k in * by lia.
      by rewrite (py_index_nat _ _ _ Hx0), (py_index_nat _ _ _ Hy0). }
  destruct Hp as [Hpx Hpy].
  rewrite Hpx, Hyg. cbn [bind]. rewrite Hpy. cbn [bind].
  rewrite (py_index_nat _ _ _ Hx1). cbn [bind].
  by rewrite (py_index_nat _ _ _ Hy1).
Qed.

Lemma cell_lines_segments (xa ya : list R) ygrid icell :
  py_index ygrid icell = Ok ya -> length ya = length xa ->
  exists lines,
    cell_lines xa ygrid icell = Ok lines
    /\ length lines = length xa
    /\ forall (k : nat) x0 y0 x1 y1,
         xa !! k = Some x1 -> ya !! k = Some y1 ->
         xa !! (if k is O then length xa - 1 else k - 1)%nat = Some x0 ->
         ya !! (if k is O then length ya - 1 else k - 1)%nat = Some y0 ->
         lines !! k = Some ((x0, y0), (x1, y1)).
Proof.
  intros Hyg Hlen. unfold cell_lines.
  destruct (mapR_Forall2
              (fun ix =>
                 x0 <- py_index xa (ix - 1);;
                 ya' <- py_index ygrid icell;;
                 y0 <- py_index ya' (ix - 1);;
                 x1 <- py_index xa ix;;
                 y1 <- py_index ya' ix;;
                 Ok ((x0, y0), (x1, y1)))
              (fun ix (seg : segment) =>
                 forall (k : nat) x0 y0 x1 y1,
                   ix = Z.of_nat k ->
                   xa !! k = Some x1 -> ya !! k = Some y1 ->
                   xa !! (if k is O then length xa - 1 else k - 1)%nat
                   = Some x0 ->
                   ya !! (if k is O then length ya - 1 else k - 1)%nat
                   = Some y0 ->
                   seg = ((x0, y0), (x1, y1)))
              (py_range (len xa))) as (lines & Hlines & HF).
  { intros ix Hin. unfold py_range in Hin.
    apply list_elem_of_fmap in Hin as (k & -> & Hk).
    apply elem_of_seq in Hk. unfold len in Hk. rewrite Nat2Z.id in Hk.
    destruct (lookup_lt_is_Some_2 xa k) as [x1 Hx1]; [lia|].
    destruct (lookup_lt_is_Some_2 ya k) as [y1 Hy1]; [lia|].
    destruct (lookup_lt_is_Some_2 xa
                (if k is O then length xa - 1 else k - 1)%nat) as [x0 Hx0].
    { destruct k; lia. }
    destruct (lookup_lt_is_Some_2 ya
                (if k is O then length ya - 1 else k - 1)%nat) as [y0 Hy0].
    { destruct k; lia. }
    exists ((x0, y0), (x1, y1)).
    split; [by apply (cell_line_at xa ya)|].
    intros k' ? ? ? ? Hk' ? ? ? ?. apply Nat2Z.inj in Hk'. subst k'.
    congruence. }
  exists lines. split; [done|].
  pose proof (Forall2_length _ _ _ HF) as HL.
  unfold py_range, len in HL. rewrite length_fmap, length_seq, Nat2Z.id in HL.
  split; [done|].
  intros k x0 y0 x1 y1 Hx1 Hy1 Hx0 Hy0.
  assert (Hk : (k < length xa)%nat) by by apply lookup_lt_Some in Hx1.
  destruct (lookup_lt_is_Some_2 lines k) as [seg Hseg]; [lia|].
  assert (Heq : seg = ((x0, y0), (x1, y1))); [|by rewrite <- Heq].
  eapply (Forall2_lookup_lr _ _ _ k (Z.of_nat k) seg HF); try done.
  unfold py_range. rewrite list_lookup_fmap, lookup_seq_lt; [done|].
  unfold len. lia.
Qed.

(** The lines of a cell close its polygon: there is one segment per vertex,
    and segment [k] runs from vertex [k - 1], the last vertex for [k = 0],
    to vertex [k]. *)
Theorem cell_lines_ring (xa ya : list R) ygrid icell :
  py_index ygrid icell = Ok ya -> length ya = length xa ->
  exists lines,
    cell_lines xa ygrid icell = Ok lines
    /\ length lines = length xa
    /\ forall (k : nat) x0 y0 x1 y1,
         xa !! k = Some x1 -> ya !! k = Some y1 ->
         xa !! (if k is O then length xa - 1 else k - 1)%nat = Some x0 ->
         ya !! (if k is O then length ya - 1 else k - 1)%nat = Some y0 ->
         lines !! k = Some ((x0, y0), (x1, y1)).
Proof. apply cell_lines_segments. Qed.

Lemma cells_lines_count (xv yv : list (list R)) (k s : nat) :
  Forall2 (fun xa ya => length ya = length xa) xv yv ->
  (s + k <= length xv)%nat ->
  exists lines,
    cells_lines xv yv (Z.of_nat <$> seq s k) = Ok lines
    /\ length lines = length (concat (take k (drop s xv))).
Proof.
  intros HF. revert s. induction k as [|k IH]; intros s Hs.
  - exists []. by rewrite take_0.
  - destruct (lookup_lt_is_Some_2 xv s) as [xa Hxa]; [lia|].
    destruct (Forall2_lookup_l _ _ _ _ _ HF Hxa) as (ya & Hya & Hlen).
    destruct (cell_lines_segments xa ya yv (Z.of_nat s))
      as (lines & Hlines & Hn & _); [by apply py_index_nat|done|].
    destruct (IH (S s)) as (more & Hmore & Hm); [lia|].
    exists (lines ++ more).
    cbn [seq fmap list_fmap cells_lines].
    rewrite (py_index_nat _ _ _ Hxa). cbn [bind]. rewrite Hlines.
    cbn [bind].
    change (list_fmap nat Z Z.of_nat (seq (S s) k))
      with (Z.of_nat <$> seq (S s) k).
    rewrite Hmore. cbn [bind]. split; [done|].
    rewrite (drop_S _ _ _ Hxa). cbn [take concat].
    rewrite !length_app. lia.
Qed.

(** On a grid that does not vary by layer, [grid_lines] returns one flat
    list with as many lines as the first [ncpl[0]] cells have vertices, and
    switches copy mode on again. *)
Theorem grid_lines_flat g xv yv zv g1 n :
  xyzvertices (set__copy_cache g false) = (Ok (xv, yv, zv), g1) ->
  grid_varies_by_layer g = Ok false -> ncpl_at g 0 = Ok n ->
  n <= len xv ->
  Forall2 (fun xa ya => length ya = length xa) xv yv ->
  exists lines,
    grid_lines g = (Ok (GlList lines), set__copy_cache g1 true)
    /\ length lines = length (concat (take (Z.to_nat n) xv)).
Proof.
  intros Hx Hg Hn Hle HF.
  destruct (xyzvertices_reread _ _ _ Hx) as [_ Hx'].
  destruct (xyzvertices_attrs _ _ _ Hx) as [Hattrs _].
  destruct (cells_lines_count xv yv (Z.to_nat n) 0 HF)
    as (lines & Hlines & Hcount); [unfold len in Hle; lia|].
  exists lines. split; [|done].
  unfold grid_lines, xvertices, yvertices.
  rewrite Hx. cbn [bind fst snd]. rewrite Hx'. cbn [bind fst snd].
  assert (Hg1 : grid_varies_by_layer g1 = Ok false)
    by (rewrite Hattrs; exact Hg).
  assert (Hn1 : ncpl_at g1 0 = Ok n) by (rewrite Hattrs; exact Hn).
  rewrite Hg1. cbn [bind]. rewrite Hn1. cbn [bind].
  unfold py_range. by rewrite Hlines.
Qed.

Lemma xyzvertices_copy_cache g r g' :
  xyzvertices g = (r, g') -> _copy_cache g' = _copy_cache g.
Proof.
  intros Hx. destruct (xyzvertices_attrs g r g' Hx) as [-> _]. reflexivity.
Qed.

(** [grid_lines] and [get_cell_vertices] switch copy mode off while they
    read the geometry and switch it on again only at their end: copy mode is
    on after a call that returns and off after a call that raises. *)
Theorem copy_cache_after_call g (cellid : Z) :
  match (grid_lines g).1 with
  | Ok _ => _copy_cache (grid_lines g).2 = true
  | Raise _ => _copy_cache (grid_lines g).2 = false
  end
  /\ match (get_cell_vertices g cellid).1 with
     | Ok _ => _copy_cache (get_cell_vertices g cellid).2 = true
     | Raise _ => _copy_cache (get_cell_vertices g cellid).2 = false
     end.
Proof.
  split.
  - unfold grid_lines, xvertices, yvertices.
    destruct (xyzvertices (set__copy_cache g false)) as [r1 g1] eqn:H1.
    apply xyzvertices_copy_cache in H1. cbn [_copy_cache set__copy_cache] in H1.
    destruct r1 as [[[xv yv] zv]|]; cbn [bind fst snd]; [|done].
    destruct (xyzvertices g1) as [r2 g2] eqn:H2.
    apply xyzvertices_copy_cache in H2. rewrite H1 in H2.
    destruct r2 as [[[xv2 yv2] zv2]|]; cbn [bind fst snd]; [|done].
    destruct (bind (grid_varies_by_layer g2) _); done.
  - unfold get_cell_vertices, xvertices, yvertices.
    destruct (xyzvertices (set__copy_cache g false)) as [r1 g1] eqn:H1.
    apply xyzvertices_copy_cache in H1. cbn [_copy_cache set__copy_cache] in H1.
    destruct r1 as [[[xv yv] zv]|]; cbn [bind fst snd]; [|done].
    destruct (py_index xv cellid); [|done].
    destruct (xyzvertices g1) as [r2 g2] eqn:H2.
    apply xyzvertices_copy_cache in H2. rewrite H1 in H2.
    destruct r2 as [[[xv2 yv2] zv2]|]; cbn [bind fst snd]; [|done].
    destruct (py_index yv2 cellid); done.
Qed.

(** [get_cell_vertices] pairs the x and the y coordinates of the vertices of
    the cell, and raises IndexError, leaving copy mode off, for a cell number
    at or beyond the number of cells of the geometry. *)
Theorem get_cell_vertices_pairs g xv yv zv g1 :
  xyzvertices (set__copy_cache g false) = (Ok (xv, yv, zv), g1) ->
  (forall (k : nat) xa ya,
      xv !! k = Some xa -> yv !! k = Some ya ->
      get_cell_vertices g (Z.of_nat k)
      = (Ok (zip xa ya), set__copy_cache g1 true))
  /\ (forall cellid,
        len xv <= cellid ->
        get_cell_vertices g cellid = (Raise IndexError, g1)
        /\ _copy_cache g1 = false).
Proof.
  intros Hx. destruct (xyzvertices_reread _ _ _ Hx) as [_ Hx'].
  split.
  - intros k xa ya Hxa Hya.
    unfold get_cell_vertices, xvertices, yvertices.
    rewrite Hx. cbn [bind fst snd]. rewrite (py_index_nat _ _ _ Hxa).
    rewrite Hx'. cbn [bind fst snd]. by rewrite (py_index_nat _ _ _ Hya).
  - intros cellid Hc. split.
    + unfold get_cell_vertices, xvertices. rewrite Hx. cbn [bind fst snd].
      unfold py_index, len in *.
      replace (cellid <? 0) with false by (symmetry; apply Z.ltb_ge; lia).
      replace (cellid <? Z.of_nat (length xv)) with false
        by (symmetry; apply Z.ltb_ge; lia).
      by rewrite andb_false_r.
    + by apply xyzvertices_copy_cache in Hx.
Qed.

(** On a grid that does not vary by layer and whose layers all have as many
    cells as the geometry, [cross_section_vertices] in copy mode returns the
    cell polygons once per layer, one polygon per node, and changes nothing
    but what the read of the geometry changes. *)
Theorem cross_section_vertices_per_node g xv yv zv g' (a : list Z) :
  xyzvertices g = (Ok (xv, yv, zv), g') ->
  _copy_cache g = true ->
  ncpl g = Some a -> a <> [] ->
  Forall (fun cpl => cpl = len xv) a -> length yv = length xv ->
  cross_section_vertices g
  = (Ok (list_repeat xv (len a), list_repeat yv (len a)), g')
  /\ Some (len (list_repeat xv (len a))) = nnodes g
  /\ Some (len (list_repeat yv (len a))) = nnodes g.
Proof.
  intros Hx Hcopy Ha Hne Hall Hly.
  destruct (xyzvertices_reread _ _ _ Hx) as [_ Hx'].
  destruct (xyzvertices_attrs _ _ _ Hx) as [Hattrs _].
  assert (Hcopy' : _copy_cache g' = true).
  { by rewrite (xyzvertices_copy_cache _ _ _ Hx). }
  assert (Ha' : ncpl g' = Some a) by (by rewrite Hattrs).
  assert (Hn0 : ncpl_at g' 0 = Ok (len xv)).
  { unfold ncpl_at. rewrite Ha'. cbn [not_None bind].
    destruct a as [|c a]; [done|]. rewrite py_index_0.
    by apply Forall_cons in Hall as [-> _]. }
  split.
  - unfold cross_section_vertices, xvertices, yvertices.
    rewrite Hx. cbn [bind fst snd]. rewrite Hx'. cbn [bind fst snd].
    rewrite Hn0, Z.eqb_refl. unfold nlay. rewrite Ha'. cbn [not_None].
    unfold store_xy. by rewrite Hcopy'.
  - unfold nnodes. rewrite Ha, (np_sum_all_equal a _ Hall).
    rewrite !list_repeat_length by (unfold len; lia).
    unfold len. by rewrite Hly.
Qed.

End LineFacts.

(** ** The cell2d table and the derived geometry *)

Lemma mapR_Forall2_inv {A B} (f : A -> result B) l ys :
  mapR f l = Ok ys -> Forall2 (fun x y => f x = Ok y) l ys.
Proof.
  revert ys. induction l as [|x l IH]; intros ys Hm.
  - injection Hm as <-. constructor.
  - apply mapR_cons_Ok in Hm as (y & ys' & Hy & Hys & ->).
    constructor; [done|]. by apply IH.
Qed.

Lemma Forall2_chain {A B C} (P : A -> B -> Prop) (Q : B -> C -> Prop)
    (S : A -> C -> Prop) l1 l2 l3 :
  (forall x y z, P x y -> Q y z -> S x z) ->
  Forall2 P l1 l2 -> Forall2 Q l2 l3 -> Forall2 S l1 l3.
Proof.
  intros HS HP. revert l3. induction HP as [|x y l1 l2 Hxy _ IH]; intros l3 HQ.
  - inversion HQ. constructor.
  - inversion HQ as [|? z ? l3' Hyz HQ']; subst.
    constructor; [by eapply HS|by apply IH].
Qed.

Section TableFacts.
Context {R : Type} `{Num R} `{Services R}.

Implicit Types g : UnstructuredGrid R.

(** A grid built from a numbered [cell2d] table, with vertices and without
    [ncpl], gives the table back as its [cell2d] property. *)
Theorem cell2d_of_table (a : init_args R) rows vs :
  a_cell2d a = Some rows -> a_vertices a = Some vs -> a_ncpl a = None ->
  rows_numbered rows ->
  exists g, __init__ a = Ok g /\ cell2d g = Ok (Some rows).
Proof.
  intros Hrows Hvs Hncpl Hnum.
  unfold __init__, init_attrs, init_cells. rewrite Hrows, Hvs, Hncpl.
  cbn -[len py_index]. unfold check_iverts_length, grid_varies_by_layer, ncpl_at.
  cbn -[len py_index]. rewrite py_index_0. cbn -[len].
  rewrite !Z.eqb_refl. cbn -[len].
  eexists. split; [reflexivity|].
  unfold cell2d, cell2d_run. cbn -[len cell2d_loop py_range].
  unfold cell2d_guard.
  replace (len (c2d_iverts <$> rows) + 0) with (len (c2d_xc <$> rows))
    by (unfold len; rewrite !length_fmap; lia).
  rewrite Z.eqb_refl. cbn -[len cell2d_loop py_range].
  match goal with
  | |- context [cell2d_loop ?g0 false _ 0] =>
      destruct (cell2d_loop_flat g0 (c2d_xc <$> rows) (c2d_yc <$> rows)
                  (c2d_iverts <$> rows) (length rows) 0)
        as (recs & Hloop & Hlen & Hrecs);
        [done|done|done|by rewrite !length_fmap..|
         by rewrite length_fmap|]
  end.
  replace (py_range (len (c2d_xc <$> rows)))
    with (Z.of_nat <$> seq 0 (length rows))
    by (unfold py_range, len; by rewrite length_fmap, Nat2Z.id).
  rewrite Hloop. cbn [bind].
  do 2 f_equal. apply list_eq. intros i.
  destruct (rows !! i) as [row|] eqn:Hrow.
  - destruct (Hnum i row Hrow) as [Hix Hnv].
    rewrite (Hrecs i (c2d_xc row) (c2d_yc row) (c2d_iverts row)).
    + f_equal. destruct row; cbn in *. by subst.
    + by apply lookup_lt_Some in Hrow.
    + cbn [Nat.add]. by rewrite list_lookup_fmap, Hrow.
    + cbn [Nat.add]. by rewrite list_lookup_fmap, Hrow.
    + cbn [Nat.add]. by rewrite list_lookup_fmap, Hrow.
  - apply lookup_ge_None. apply lookup_ge_None in Hrow. lia.
Qed.

Lemma cell_xy_lengths (vertexdict : gmap Z (R * R)) t c :
  cell_xy vertexdict t = Ok c ->
  length c.1 = length t /\ length c.2 = length t.
Proof.
  unfold cell_xy. destruct (mapR _ t) as [ps|] eqn:Hps; [|discriminate].
  cbn [bind]. intros [= <-]. cbn [fst snd]. rewrite !length_fmap.
  apply mapR_Forall2_inv, Forall2_length in Hps. by rewrite Hps.
Qed.

Lemma get_coords_arrays_lengths g xs ys c :
  get_coords_arrays g xs ys = Ok c ->
  length c.1 = length xs /\ length c.2 = length ys.
Proof.
  unfold get_coords_arrays, get_coords_array.
  destruct (Nat.eqb_spec (length xs) (length ys)) as [E|]; [|discriminate].
  intros [= <-]. cbn [fst snd].
  rewrite !length_fmap, length_zip_with. lia.
Qed.

(** The geometry [_build_grid_geometry_info] stores has one entry per cell
    of [iverts], with one x and one y coordinate for every vertex id of the
    cell that is not [None]; its z part is (top, botm) when both are set. *)
Theorem build_geometry_shape g g1 :
  _build_grid_geometry_info g = Ok g1 ->
  exists xv yv ivs,
    cached_xyz g1
    = Some (xv, yv,
            match _top g, _botm g with
            | Some t, Some b => Some (t, b)
            | _, _ => None
            end)
    /\ iverts g = Some ivs
    /\ Forall2 (fun t xa => length xa = length t) ivs xv
    /\ Forall2 (fun t ya => length ya = length t) ivs yv.
Proof.
  unfold _build_grid_geometry_info. intros Hb.
  destruct (not_None (_vertices g)) as [vs|]; [|discriminate].
  cbn [bind] in Hb.
  destruct (iverts g) as [ivs|]; [|discriminate]. cbn [not_None bind] in Hb.
  destruct (mapR (cell_xy (vertexdict_of vs)) ivs) as [cells|] eqn:Hcells;
    [|discriminate].
  cbn [bind] in Hb. apply mapR_Forall2_inv in Hcells.
  assert (Hz : (_zcoords g).1
               = match _top g, _botm g with
                 | Some t, Some b => Some (t, b)
                 | _, _ => None
                 end).
  { unfold _zcoords. by destruct (_top g), (_botm g). }
  destruct (_zcoords g) as [zvertices zcenters]. cbn [fst] in Hz. subst.
  assert (Hshape : forall cells' : list (list R * list R),
             Forall2 (fun t c => length c.1 = length t
                                 /\ length c.2 = length t) ivs cells' ->
             Forall2 (fun t xa => length xa = length t) ivs (fst <$> cells')
             /\ Forall2 (fun t ya => length ya = length t) ivs
                  (snd <$> cells')).
  { intros cells' HF. split; apply Forall2_fmap_r;
      (eapply Forall2_impl; [exact HF|]); by intros ? ? [? ?]. }
  assert (Hcells' : Forall2 (fun t c => length c.1 = length t
                                        /\ length c.2 = length t) ivs cells).
  { eapply Forall2_impl; [exact Hcells|]. intros t c. apply cell_xy_lengths. }
  destruct (_has_ref_coordinates g).
  - destruct (not_None (_xc g)); [|discriminate]. cbn [bind] in Hb.
    destruct (not_None (_yc g)); [|discriminate]. cbn [bind] in Hb.
    destruct (get_coords_arrays g _ _); [|discriminate]. cbn [bind] in Hb.
    destruct (mapR _ cells) as [cells2|] eqn:Hc2; [|discriminate].
    cbn [bind] in Hb. injection Hb as <-.
    apply mapR_Forall2_inv in Hc2.
    destruct (Hshape cells2) as [Hx Hy].
    { eapply Forall2_chain; [|exact Hcells'|exact Hc2].
      intros t c c2 [H1 H2] Hg.
      apply get_coords_arrays_lengths in Hg as [-> ->]. done. }
    exists (fst <$> cells2), (snd <$> cells2), ivs.
    unfold cached_xyz. cbn [_cache_dict set__cache_dict].
    rewrite lookup_insert_eq. done.
  - cbn [bind] in Hb. injection Hb as <-.
    destruct (Hshape cells Hcells') as [Hx Hy].
    exists (fst <$> cells), (snd <$> cells), ivs.
    unfold cached_xyz. cbn [_cache_dict set__cache_dict].
    rewrite lookup_insert_eq. done.
Qed.

End TableFacts.

(** ** The header of a grid specification file, continued *)

Lemma is_comment_line_first_char (line : string) :
  is_comment_line line = true ->
  exists c, GridSpec.first_char (GridSpec.split_line [line]).1 = Ok c
            /\ Ascii.eqb c "#" = true.
Proof.
  unfold is_comment_line.
  destruct ((GridSpec.split_line [line]).1) as [|[|c t] rest];
    try discriminate.
  intros Hc. by exists c.
Qed.

Lemma skip_comments_through (comments : list string) line body header c :
  GridSpec.first_char header = Ok c -> Ascii.eqb c "#" = true ->
  Forall (fun l => is_comment_line l = true) comments ->
  (GridSpec.split_line [line]).1 = ["UNSTRUCTURED"] ->
  GridSpec.skip_comments header (comments ++ line :: body)
  = Ok (["UNSTRUCTURED"], body).
Proof.
  intros Hc Hsharp Hall Hline. revert header c Hc Hsharp.
  induction Hall as [|l comments Hl _ IH]; intros header c Hc Hsharp.
  - cbn [app GridSpec.skip_comments]. rewrite Hc. cbn [bind].
    rewrite Hsharp.
    change (GridSpec.split_line (line :: body)).1
      with (GridSpec.split_line [line]).1.
    rewrite Hline. by destruct body.
  - cbn [app GridSpec.skip_comments]. rewrite Hc. cbn [bind].
    rewrite Hsharp.
    change (GridSpec.split_line (l :: comments ++ line :: body)).1
      with (GridSpec.split_line [l]).1.
    destruct (is_comment_line_first_char l Hl) as (c' & Hc' & Hs').
    by apply (IH _ c').
Qed.

Lemma skip_comments_exhausted (comments : list string) header c :
  GridSpec.first_char header = Ok c -> Ascii.eqb c "#" = true ->
  Forall (fun l => is_comment_line l = true) comments ->
  GridSpec.skip_comments header comments = Raise IndexError.
Proof.
  intros Hc Hsharp Hall. revert header c Hc Hsharp.
  induction Hall as [|l comments Hl _ IH]; intros header c Hc Hsharp.
  - cbn [GridSpec.skip_comments]. rewrite Hc. cbn [bind]. by rewrite Hsharp.
  - cbn [GridSpec.skip_comments]. rewrite Hc. cbn [bind]. rewrite Hsharp.
    change (GridSpec.split_line (l :: comments)).1
      with (GridSpec.split_line [l]).1.
    destruct (is_comment_line_first_char l Hl) as (c' & Hc' & Hs').
    by apply (IH _ c').
Qed.

(** [from_gridspec] skips any number of leading comment lines and accepts the
    header line whose tokens, in upper case, are the single token
    UNSTRUCTURED, whatever its case and the blanks around it; a file that is
    empty or holds comment lines only ends in IndexError, not in the header
    error. *)
Theorem from_gridspec_header_comments (comments : list string) line body :
  Forall (fun l => is_comment_line l = true) comments ->
  (GridSpec.split_line [line]).1 = ["UNSTRUCTURED"] ->
  GridSpec.from_gridspec_header (comments ++ line :: body) = Ok body
  /\ GridSpec.from_gridspec_header comments = Raise IndexError.
Proof.
  intros Hall Hline. unfold GridSpec.from_gridspec_header. split.
  - destruct Hall as [|l comments Hl Hall].
    + cbn [app]. 
      change (GridSpec.split_line (line :: body))
        with ((GridSpec.split_line [line]).1, body).
      rewrite Hline. by destruct body.
    + cbn [app].
      change (GridSpec.split_line (l :: comments ++ line :: body))
        with ((GridSpec.split_line [l]).1, comments ++ line :: body).
      destruct (is_comment_line_first_char l Hl) as (c & Hc & Hs).
      by rewrite (skip_comments_through comments line body _ c).
  - destruct Hall as [|l comments Hl Hall]; [reflexivity|].
    change (GridSpec.split_line (l :: comments))
      with ((GridSpec.split_line [l]).1, comments).
    destruct (is_comment_line_first_char l Hl) as (c & Hc & Hs).
    by rewrite (skip_comments_exhausted comments _ c).
Qed.

(** ** Merging vertices *)

Section MergeFacts.
Context {R : Type} `{Num R} `{Services R}.

Implicit Types g : UnstructuredGrid R.

Lemma vset_add_spec (vset : list (R * R * gset Z)) vert iv :
  (length (vset_add vset vert iv) <= S (length vset))%nat
  /\ (exists c key ids',
        vset_add vset vert iv !! c = Some (key, ids')
        /\ iv ∈ ids' /\ same_xy vert key)
  /\ (forall c key ids' j,
        vset_add vset vert iv !! c = Some (key, ids') -> j ∈ ids' ->
        (exists ids, vset !! c = Some (key, ids) /\ j ∈ ids)
        \/ (j = iv /\ same_xy vert key))
  /\ (forall c key ids,
        vset !! c = Some (key, ids) ->
        exists ids', vset_add vset vert iv !! c = Some (key, ids')
                     /\ ids ⊆ ids').
Proof.
  induction vset as [|[k ids0] vset IH]; cbn [vset_add].
  - split; [cbn; lia|]. split.
    { exists 0%nat, vert, {[iv]}. split; [done|].
      split; [set_solver|by left]. }
    split.
    { intros [|c] key ids' j Hl Hj; [|done].
      injection Hl as <- <-. right. split; [set_solver|by left]. }
    intros c key ids Hl. done.
  - destruct IH as (IHlen & (c0 & key0 & ids0' & IHl & IHin & IHs) & IHC & IHD).
    destruct (key_eqb k vert) eqn:Hk.
    + split; [cbn; lia|]. split.
      { exists 0%nat, k, (ids0 ∪ {[iv]}). split; [done|].
        split; [set_solver|by right]. }
      split.
      { intros [|c] key ids' j Hl Hj.
        - injection Hl as <- <-.
          apply elem_of_union in Hj as [Hj|Hj].
          + left. by exists ids0.
          + right. split; [set_solver|by right].
        - left. by exists ids'. }
      intros [|c] key ids Hl.
      * injection Hl as <- <-. exists (ids0 ∪ {[iv]}).
        split; [done|set_solver].
      * by exists ids.
    + split; [cbn; lia|]. split.
      { by exists (S c0), key0, ids0'. }
      split.
      { intros [|c] key ids' j Hl Hj.
        - left. by exists ids'.
        - exact (IHC c key ids' j Hl Hj). }
      intros [|c] key ids Hl.
      * by exists ids.
      * exact (IHD c key ids Hl).
Qed.

(** The groups [clean_iverts] collects: every vertex is in a group with its
    coordinates, and every id of a group comes from such a vertex. *)
Lemma clean_vset_spec (vs : list (Z * R * R)) :
  (length (clean_vset vs) <= length vs)%nat
  /\ (forall k v,
        vs !! k = Some v ->
        exists c key ids,
          clean_vset vs !! c = Some (key, ids)
          /\ v.1.1 ∈ ids /\ same_xy (vertex_xy v) key)
  /\ (forall c key ids j,
        clean_vset vs !! c = Some (key, ids) -> j ∈ ids ->
        exists k v,
          vs !! k = Some v /\ v.1.1 = j /\ same_xy (vertex_xy v) key).
Proof.
  induction vs as [|[[iv x] y] vs IH] using rev_ind.
  - split; [done|]. split; [by intros ? ? [=]|by intros ? ? ? ? [=]].
  - destruct IH as (IHlen & IH1 & IH2).
    unfold clean_vset in *. rewrite foldl_app. cbn [foldl].
    set (vset := foldl _ [] vs) in *.
    destruct (vset_add_spec vset (x, y) iv)
      as (Hlen & (c0 & key0 & ids0 & Hl0 & Hin0 & Hs0) & HC & HD).
    split; [rewrite length_app; cbn; lia|]. split.
    + intros k v Hk.
      destruct (decide (k = length vs)) as [->|Hne].
      * rewrite lookup_app_r, Nat.sub_diag in Hk by lia. injection Hk as <-.
        by exists c0, key0, ids0.
      * assert (k < length vs)%nat.
        { apply lookup_lt_Some in Hk. rewrite length_app in Hk.
          cbn in Hk. lia. }
        rewrite lookup_app_l in Hk by done.
        destruct (IH1 k v Hk) as (c & key & ids & Hl & Hin & Hs).
        destruct (HD c key ids Hl) as (ids' & Hl' & Hsub).
        exists c, key, ids'. split; [done|]. split; [set_solver|done].
    + intros c key ids j Hl Hj.
      destruct (HC c key ids j Hl Hj) as [(ids' & Hl' & Hj')|[-> Hs]].
      * destruct (IH2 c key ids' j Hl' Hj') as (k & v & Hk & Hid & Hs).
        exists k, v. split; [|done].
        by rewrite lookup_app_l by (by apply lookup_lt_Some in Hk).
      * exists (length vs), (iv, x, y). split; [|done].
        by rewrite lookup_app_r, Nat.sub_diag by lia.
Qed.

Lemma remap_group_lookup (m : gmap Z Z) (l : list Z) (c j : Z) :
  foldl (fun m iv => <[iv := c]> m) m l !! j
  = if decide (j ∈ l) then Some c else m !! j.
Proof.
  revert m. induction l as [|iv l IH]; intros m; cbn [foldl].
  - rewrite decide_False; [done|]. apply not_elem_of_nil.
  - rewrite IH. destruct (decide (j ∈ l)) as [Hin|Hnin].
    + rewrite decide_True; [done|]. by apply list_elem_of_further.
    + destruct (decide (iv = j)) as [->|Hne].
      * rewrite lookup_insert_eq, decide_True; [done|].
        apply list_elem_of_here.
      * rewrite lookup_insert_ne by done. rewrite decide_False; [done|].
        intros Hin. apply elem_of_cons in Hin as [->|Hin]; done.
Qed.

Lemma numbered_snoc (vset : list (R * R * gset Z)) grp :
  numbered (vset ++ [grp])
  = numbered vset ++ [(len vset, grp.1.1, grp.1.2)].
Proof.
  unfold numbered. rewrite imap_app. cbn. by rewrite Nat.add_0_r.
Qed.

(** The second loop of [clean_iverts]: one new vertex per group, numbered by
    position; an id is remapped exactly when some group holds it, to the
    position of a group that holds it. *)
Lemma clean_step_spec (vset : list (R * R * gset Z)) :
  exists ivert_remap,
    foldl clean_step (0, ∅, []) vset = (len vset, ivert_remap, numbered vset)
    /\ (forall iv c,
          ivert_remap !! iv = Some c ->
          exists (i : nat) key ids,
            c = Z.of_nat i /\ vset !! i = Some (key, ids) /\ iv ∈ ids)
    /\ (forall (i : nat) key ids iv,
          vset !! i = Some (key, ids) -> iv ∈ ids ->
          is_Some (ivert_remap !! iv)).
Proof.
  induction vset as [|[[xv yv] ids] vset IH] using rev_ind.
  - exists ∅. split; [done|]. split; [|by intros ? ? ? ? [=]].
    intros iv c. by rewrite lookup_empty.
  - destruct IH as (remap & Hfold & HM1 & HM2).
    exists (foldl (fun m iv => <[iv := len vset]> m) remap (elements ids)).
    split.
    { rewrite foldl_app, Hfold. cbn [foldl clean_step].
      rewrite numbered_snoc. unfold len. rewrite length_app. cbn [length].
      repeat f_equal. lia. }
    split.
    + intros iv c. rewrite remap_group_lookup.
      destruct (decide (iv ∈ elements ids)) as [Hin|Hnin].
      * intros [= <-]. exists (length vset), (xv, yv), ids.
        split; [done|].
        split; [by rewrite lookup_app_r, Nat.sub_diag by lia|].
        by apply elem_of_elements.
      * intros Hc. destruct (HM1 iv c Hc) as (i & key & ids' & -> & Hl & Hi).
        exists i, key, ids'. split; [done|]. split; [|done].
        by rewrite lookup_app_l by (by apply lookup_lt_Some in Hl).
    + intros i key ids' iv Hl Hi. rewrite remap_group_lookup.
      destruct (decide (iv ∈ elements ids)) as [Hin|Hnin]; [by eexists|].
      destruct (decide (i = length vset)) as [->|Hne].
      * rewrite lookup_app_r, Nat.sub_diag in Hl by lia.
        injection Hl as <- <-. exfalso. apply Hnin.
        by apply elem_of_elements.
      * assert (i < length vset)%nat.
        { apply lookup_lt_Some in Hl. rewrite length_app in Hl.
          cbn in Hl. lia. }
        rewrite lookup_app_l in Hl by done. by apply (HM2 i key ids').
Qed.

Lemma vertexdict_of_numbered (vset : list (R * R * gset Z)) (i : nat)
    key ids :
  vset !! i = Some (key, ids) ->
  vertexdict_of (numbered vset) !! Z.of_nat i = Some key.
Proof.
  revert i key ids.
  induction vset as [|[[xv yv] ids0] vset IH] using rev_ind;
    intros i key ids Hi.
  - by rewrite lookup_nil in Hi.
  - rewrite numbered_snoc, vertexdict_of_snoc. cbn [fst snd].
    destruct (decide (i = length vset)) as [->|Hne].
    + rewrite lookup_app_r, Nat.sub_diag in Hi by lia.
      injection Hi as <- <-. unfold len. by rewrite lookup_insert_eq.
    + assert (i < length vset)%nat.
      { apply lookup_lt_Some in Hi. rewrite length_app in Hi.
        cbn in Hi. lia. }
      rewrite lookup_app_l in Hi by done.
      rewrite lookup_insert_ne by (unfold len; lia). by apply (IH i key ids).
Qed.

Lemma vertexdict_of_Some (vs : list (Z * R * R)) iv p :
  vertexdict_of vs !! iv = Some p ->
  exists k v, vs !! k = Some v /\ v.1.1 = iv /\ vertex_xy v = p.
Proof.
  induction vs as [|[[iv' x] y] vs IH] using rev_ind.
  - unfold vertexdict_of. cbn. by rewrite lookup_empty.
  - rewrite vertexdict_of_snoc.
    destruct (decide (iv' = iv)) as [->|Hne].
    + rewrite lookup_insert_eq. intros [= <-].
      exists (length vs), (iv, x, y).
      by rewrite lookup_app_r, Nat.sub_diag by lia.
    + rewrite lookup_insert_ne by done. intros Hp.
      destruct (IH Hp) as (k & v & Hk & Hid & Hxy).
      exists k, v. split; [|done].
      by rewrite lookup_app_l by (by apply lookup_lt_Some in Hk).
Qed.

(** With vertex ids that are not repeated, an id that resolves is remapped
    to a new vertex at the same point. *)
Lemma merge_ids (vs : list (Z * R * R)) (ivert_remap : gmap Z Z) t ps :
  NoDup (vertex_ids vs) ->
  (forall iv c,
      ivert_remap !! iv = Some c ->
      exists (i : nat) key ids,
        c = Z.of_nat i /\ clean_vset vs !! i = Some (key, ids) /\ iv ∈ ids) ->
  (forall (i : nat) key ids iv,
      clean_vset vs !! i = Some (key, ids) -> iv ∈ ids ->
      is_Some (ivert_remap !! iv)) ->
  mapR (dict_get (vertexdict_of vs)) t = Ok ps ->
  exists t' ps',
    mapR (dict_get ivert_remap) t = Ok t'
    /\ mapR (dict_get (vertexdict_of (numbered (clean_vset vs)))) t' = Ok ps'
    /\ Forall2 same_xy ps ps'.
Proof.
  intros Hnd HM1 HM2. destruct (clean_vset_spec vs) as (_ & HJ1 & HJ2).
  revert ps. induction t as [|iv t IH]; intros ps Hps.
  - injection Hps as <-. exists [], []. repeat split. constructor.
  - apply mapR_cons_Ok in Hps as (p & ps0 & Hp & Hps0 & ->).
    destruct (IH _ Hps0) as (t' & ps' & Ht' & Hps' & HF).
    unfold dict_get in Hp.
    destruct (vertexdict_of vs !! iv) as [p0|] eqn:Hd; [|discriminate].
    injection Hp as ->.
    destruct (vertexdict_of_Some vs iv p Hd) as (k & v & Hk & Hid & Hxy).
    destruct (HJ1 k v Hk) as (c0 & key0 & ids0 & Hl0 & Hin0 & _).
    rewrite Hid in Hin0.
    destruct (HM2 c0 key0 ids0 iv Hl0 Hin0) as [c Hc].
    destruct (HM1 iv c Hc) as (i & key & ids & -> & Hl & Hin).
    destruct (HJ2 i key ids iv Hl Hin) as (k' & v' & Hk' & Hid' & Hs).
    assert (k' = k) as ->.
    { eapply (NoDup_lookup _ _ _ iv Hnd); unfold vertex_ids;
        rewrite list_lookup_fmap.
      - by rewrite Hk', <- Hid'.
      - by rewrite Hk, <- Hid. }
    assert (v' = v) as -> by congruence.
    exists (Z.of_nat i :: t'), (key :: ps'). cbn [mapR].
    unfold dict_get at 1. rewrite Hc. cbn [bind]. rewrite Ht'. cbn [bind].
    split; [done|]. unfold dict_get at 1.
    rewrite (vertexdict_of_numbered _ i key ids Hl). cbn [bind].
    rewrite Hps'. cbn [bind]. split; [done|].
    constructor; [|done]. by rewrite <- Hxy.
Qed.

Lemma merge_cells (vs : list (Z * R * R)) (ivert_remap : gmap Z Z)
    ivs cells :
  NoDup (vertex_ids vs) ->
  (forall iv c,
      ivert_remap !! iv = Some c ->
      exists (i : nat) key ids,
        c = Z.of_nat i /\ clean_vset vs !! i = Some (key, ids) /\ iv ∈ ids) ->
  (forall (i : nat) key ids iv,
      clean_vset vs !! i = Some (key, ids) -> iv ∈ ids ->
      is_Some (ivert_remap !! iv)) ->
  mapR (cell_xy (vertexdict_of vs)) ivs = Ok cells ->
  exists ivs' cells',
    mapR (mapR (dict_get ivert_remap)) ivs = Ok ivs'
    /\ mapR (cell_xy (vertexdict_of (numbered (clean_vset vs)))) ivs'
       = Ok cells'
    /\ same_polygons cells cells'.
Proof.
  intros Hnd HM1 HM2. revert cells.
  induction ivs as [|t ivs IH]; intros cells Hcells.
  - injection Hcells as <-. exists [], []. repeat split. constructor.
  - apply mapR_cons_Ok in Hcells as (c & cells0 & Hc & Hcells0 & ->).
    destruct (IH _ Hcells0) as (ivs' & cells' & Hivs' & Hres & Hsame).
    unfold cell_xy in Hc.
    destruct (mapR (dict_get (vertexdict_of vs)) t) as [ps|] eqn:Hps;
      [|discriminate].
    cbn [bind] in Hc. injection Hc as <-.
    destruct (merge_ids vs ivert_remap t ps Hnd HM1 HM2 Hps)
      as (t' & ps' & Ht' & Hps' & HF).
    exists (t' :: ivs'), ((ps'.*1, ps'.*2) :: cells'). cbn [mapR].
    rewrite Ht', Hivs'. cbn [bind]. split; [done|].
    unfold cell_xy at 1. rewrite Hps'. cbn [bind]. rewrite Hres. cbn [bind].
    split; [done|]. constructor; [|done]. cbn [fst snd].
    by rewrite !zip_fst_snd.
Qed.

(** On a valid grid whose vertex ids are not repeated and whose cell vertex
    ids resolve, [clean_iverts(inplace=True)] rewrites the grid with at most
    as many vertices as before, numbered 0, 1, ..., and every cell keeps its
    polygon: its vertices resolve, in order, to the same points, each to its
    own coordinates or to coordinates the dict of the method treats as equal
    to them. *)
Theorem clean_iverts_merges g vs cells :
  is_valid g = true -> _vertices g = Some vs -> NoDup (vertex_ids vs) ->
  cell_coords g = Ok cells ->
  exists g1 vs' cells',
    clean_iverts g true = (Ok None, g1)
    /\ _vertices g1 = Some vs'
    /\ (length vs' <= length vs)%nat
    /\ vertex_ids vs' = Z.of_nat <$> seq 0 (length vs')
    /\ cell_coords g1 = Ok cells'
    /\ same_polygons cells cells'.
Proof.
  intros Hv Hvs Hnd Hcells. unfold cell_coords in Hcells.
  rewrite Hvs in Hcells. cbn [not_None bind] in Hcells.
  destruct (iverts g) as [ivs|] eqn:Hivs; [|discriminate].
  cbn [not_None bind] in Hcells.
  destruct (clean_step_spec (clean_vset vs)) as (remap & Hfold & HM1 & HM2).
  destruct (merge_cells vs remap ivs cells Hnd HM1 HM2 Hcells)
    as (ivs' & cells' & Hivs' & Hres & Hsame).
  assert (Htables : clean_tables g
            = Ok (numbered (clean_vset vs),
                  (fun t : list Z => Some <$> t) <$> ivs')).
  { unfold clean_tables. rewrite Hvs. cbn [not_None bind].
    rewrite Hfold, Hivs. cbn [not_None bind]. by rewrite Hivs'. }
  unfold clean_iverts. rewrite Hv, Htables.
  eexists _, (numbered (clean_vset vs)), cells'.
  split; [reflexivity|]. split; [reflexivity|]. split.
  { unfold numbered. rewrite length_imap. apply clean_vset_spec. }
  split.
  { unfold vertex_ids, numbered. apply list_eq. intros i.
    rewrite !list_lookup_fmap, list_lookup_imap, length_imap.
    destruct (clean_vset vs !! i) as [grp|] eqn:Hg; cbn.
    - by rewrite lookup_seq_lt by (by apply lookup_lt_Some in Hg).
    - apply lookup_ge_None in Hg. by rewrite lookup_seq_ge by lia. }
  split; [|done].
  unfold cell_coords, iverts.
  cbn [_vertices _iverts _require_cache_updates set__cache_dict
       set__vertices_iverts not_None bind].
  rewrite <- list_fmap_compose.
  replace (_ <$> ivs') with ivs'; [done|].
  rewrite <- (list_fmap_id ivs') at 1.
  apply list_fmap_ext. intros ? t _. cbn. by rewrite omap_Some.
Qed.

End MergeFacts.

(** ** The further properties on the example grids *)

Local Open Scope float_scope.
Local Open Scope Z_scope.

Example more_grids_constructed :
  __init__ stacked_args = Ok stacked_squares
  /\ __init__ dangling_args = Ok dangling_square
  /\ __init__ two_centers_args = Ok two_centers
  /\ __init__ complete_args = Ok complete_grid
  /\ __init__ list_centers_args = Ok list_centers_grid
  /\ set_ncpl unit_square (NcplArray 1 [3]) = Ok resized_square.
Proof. repeat split; reflexivity. Qed.

Lemma xyzvertices_cached_witness :
  cache_stale (xyzvertices unit_square).2 "xyzgrid" = false
  /\ xyzvertices (xyzvertices unit_square).2
     = (Ok ([[f0; f1; f1; f0]], [[f0; f0; f1; f1]], None),
        (xyzvertices unit_square).2).
Proof. apply (xyzvertices_cached unit_square). reflexivity. Defined.

Lemma intersect_attrs_witness :
  (intersect (xyzvertices unit_square).2 f5 f5 None false true).2
  = (xyzvertices unit_square).2.
Proof.
  apply (proj2 (intersect_attrs (xyzvertices unit_square).2 f5 f5 None
                  false true)).
  reflexivity.
Defined.

Lemma intersect_returns_first_witness :
  exists (m : nat) n,
    1 = Z.of_nat m /\ intersect_ncpl two_squares = Ok n /\ 1 < n
    /\ cell_passes [[f0; f1; f1; f0]; [f1; f2; f2; f1]]
         [[f0; f0; f1; f1]; [f0; f0; f1; f1]] 1.5%float fhalf m
    /\ forall j, (j < m)%nat ->
         ~ cell_passes [[f0; f1; f1; f0]; [f1; f2; f2; f1]]
             [[f0; f0; f1; f1]; [f0; f0; f1; f1]] 1.5%float fhalf j.
Proof.
  apply (intersect_returns_first two_squares 1.5%float fhalf false
           _ _ (Some ([f1; f1], [f0; f0])) (xyzvertices two_squares).2 1);
    reflexivity.
Defined.

Lemma intersect_z_within_witness :
  exists top botm t b,
    Some ([f2; f1], [f1; f0]) = Some (top, botm)
    /\ py_index top 1 = Ok t /\ py_index botm 1 = Ok b
    /\ num_geb t fhalf = true /\ num_geb fhalf b = true.
Proof.
  apply (intersect_z_within two_layers fhalf fhalf fhalf false false
           [[f0; f1; f1; f0]] [[f0; f0; f1; f1]] _
           (xyzvertices two_layers).2 1); reflexivity.
Defined.

Lemma neighbors_iac_rebuild_witness :
  neighbors no_base_neighbors iac_grid (Some 0) (Some "iac") false
  = (Ok (NbList (py_slice [0; 1; 2; 1; 0; 2; 0] 1 2)),
     set__neighbors iac_grid
       (Some (iac_table [0; 1; 2; 1; 0; 2; 0] ([3; 2] ++ [2]))))
  /\ forall (k : nat) ia,
       ([3; 2] ++ [2]) !! k = Some ia ->
       iac_table [0; 1; 2; 1; 0; 2; 0] ([3; 2] ++ [2]) !! Z.of_nat k
       = Some (py_slice [0; 1; 2; 1; 0; 2; 0] 1 ia).
Proof.
  apply (neighbors_iac_rebuild no_base_neighbors iac_grid (Some 0) false
           [3; 2] 2 [0; 1; 2; 1; 0; 2; 0]); [reflexivity..|by left].
Defined.

Lemma convert_grid_scales_witness :
  exists g',
    convert_grid complete_grid f2 = Ok g'
    /\ _xc g' = Some [f1] /\ _top g' = Some [4%float; f2]
    /\ _angrot g' = f0.
Proof.
  destruct (convert_grid_scales complete_grid f2 square_vertices
              [[Some 0; Some 1; Some 2; Some 3]] [fhalf] [fhalf]
              [f2; f1] [f1; f0] [1; 1])
    as (g' & Hc & _ & _ & Hxc & _ & Htop & _ & _ & _ & Hang);
    try reflexivity.
  exists g'. split; [done|]. split; [exact Hxc|]. split; [exact Htop|done].
Defined.

Lemma convert_grid_single_layer_witness :
  ncpl complete_grid = Some [1; 1] /\ _iac complete_grid = Some [1; 1]
  /\ exists g',
      convert_grid complete_grid f2 = Ok g'
      /\ ncpl g' = Some [1] /\ _iac g' = None /\ _ja g' = None.
Proof.
  split; [reflexivity|]. split; [reflexivity|].
  apply (convert_grid_single_layer complete_grid f2 square_vertices
           [[Some 0; Some 1; Some 2; Some 3]] [fhalf] [fhalf]
           [f2; f1] [f1; f0] [1; 1]); reflexivity.
Defined.

Lemma convert_grid_list_centers_witness :
  convert_grid list_centers_grid f2 = Raise TypeError.
Proof.
  apply (convert_grid_list_centers list_centers_grid f2 [1; 1]);
    [reflexivity|reflexivity|by left|reflexivity].
Defined.

Lemma init_shape_ok_witness :
  shape_ok two_layers
  /\ exists l ivs,
      ncpl two_layers = Some l /\ _iverts two_layers = Some ivs /\ l <> []
      /\ (Forall (fun cpl => cpl = len ivs) l \/ np_sum l = len ivs).
Proof. apply (init_shape_ok two_layers_args two_layers); reflexivity. Defined.

Lemma set_ncpl_invalidates_witness :
  (forall cache_index,
      cache_stale
        (_require_cache_updates
           (set__ncpl (xyzvertices unit_square).2 (Some [1])))
        cache_index = true)
  /\ (xyzvertices
        (_require_cache_updates
           (set__ncpl (xyzvertices unit_square).2 (Some [1])))).1
     = (xyzvertices
          (set__cache_dict
             (_require_cache_updates
                (set__ncpl (xyzvertices unit_square).2 (Some [1]))) ∅)).1.
Proof.
  apply (set_ncpl_invalidates (xyzvertices unit_square).2 (NcplInt 1)).
  reflexivity.
Defined.

Lemma clean_iverts_inplace_distinct_witness :
  exists g1,
    clean_iverts two_squares true = (Ok None, g1)
    /\ cell_coords g1 = cell_coords two_squares.
Proof.
  destruct (clean_iverts_inplace_distinct two_squares
              (square_vertices ++ [(4, f2, f0); (5, f2, f1)])
              [([f0; f1; f1; f0], [f0; f0; f1; f1]);
               ([f1; f2; f2; f1], [f0; f0; f1; f1])])
    as (g1 & Hc & _ & Hcells & _);
    [reflexivity|reflexivity|exact two_squares_distinct|reflexivity|].
  exists g1. split; [done|]. by rewrite Hcells.
Defined.

Lemma layer_node_ranges_witness :
  get_layer_node_range two_layers (Z.of_nat 1) = Ok (1, 2)
  /\ nnodes two_layers = Some 2.
Proof.
  destruct (layer_node_ranges two_layers [1; 1] 1 1)
    as (Hr & _ & _ & Hlast); [reflexivity..|].
  split; [exact Hr|]. by apply Hlast.
Defined.

Lemma nodeskip_outside_layer_witness :
  exists nodeskip,
    cross_section_nodeskip two_layers 2 [(0, tt); (1, tt)] = Ok nodeskip
    /\ nodeskip !! 1%nat = Some [0].
Proof.
  destruct (nodeskip_outside_layer two_layers 2 [(0, tt); (1, tt)] [1; 1])
    as (nodeskip & Hn & _ & Hk); [reflexivity|].
  exists nodeskip. split; [done|].
  destruct (Hk 1%nat 1) as [_ ->]; reflexivity.
Defined.

Lemma plottable_layer_values_witness :
  get_plottable_layer_array two_layers [10; 20] (Z.of_nat 1) = Ok [20].
Proof.
  apply (plottable_layer_values two_layers [10; 20] [1; 1] 1 1);
    [reflexivity|repeat constructor; lia|reflexivity..].
Defined.

Lemma cell_lines_ring_witness :
  exists lines,
    cell_lines [f0; f1; f1; f0] [[f0; f0; f1; f1]] 0 = Ok lines
    /\ lines !! 0%nat = Some ((f0, f1), (f0, f0))
    /\ lines !! 1%nat = Some ((f0, f0), (f1, f0)).
Proof.
  destruct (cell_lines_ring [f0; f1; f1; f0] [f0; f0; f1; f1]
              [[f0; f0; f1; f1]] 0)
    as (lines & Hl & _ & Hk); [reflexivity..|].
  exists lines. split; [done|].
  split; [apply (Hk 0%nat)|apply (Hk 1%nat)]; reflexivity.
Defined.

Lemma grid_lines_flat_witness :
  exists lines,
    grid_lines unit_square
    = (Ok (GlList lines),
       set__copy_cache
         (xyzvertices (set__copy_cache unit_square false)).2 true)
    /\ length lines = 4%nat.
Proof.
  apply (grid_lines_flat unit_square [[f0; f1; f1; f0]] [[f0; f0; f1; f1]]
           None _ 1); [reflexivity..|unfold len; simpl; lia|].
  repeat constructor.
Defined.

Lemma get_cell_vertices_pairs_witness :
  get_cell_vertices unit_square (Z.of_nat 0)
  = (Ok [(f0, f0); (f1, f0); (f1, f1); (f0, f1)],
     set__copy_cache
       (xyzvertices (set__copy_cache unit_square false)).2 true)
  /\ (get_cell_vertices unit_square 7).1 = Raise IndexError
  /\ _copy_cache (get_cell_vertices unit_square 7).2 = false.
Proof.
  destruct (get_cell_vertices_pairs unit_square [[f0; f1; f1; f0]]
              [[f0; f0; f1; f1]] None
              (xyzvertices (set__copy_cache unit_square false)).2)
    as [Hin Hout]; [reflexivity|].
  split; [exact (Hin 0%nat [f0; f1; f1; f0] [f0; f0; f1; f1] eq_refl eq_refl)|].
  destruct (Hout 7) as [-> Hc]; [unfold len; simpl; lia|]. by split.
Defined.

Lemma cross_section_vertices_per_node_witness :
  cross_section_vertices two_layers
  = (Ok ([[f0; f1; f1; f0]; [f0; f1; f1; f0]],
         [[f0; f0; f1; f1]; [f0; f0; f1; f1]]),
     (xyzvertices two_layers).2).
Proof.
  apply (cross_section_vertices_per_node two_layers [[f0; f1; f1; f0]]
           [[f0; f0; f1; f1]] (Some ([f2; f1], [f1; f0]))
           (xyzvertices two_layers).2 [1; 1]);
    [reflexivity|reflexivity|reflexivity|done|repeat constructor|reflexivity].
Defined.

Lemma cell2d_of_table_witness :
  exists g, __init__ table_args = Ok g /\ cell2d g = Ok (Some two_squares_rows).
Proof.
  apply (cell2d_of_table table_args two_squares_rows
           (square_vertices ++ [(4, f2, f0); (5, f2, f1)]));
    [reflexivity..|].
  intros [|[|i]] row Hrow; [| |done]; injection Hrow as <-; by split.
Defined.

Lemma build_geometry_shape_witness :
  exists xv yv ivs,
    cached_xyz (xyzvertices two_layers).2
    = Some (xv, yv, Some ([f2; f1], [f1; f0]))
    /\ iverts two_layers = Some ivs
    /\ Forall2 (fun t xa => length xa = length t) ivs xv
    /\ Forall2 (fun t ya => length ya = length t) ivs yv.
Proof.
  apply (build_geometry_shape two_layers (xyzvertices two_layers).2).
  reflexivity.
Defined.

Lemma from_gridspec_header_comments_witness :
  GridSpec.from_gridspec_header
    (["# grid"; "#made by hand"] ++ "  unstructured " :: ["4"; "6"])
  = Ok ["4"; "6"]
  /\ GridSpec.from_gridspec_header ["# grid"; "#made by hand"]
     = Raise IndexError.
Proof.
  apply (from_gridspec_header_comments ["# grid"; "#made by hand"]
           "  unstructured " ["4"; "6"]);
    [repeat constructor|reflexivity].
Defined.

Lemma plottable_layers_all_plot_witness :
  get_number_plottable_layers two_layers (len [10; 20]) = Some 2
  /\ exists vals n,
      get_plottable_layer_array two_layers [10; 20] 1 = Ok vals
      /\ get_plottable_layer_shape two_layers (Some 1) = Ok (Some n)
      /\ len vals = n.
Proof.
  destruct (plottable_layers_all_plot two_layers [10; 20] [1; 1])
    as [Hn Hall]; [reflexivity|repeat constructor; lia|reflexivity|].
  split; [exact Hn|]. apply Hall. unfold len. simpl. lia.
Defined.

Lemma layer_vertices_slice_witness :
  get_xvertices_for_layer stacked_squares (Z.of_nat 1)
  = (Ok [[f1; f2; f2; f1]], (xyzvertices stacked_squares).2)
  /\ get_yvertices_for_layer stacked_squares (Z.of_nat 1)
     = (Ok [[f0; f0; f1; f1]], (xyzvertices stacked_squares).2).
Proof.
  destruct (layer_vertices_slice stacked_squares
              [[f0; f1; f1; f0]; [f1; f2; f2; f1]]
              [[f0; f0; f1; f1]; [f0; f0; f1; f1]]
              (Some ([f2; f1], [f1; f0]))
              (xyzvertices stacked_squares).2 [1; 1] 1 1)
    as (Hxs & Hys & _);
    [reflexivity|reflexivity|reflexivity|repeat constructor; lia
    |reflexivity..|].
  by split.
Defined.

Lemma cellcenters_unreferenced_witness :
  (xyzcellcenters two_layers).1
  = Ok (Some [fhalf], Some [fhalf], (_zcoords two_layers).2)
  /\ cache_stale (xyzcellcenters two_layers).2 "xyzgrid" = false.
Proof.
  destruct (cellcenters_unreferenced two_layers
              (Some [fhalf], Some [fhalf], (_zcoords two_layers).2)
              (xyzcellcenters two_layers).2)
    as (_ & _ & Hv & _); [reflexivity..|].
  split; [reflexivity|exact Hv].
Defined.

Lemma neighbors_iac_second_call_witness :
  neighbors no_base_neighbors
    (neighbors no_base_neighbors iac_grid (Some 0) (Some "iac") false).2
    (Some (Z.of_nat 0)) (Some "iac") false
  = (Ok (NbList (py_slice [0; 1; 2; 1; 0; 2; 0] 1 3)),
     (neighbors no_base_neighbors iac_grid (Some 0) (Some "iac") false).2).
Proof.
  destruct (neighbors_iac_second_call no_base_neighbors iac_grid (Some 0)
              false [3; 2] 2 [0; 1; 2; 1; 0; 2; 0])
    as [Hnode _]; [reflexivity|reflexivity|by left|].
  exact (Hnode 0%nat 3 eq_refl).
Defined.

Lemma doubled_vertices_NoDup : NoDup (vertex_ids doubled_vertices).
Proof.
  apply (bool_decide_unpack (NoDup (vertex_ids doubled_vertices))).
  vm_compute. exact I.
Qed.

Lemma clean_iverts_merges_witness :
  exists g1 vs' cells',
    clean_iverts doubled_squares true = (Ok None, g1)
    /\ _vertices g1 = Some vs'
    /\ (length vs' <= 8)%nat
    /\ cell_coords g1 = Ok cells'
    /\ same_polygons
         [([f0; f1; f1; f0], [f0; f0; f1; f1]);
          ([f1; f2; f2; f1], [f0; f0; f1; f1])] cells'.
Proof.
  destruct (clean_iverts_merges doubled_squares doubled_vertices
              [([f0; f1; f1; f0], [f0; f0; f1; f1]);
               ([f1; f2; f2; f1], [f0; f0; f1; f1])])
    as (g1 & vs' & cells' & Hc & Hv & Hlen & _ & Hcells & Hsame);
    [reflexivity|reflexivity|exact doubled_vertices_NoDup|reflexivity|].
  by exists g1, vs', cells'.
Defined.

(** After the merge the doubled squares have the six vertices of the two
    squares that share their edge. *)
Example clean_iverts_doubled :
  match (clean_iverts doubled_squares false).1 with
  | Ok (Some g1) => _vertices g1
  | _ => None
  end
  = Some [(0, f0, f0); (1, f1, f0); (2, f1, f1); (3, f0, f1);
          (4, f2, f0); (5, f2, f1)].
Proof. reflexivity. Qed.
